(** * Desbravando Rust: the blog agent and the pull-request reviewer

    A shallow embedding of [scripts/blog_agent.py] and
    [scripts/pr_reviewer.py].  Python text is modelled as the [string]
    of its UTF-8 encoding, Python integers as [Z], the
    process environment as a finite map, and the two remote
    collaborators (the source-control host and the inference endpoint)
    as records of response functions whose calls are written to a log. *)

From Stdlib Require Import ZArith NArith String Ascii List DecimalString
  DecimalPos Floats Lia Sorted Permutation.
From stdpp Require Import gmap strings list.

#[local] Set Warnings "-inexact-float,-register-all".
#[local] Open Scope string_scope.

(** ** Python text operations *)

Module Text.

Definition chr (n : nat) : string := String (ascii_of_nat n) "".

(** Line feed and double quote. *)
Definition nl : string := chr 10.
Definition dq : string := chr 34.

(** The marker of a fenced code block. *)
Definition fence : string := "```".

(** *** Code points

    A Python [str] is a sequence of code points; the [string] that
    stands for it holds the UTF-8 encoding of each code point in turn.
    A byte of the form [10xxxxxx] continues the code point of the byte
    before it; every other byte starts a code point. *)

Definition utf8_encode (cp : N) : string :=
  if (cp <? 0x80)%N then
    String (ascii_of_N cp) ""
  else if (cp <? 0x800)%N then
    String (ascii_of_N (0xC0 + cp / 0x40))
   (String (ascii_of_N (0x80 + cp mod 0x40)) "")
  else if (cp <? 0x10000)%N then
    String (ascii_of_N (0xE0 + cp / 0x1000))
   (String (ascii_of_N (0x80 + (cp / 0x40) mod 0x40))
   (String (ascii_of_N (0x80 + cp mod 0x40)) ""))
  else
    String (ascii_of_N (0xF0 + cp / 0x40000))
   (String (ascii_of_N (0x80 + (cp / 0x1000) mod 0x40))
   (String (ascii_of_N (0x80 + (cp / 0x40) mod 0x40))
   (String (ascii_of_N (0x80 + cp mod 0x40)) ""))).

Definition is_continuation (b : ascii) : bool :=
  let n := N_of_ascii b in (0x80 <=? n)%N && (n <? 0xC0)%N.

(** [len(s)]: the number of code points. *)
Fixpoint py_len (s : string) : nat :=
  match s with
  | "" => O
  | String b s' => if is_continuation b then py_len s' else S (py_len s')
  end.

(** [s[:n]] for a natural [n]: the first [n] code points. *)
Fixpoint py_take (n : nat) (s : string) : string :=
  match s with
  | "" => ""
  | String b s' =>
      if is_continuation b then String b (py_take n s')
      else match n with
           | O => ""
           | S k => String b (py_take k s')
           end
  end.

(** The code points of [s], each as a text of length one. *)
Definition continues (c : string) : bool :=
  match c with
  | String b _ => is_continuation b
  | "" => false
  end.

Fixpoint code_points (s : string) : list string :=
  match s with
  | "" => []
  | String b s' =>
      match code_points s' with
      | c :: cs =>
          if continues c then String b c :: cs else String b "" :: c :: cs
      | [] => [String b ""]
      end
  end.

(** *** Slices, prefixes and suffixes

    The operations below work on the encoding.  The scripts use them
    with ASCII arguments, for which an occurrence in the encoding is an
    occurrence in the text. *)

(** [s[n:]] and [s[:n]] for a natural [n], counted in bytes. *)
Fixpoint str_drop (n : nat) (s : string) : string :=
  match n, s with
  | O, _ => s
  | S _, "" => ""
  | S k, String _ s' => str_drop k s'
  end.

Fixpoint str_take (n : nat) (s : string) : string :=
  match n, s with
  | O, _ => ""
  | S _, "" => ""
  | S k, String c s' => String c (str_take k s')
  end.

Fixpoint str_rev (s : string) : string :=
  match s with
  | "" => ""
  | String c s' => str_rev s' ++ String c ""
  end.

(** [s.startswith(p)] and [s.endswith(p)]. *)
Fixpoint startswith (s p : string) {struct p} : bool :=
  match p, s with
  | "", _ => true
  | String _ _, "" => false
  | String a p', String b s' => Ascii.eqb a b && startswith s' p'
  end.

Definition endswith (s p : string) : bool :=
  String.eqb (str_drop (String.length s - String.length p) s) p.

(** The first entry of a table of encoded code points that [s] starts
    with.  No encoding is a prefix of another, so at most one entry
    matches: the entry of the first code point of [s]. *)
Fixpoint lookup_prefix {A} (table : list (string * A)) (s : string)
  : option (string * A) :=
  match table with
  | [] => None
  | (c, a) :: table' =>
      if startswith s c then Some (c, a) else lookup_prefix table' s
  end.

(** *** White space

    The code points [str.isspace] accepts (Unicode 14.0, the character
    database of CPython 3.11). *)
Definition whitespace : list N :=
  [ 0x9; 0xA; 0xB; 0xC; 0xD; 0x1C; 0x1D; 0x1E;
    0x1F; 0x20; 0x85; 0xA0; 0x1680; 0x2000; 0x2001; 0x2002;
    0x2003; 0x2004; 0x2005; 0x2006; 0x2007; 0x2008; 0x2009; 0x200A;
    0x2028; 0x2029; 0x202F; 0x205F; 0x3000 ]%N.

Definition space_table : list (string * unit) :=
  Eval vm_compute in map (fun cp => (utf8_encode cp, tt)) whitespace.

(** The same table for a text read from its end. *)
Definition reversed {A} (table : list (string * A)) : list (string * A) :=
  map (fun e => (str_rev (fst e), snd e)) table.

(** [s.lstrip()], [s.rstrip()], [s.strip()].  Each step removes one
    code point, so [fuel] steps suffice for a text of [fuel] bytes. *)
Fixpoint lstrip_fuel (table : list (string * unit)) (fuel : nat) (s : string)
  : string :=
  match fuel with
  | O => s
  | S fuel' =>
      match lookup_prefix table s with
      | Some (c, _) => lstrip_fuel table fuel' (str_drop (String.length c) s)
      | None => s
      end
  end.

Definition lstrip (s : string) : string :=
  lstrip_fuel space_table (String.length s) s.

Definition rstrip (s : string) : string :=
  str_rev (lstrip_fuel (reversed space_table) (String.length s) (str_rev s)).

Definition strip (s : string) : string := rstrip (lstrip s).

(** *** Splitting and counting *)

(** [s.partition(sep)] when [sep] occurs in [s]: the text before the
    first occurrence and the text after it. *)
Fixpoint find_split (sep s : string) : option (string * string) :=
  if startswith s sep then Some ("", str_drop (String.length sep) s)
  else match s with
       | "" => None
       | String c s' =>
           match find_split sep s' with
           | Some (a, b) => Some (String c a, b)
           | None => None
           end
       end.

(** [s.split(sep, maxsplit)] for a non-empty [sep]. *)
Fixpoint py_split (sep : string) (maxsplit : nat) (s : string) : list string :=
  match maxsplit with
  | O => [s]
  | S k =>
      match find_split sep s with
      | Some (a, b) => a :: py_split sep k b
      | None => [s]
      end
  end.

(** [s.count(sep)] for a non-empty [sep]: occurrences are counted from
    the left and do not overlap; [skip] characters are still covered
    by the occurrence found last. *)
Fixpoint count_from (sep : string) (skip : nat) (s : string) : nat :=
  match s with
  | "" => O
  | String _ s' =>
      match skip with
      | S k => count_from sep k s'
      | O => if startswith s sep
             then S (count_from sep (String.length sep - 1) s')
             else count_from sep O s'
      end
  end.

Definition count (s sep : string) : nat := count_from sep O s.

(** The file name of a path: the text after its last slash. *)
Fixpoint basename_from (acc s : string) : string :=
  match s with
  | "" => acc
  | String c s' =>
      if Ascii.eqb c "/" then basename_from "" s'
      else basename_from (acc ++ String c "") s'
  end.

Definition basename (path : string) : string := basename_from "" path.

(** [sep.join(l)]. *)
Fixpoint str_join (sep : string) (l : list string) : string :=
  match l with
  | [] => ""
  | [x] => x
  | x :: l' => x ++ sep ++ str_join sep l'
  end.

(** [''.join(l)]. *)
Fixpoint str_concat (l : list string) : string :=
  match l with
  | [] => ""
  | x :: l' => x ++ str_concat l'
  end.

(** *** Integers and digits *)

(** [str(n)] for an integer and the format specifications [04d], [02d]. *)
Definition str_of_Z (z : Z) : string := NilZero.string_of_int (Z.to_int z).

Fixpoint zeros (n : nat) : string :=
  match n with O => "" | S k => String "0" (zeros k) end.

Definition zero_pad (width : nat) (z : Z) : string :=
  if (z <? 0)%Z
  then "-" ++ zeros (width - 1 - String.length (str_of_Z (- z))) ++ str_of_Z (- z)
  else zeros (width - String.length (str_of_Z z)) ++ str_of_Z z.

(** The decimal digits: [\d] of the [re] module matches the code points
    of the Unicode category Nd, and [int] reads each of them with its
    digit value.  The category is made of runs of ten code points, the
    digits zero to nine of one script; [decimal_zeros] lists the digit
    zero of every run (Unicode 14.0, the character database of
    CPython 3.11). *)
Definition decimal_zeros : list N :=
  [ 0x30; 0x660; 0x6F0; 0x7C0; 0x966; 0x9E6; 0xA66; 0xAE6;
    0xB66; 0xBE6; 0xC66; 0xCE6; 0xD66; 0xDE6; 0xE50; 0xED0;
    0xF20; 0x1040; 0x1090; 0x17E0; 0x1810; 0x1946; 0x19D0; 0x1A80;
    0x1A90; 0x1B50; 0x1BB0; 0x1C40; 0x1C50; 0xA620; 0xA8D0; 0xA900;
    0xA9D0; 0xA9F0; 0xAA50; 0xABF0; 0xFF10; 0x104A0; 0x10D30; 0x11066;
    0x110F0; 0x11136; 0x111D0; 0x112F0; 0x11450; 0x114D0; 0x11650; 0x116C0;
    0x11730; 0x118E0; 0x11950; 0x11C50; 0x11D50; 0x11DA0; 0x16A60; 0x16AC0;
    0x16B50; 0x1D7CE; 0x1D7D8; 0x1D7E2; 0x1D7EC; 0x1D7F6; 0x1E140; 0x1E2F0;
    0x1E950; 0x1FBF0 ]%N.

Definition ten_digits : list N := [0; 1; 2; 3; 4; 5; 6; 7; 8; 9]%N.

(** The ten digits of the run that starts at [zero], each with its
    value. *)
Definition digits_from (zero : N) : list (string * Z) :=
  map (fun d => (utf8_encode (zero + d), Z.of_N d)) ten_digits.

Definition digit_table : list (string * Z) :=
  Eval vm_compute in flat_map digits_from decimal_zeros.

(** The decimal digits [s] starts with, each with its value.  A digit
    takes at least one byte, so [fuel] steps suffice for a text of
    [fuel] bytes. *)
Fixpoint scan_digits (fuel : nat) (s : string) : list (string * Z) :=
  match fuel with
  | O => []
  | S fuel' =>
      match lookup_prefix digit_table s with
      | Some (c, v) => (c, v) :: scan_digits fuel' (str_drop (String.length c) s)
      | None => []
      end
  end.

Definition leading_digits (s : string) : list (string * Z) :=
  scan_digits (String.length s) s.

(** The number a sequence of digit values writes in base ten. *)
Definition decimal_value (values : list Z) : Z :=
  fold_left (fun acc v => (10 * acc + v)%Z) values 0%Z.

(** The longest run of digits at the start of [s]: group 1 of
    [re.match] with the pattern [^(\d+)], or [None] when the match fails. *)
Definition digit_run (s : string) : string :=
  str_concat (map fst (leading_digits s)).

Definition match_leading_digits (s : string) : option string :=
  match digit_run s with
  | "" => None
  | g => Some g
  end.

(** The largest number of digits [int] converts
    ([sys.int_info.default_max_str_digits]); it raises [ValueError] for
    a longer text. *)
Definition max_str_digits : nat := 4300.

(** [int(g)] for a run [g] of at most [max_str_digits] digits. *)
Definition int_of_digits (g : string) : Z :=
  decimal_value (map snd (leading_digits g)).

(** *** [int] of a text

    [int(s)] first rewrites [s] to ASCII: a code point below 128 stays,
    a white space becomes a space, a decimal digit becomes the ASCII
    digit of its value, and any other code point makes the conversion
    fail.  The ASCII text is then read as surrounding white space, an
    optional sign, and digits with single underscores between them. *)

Definition ascii_digit (v : Z) : ascii := ascii_of_N (0x30 + Z.to_N v).

Definition int_table : list (string * ascii) :=
  Eval vm_compute in
    (map (fun cp => (utf8_encode cp, " "%char))
         (List.filter (fun cp => (0x80 <=? cp)%N) whitespace)
     ++ map (fun e => (fst e, ascii_digit (snd e))) digit_table)%list.

Fixpoint decimal_and_space_to_ascii (fuel : nat) (s : string) : option string :=
  match s with
  | "" => Some ""
  | String b s' =>
      match fuel with
      | O => None
      | S fuel' =>
          if (N_of_ascii b <? 0x80)%N then
            match decimal_and_space_to_ascii fuel' s' with
            | Some r => Some (String b r)
            | None => None
            end
          else
            match lookup_prefix int_table s with
            | Some (c, a) =>
                match decimal_and_space_to_ascii fuel'
                        (str_drop (String.length c) s) with
                | Some r => Some (String a r)
                | None => None
                end
            | None => None
            end
      end
  end.

(** The white space and the digits of the ASCII text. *)
Definition is_ascii_space (c : ascii) : bool :=
  let n := nat_of_ascii c in (Nat.leb 9 n && Nat.leb n 13) || Nat.eqb n 32.

Definition is_ascii_digit (c : ascii) : bool :=
  let n := nat_of_ascii c in Nat.leb 48 n && Nat.leb n 57.

Fixpoint ascii_lstrip (s : string) : string :=
  match s with
  | "" => ""
  | String c s' => if is_ascii_space c then ascii_lstrip s' else s
  end.

Definition ascii_strip (s : string) : string :=
  str_rev (ascii_lstrip (str_rev (ascii_lstrip s))).

(** Digits with single underscores between them; the result is the
    digits without the underscores. *)
Fixpoint digits_with_underscores (s : string) : option string :=
  match s with
  | "" => None
  | String c s' =>
      if is_ascii_digit c then
        match s' with
        | "" => Some (String c "")
        | String "_" s'' =>
            match digits_with_underscores s'' with
            | Some g => Some (String c g)
            | None => None
            end
        | _ =>
            match digits_with_underscores s' with
            | Some g => Some (String c g)
            | None => None
            end
        end
      else None
  end.

Definition int_of_body (body : string) : option Z :=
  match digits_with_underscores body with
  | Some g =>
      if Nat.leb (String.length g) max_str_digits
      then Some (int_of_digits g) else None
  | None => None
  end.

Definition int_of_ascii (s : string) : option Z :=
  match ascii_strip s with
  | String "-" body =>
      match int_of_body body with
      | Some n => Some (- n)%Z
      | None => None
      end
  | String "+" body => int_of_body body
  | body => int_of_body body
  end.

(** [int(s)] for a text [s] in base ten.  [None] stands for
    [ValueError]. *)
Definition py_int (s : string) : option Z :=
  match decimal_and_space_to_ascii (String.length s) s with
  | Some a => int_of_ascii a
  | None => None
  end.

(** *** The leading integer of a name, as the specification words it

    A text is a decimal digit of value [v] when it is the encoding of
    the code point [zero + v] of one of the runs of decimal digits. *)
Definition decimal_digit (c : string) (v : Z) : Prop :=
  exists zero d,
    In zero decimal_zeros /\ (d < 10)%N /\
    c = utf8_encode (zero + d) /\ v = Z.of_N d.

Definition starts_with_decimal_digit (s : string) : Prop :=
  exists c v rest, decimal_digit c v /\ s = c ++ rest.

(** [name] starts with the integer [n]: it is one or more decimal
    digits that write [n] in base ten, followed by a text that does not
    start with a decimal digit. *)
Definition leading_integer (name : string) (n : Z) : Prop :=
  exists (digits : list (string * Z)) (rest : string),
    digits <> [] /\
    Forall (fun d => decimal_digit (fst d) (snd d)) digits /\
    name = str_concat (map fst digits) ++ rest /\
    ~ starts_with_decimal_digit rest /\
    n = decimal_value (map snd digits).

(** [name] starts with at most [limit] decimal digits. *)
Definition leading_digits_within (limit : nat) (name : string) : Prop :=
  forall (digits : list (string * Z)) (rest : string),
    Forall (fun d => decimal_digit (fst d) (snd d)) digits ->
    name = str_concat (map fst digits) ++ rest ->
    length digits <= limit.

End Text.


(** ** Python values, exceptions and the effect monad *)

Module Py.

Import Text.

(** The exceptions the two scripts can meet.  [GithubException] stands
    for the class and its subclasses, told apart by the HTTP status. *)
Inductive exn : Type :=
| KeyError (key : string)
| ValueError
| TypeError
| AttributeError
| IndexError
| YAMLError
| JSONDecodeError
| GithubException (status : Z)
| OtherError (name : string).

Definition is_GithubException (e : exn) : bool :=
  match e with GithubException _ => true | _ => false end.

Definition is_YAMLError (e : exn) : bool :=
  match e with YAMLError => true | _ => false end.

Definition is_ValueError (e : exn) : bool :=
  match e with ValueError => true | _ => false end.

(** The objects [yaml.safe_load] and [json.loads] build.  A [dict]
    keeps its items in insertion order, with distinct keys; a [set] is
    given by its elements in the order an iteration visits them.
    [yaml.safe_load] also builds [bytes] (tag [!!binary]),
    [datetime.date] and [datetime.datetime] objects (timestamps, given
    by their ISO text), [set] objects (tag [!!set]) and lists of
    [tuple] pairs (tags [!!omap] and [!!pairs]). *)
Inductive pyval : Type :=
| PNone
| PBool (b : bool)
| PInt (z : Z)
| PFloat (f : float)
| PStr (s : string)
| PBytes (b : string)
| PDate (iso : string)
| PDatetime (iso : string)
| PList (l : list pyval)
| PTuple (l : list pyval)
| PSet (elements : list pyval)
| PDict (items : list (pyval * pyval)).

(** Truth value of an object, as [or], [not] and [if] test it. *)
Definition truthy (v : pyval) : bool :=
  match v with
  | PNone => false
  | PBool b => b
  | PInt z => negb (z =? 0)%Z
  | PFloat f => negb (PrimFloat.eqb f 0%float)
  | PStr s => negb (String.eqb s "")
  | PBytes b => negb (String.eqb b "")
  | PDate _ => true
  | PDatetime _ => true
  | PList l => match l with [] => false | _ => true end
  | PTuple l => match l with [] => false | _ => true end
  | PSet elements => match elements with [] => false | _ => true end
  | PDict items => match items with [] => false | _ => true end
  end.

Definition py_or (a b : pyval) : pyval := if truthy a then a else b.

(** [x or y] on two strings. *)
Definition str_or (a b : string) : string :=
  if String.eqb a "" then b else a.

(** Only a [str] key compares equal to a [str]. *)
Definition key_is (k : string) (key : pyval) : bool :=
  match key with PStr s => String.eqb s k | _ => false end.

Fixpoint lookup_key (k : string) (items : list (pyval * pyval)) : option pyval :=
  match items with
  | [] => None
  | (key, v) :: rest => if key_is k key then Some v else lookup_key k rest
  end.

Definition dict_keys (items : list (pyval * pyval)) : list pyval := map fst items.

(** [v.get(k, default)]: only a [dict] has the method. *)
Definition py_get (v : pyval) (k : string) (default : pyval) : exn + pyval :=
  match v with
  | PDict items =>
      inr (match lookup_key k items with Some x => x | None => default end)
  | _ => inl AttributeError
  end.

(** [v[k]] for a text key [k]. *)
Definition py_getitem (v : pyval) (k : string) : exn + pyval :=
  match v with
  | PDict items =>
      match lookup_key k items with Some x => inr x | None => inl (KeyError k) end
  | _ => inl TypeError
  end.

(** The elements of a [str] are its code points, those of a [bytes]
    its bytes as integers. *)
Definition chars (s : string) : list pyval := map PStr (code_points s).

Fixpoint byte_values (b : string) : list pyval :=
  match b with
  | "" => []
  | String c b' => PInt (Z.of_N (N_of_ascii c)) :: byte_values b'
  end.

(** The elements [for x in v] visits. *)
Definition py_iter (v : pyval) : exn + list pyval :=
  match v with
  | PList l => inr l
  | PTuple l => inr l
  | PSet elements => inr elements
  | PStr s => inr (chars s)
  | PBytes b => inr (byte_values b)
  | PDict items => inr (dict_keys items)
  | _ => inl TypeError
  end.

Fixpoint all_str (l : list pyval) : exn + list string :=
  match l with
  | [] => inr []
  | PStr s :: l' =>
      match all_str l' with inr r => inr (s :: r) | inl e => inl e end
  | _ :: _ => inl TypeError
  end.

(** [sep.join(v)]: [v] must be an iterable of [str]. *)
Definition py_join (sep : string) (v : pyval) : exn + string :=
  match py_iter v with
  | inl e => inl e
  | inr l => match all_str l with inl e => inl e | inr ss => inr (str_join sep ss) end
  end.

(** Sequencing of steps that can raise. *)
Definition ebind {A B} (r : exn + A) (k : A -> exn + B) : exn + B :=
  match r with
  | inl e => inl e
  | inr a => k a
  end.

(** [max(numbers, default=d)]. *)
Definition py_max (numbers : list Z) (default : Z) : Z :=
  match numbers with
  | [] => default
  | n :: rest => fold_left Z.max rest n
  end.

(** [l[-n:]]. *)
Definition last_n {A} (n : nat) (l : list A) : list A :=
  skipn (length l - n) l.

(** What the interpreter and the two parsing libraries supply. *)
Class Externals : Type := {
  (** [yaml.safe_load] *)
  yaml_safe_load : string -> exn + pyval;
  (** [json.loads]; [None] when the text is not valid JSON *)
  json_loads : string -> option pyval;
  (** [json.dumps(v, ensure_ascii=False)] *)
  json_dumps : pyval -> string;
  (** [str(v)] for an object other than a text, [None], a truth value
      or an integer *)
  str_of_compound : pyval -> string
}.

(** The text an f-string puts in place of [{v}]. *)
Definition fmt `{Externals} (v : pyval) : string :=
  match v with
  | PStr s => s
  | PNone => "None"
  | PBool true => "True"
  | PBool false => "False"
  | PInt z => str_of_Z z
  | _ => str_of_compound v
  end.

End Py.

(** ** The collaborators and the effects of a run *)

Module Effects.

Import Text Py.

(** The calendar date [datetime.now()] reads. *)
Record datetime : Type := { year : Z; month : Z; day : Z }.

(** What [repo.get_contents] answers: one file, or the entries of a
    directory.  [cf_text] is the decoded text of
    [decoded_content]. *)
Record ContentFile : Type :=
  { cf_name : string; cf_type : string; cf_text : string }.

Inductive Contents : Type :=
| OneFile (f : ContentFile)
| Listing (items : list ContentFile).

(** A pull request of the host: [get_files] lists the file names of the
    changed files in order. *)
Record PullRequest : Type := {
  pr_title : string;
  pr_head_sha : string;
  get_files : exn + list string;
  create_issue_comment : string -> exn + unit
}.

(** A repository of the host, one field per method the scripts call.
    [get_branch] answers the sha of the tip commit, [create_pull] the
    [html_url] of the new pull request. *)
Record Repo : Type := {
  full_name : string;
  get_contents : string -> option string -> exn + Contents;
  get_branch : string -> exn + string;
  create_git_ref : string -> string -> exn + unit;
  create_file : string -> string -> string -> string -> exn + unit;
  create_pull : string -> string -> string -> string -> bool -> exn + string;
  get_pull : Z -> exn + PullRequest
}.

Record InferenceClient : Type :=
  { provider : option string; api_key : string }.

(** The world outside the process.  [chat] answers the message content
    of each choice ([None] for a content of [None]). *)
Record World : Type := {
  github_get_repo : string -> string -> exn + Repo;
  chat : InferenceClient -> string -> string -> Z -> float ->
         exn + list (option string);
  clock : nat -> datetime
}.

(** One entry of the log per call that leaves the process. *)
Inductive Call : Type :=
| Print (line : string)
| Now
| GetRepo (token name : string)
| GetContents (path : string) (ref : option string)
| GetBranch (name : string)
| CreateGitRef (ref sha : string)
| CreateFile (path message content branch : string)
| CreatePull (base head title body : string) (draft : bool)
| GetPull (number : Z)
| GetFiles
| CreateIssueComment (body : string)
| ChatCompletion (client : InferenceClient) (model message : string)
                 (max_tokens : Z) (temperature : float).

Definition is_Now (c : Call) : bool :=
  match c with Now => true | _ => false end.

Definition is_ChatCompletion (c : Call) : bool :=
  match c with ChatCompletion _ _ _ _ _ => true | _ => false end.

Definition is_CreateIssueComment (c : Call) : bool :=
  match c with CreateIssueComment _ => true | _ => false end.

Definition is_Print (c : Call) : bool :=
  match c with Print _ => true | _ => false end.

(** A computation reads the world, extends the log, and returns a
    value or raises. *)
Definition M (A : Type) : Type :=
  World -> list Call -> (exn + A) * list Call.

Definition ret {A} (a : A) : M A := fun _ log => (inr a, log).

Definition raise {A} (e : exn) : M A := fun _ log => (inl e, log).

Definition bind {A B} (m : M A) (k : A -> M B) : M B :=
  fun w log =>
    match m w log with
    | (inr a, log') => k a w log'
    | (inl e, log') => (inl e, log')
    end.

(** [try: m except E: h], where [handles] tells the exceptions of class
    [E]. *)
Definition try_except {A} (m : M A) (handles : exn -> bool) (h : M A) : M A :=
  fun w log =>
    match m w log with
    | (inl e, log') => if handles e then h w log' else (inl e, log')
    | r => r
    end.

Definition lift {A} (r : exn + A) : M A := fun _ log => (r, log).

(** A logged call with the collaborator's answer. *)
Definition call {A} (c : Call) (answer : exn + A) : M A :=
  fun _ log => (answer, (log ++ [c])%list).

Definition print (line : string) : M unit := call (Print line) (inr tt).

Definition now : M datetime :=
  fun w log =>
    (inr (clock w (length (List.filter is_Now log))),
     (log ++ [Now])%list).

Definition with_world {A} (f : World -> M A) : M A := fun w log => f w w log.

(** [resp.choices[0].message.content.strip()]. *)
Definition first_content (choices : list (option string)) : exn + string :=
  match choices with
  | [] => inl IndexError
  | None :: _ => inl AttributeError
  | Some content :: _ => inr (strip content)
  end.

(** The number of logged calls of one kind. *)
Definition count_calls (kind : Call -> bool) (log : list Call) : nat :=
  length (List.filter kind log).

(** A computation that only appends to the log. *)
Definition extends {A} (m : M A) : Prop :=
  forall w log, exists rest, snd (m w log) = (log ++ rest)%list.

Definition run {A} (m : M A) (w : World) : (exn + A) * list Call := m w [].

End Effects.

Declare Scope eff_scope.
Delimit Scope eff_scope with eff.
Notation "'let*' x ':=' c1 'in' c2" := (Effects.bind c1 (fun x => c2))
  (at level 10, x name, c1 at level 100, c2 at level 200) : eff_scope.
Notation "c1 ';;' c2" := (Effects.bind c1 (fun _ => c2))
  (at level 100, c2 at level 200, right associativity) : eff_scope.

(** ** scripts/blog_agent.py *)

Module BlogAgent.

Import Text Py Effects.
#[local] Open Scope eff_scope.

(** The module-level configuration, read from [os.environ] when the
    script starts. *)
Record Config : Type :=
  { GITHUB_TOKEN : string; HF_TOKEN : string; REPO_NAME : string }.

(** [os.environ[k]]. *)
Definition environ_getitem (environ : gmap string string) (k : string)
  : exn + string :=
  match environ !! k with
  | Some v => inr v
  | None => inl (KeyError k)
  end.

Definition load_config (environ : gmap string string) : exn + Config :=
  ebind (environ_getitem environ "GITHUB_TOKEN") (fun github_token =>
  ebind (environ_getitem environ "HF_TOKEN") (fun hf_token =>
  ebind (environ_getitem environ "GITHUB_REPOSITORY") (fun repo_name =>
  inr {| GITHUB_TOKEN := github_token;
         HF_TOKEN := hf_token;
         REPO_NAME := repo_name |}))).

Definition POSTS_DIR : string := "posts".
Definition MAIN_BRANCH : string := "main".
Definition MODEL_ID : string := "mistralai/Mistral-7B-Instruct-v0.3".
Definition POST_FILENAME : string := "README.md".

Definition BLOG_CONTEXT : string :=
  str_join nl
    [ "";
      "Você é um escritor técnico especializado em Rust e Python.";
      "O blog 'Desbravando Rust' é voltado para programadores brasileiros,";
      "especialmente aqueles com background em Python que querem aprender Rust.";
      "O blog serve como material de apoio para o livro 'Desbravando Rust'.";
      "Escreva SEMPRE em PT-BR, com linguagem acessível e didática.";
      "" ].

(** *** 1. The existing posts *)

Definition parse_frontmatter `{Externals} (content : string) : exn + pyval :=
  if negb (startswith content "---") then inr (PDict [])
  else
    let parts := py_split "---" 2 content in
    if Nat.ltb (length parts) 3 then inr (PDict [])
    else
      match yaml_safe_load (nth 1 parts "") with
      | inr v => inr (py_or v (PDict []))
      | inl e => if is_YAMLError e then inr (PDict []) else inl e
      end.

(** The dictionary [get_existing_posts] builds for each post. *)
Record Post : Type := {
  dirname : string;
  title : pyval;
  tags : pyval;
  categories : pyval;
  description : pyval
}.

(** [sorted(items, key=lambda x: x.name)]: a stable sort on the names. *)
Fixpoint insert_by_name (x : ContentFile) (l : list ContentFile)
  : list ContentFile :=
  match l with
  | [] => [x]
  | y :: l' =>
      if String.leb (cf_name x) (cf_name y) then x :: y :: l'
      else y :: insert_by_name x l'
  end.

Fixpoint sorted_by_name (l : list ContentFile) : list ContentFile :=
  match l with
  | [] => []
  | x :: l' => insert_by_name x (sorted_by_name l')
  end.

(** The order of the names. *)
Definition name_le (x y : ContentFile) : Prop :=
  String.leb (cf_name x) (cf_name y) = true.

(** Iterating over the answer of [get_contents]: a single file is not
    iterable. *)
Definition contents_items (c : Contents) : exn + list ContentFile :=
  match c with
  | Listing items => inr items
  | OneFile _ => inl TypeError
  end.

(** The decoded text of [f.decoded_content]: a listing has no
    [decoded_content]. *)
Definition decoded_text (c : Contents) : exn + string :=
  match c with
  | OneFile f => inr (cf_text f)
  | Listing _ => inl AttributeError
  end.

Definition post_path (name : string) : string :=
  POSTS_DIR ++ "/" ++ name ++ "/" ++ POST_FILENAME.

(** The dictionary the [try] block builds from the fetched document. *)
Definition post_of `{Externals} (item : ContentFile) (f : Contents) : exn + Post :=
  ebind (decoded_text f) (fun text =>
  ebind (parse_frontmatter text) (fun fm =>
  ebind (py_get fm "title" (PStr (cf_name item))) (fun t =>
  ebind (py_get fm "tags" (PList [])) (fun tg =>
  ebind (py_get fm "categories" (PList [])) (fun c =>
  ebind (py_get fm "description" (PStr "")) (fun d =>
  inr {| dirname := cf_name item; title := t; tags := tg;
         categories := c; description := d |})))))).

(** The body of the [try] block for one directory. *)
Definition read_post `{Externals} (repo : Repo) (item : ContentFile)
    (posts : list Post) : M (list Post) :=
  let* f := call (GetContents (post_path (cf_name item)) None)
                 (get_contents repo (post_path (cf_name item)) None) in
  let* post := lift (post_of item f) in
  ret (posts ++ [post])%list.

(** The [for] loop over the sorted entries. *)
Fixpoint scan_posts `{Externals} (repo : Repo) (items : list ContentFile)
    (posts : list Post) : M (list Post) :=
  match items with
  | [] => ret posts
  | item :: rest =>
      if negb (String.eqb (cf_type item) "dir") then scan_posts repo rest posts
      else
        let* posts' := try_except (read_post repo item posts)
                                  is_GithubException
                                  (ret posts) in
        scan_posts repo rest posts'
  end.

Definition get_existing_posts `{Externals} (repo : Repo) : M (list Post) :=
  let posts := [] in
  let* listed :=
    try_except
      (let* items := call (GetContents POSTS_DIR None)
                          (get_contents repo POSTS_DIR None) in
       ret (Some items))
      is_GithubException
      (print ("  ⚠️  Diretório '" ++ POSTS_DIR
              ++ "' não encontrado. Iniciando do zero.") ;;
       ret None) in
  match listed with
  | None => ret posts
  | Some items =>
      let* entries := lift (contents_items items) in
      scan_posts repo (sorted_by_name entries) posts
  end.

(** The number the loop of [get_next_number] appends for a post: the
    integer value of the digits its directory name starts with. *)
Definition leading_number (p : Post) : option Z :=
  match match_leading_digits (dirname p) with
  | Some g => Some (int_of_digits g)
  | None => None
  end.

Definition get_next_number (posts : list Post) : Z :=
  let numbers :=
    fold_left
      (fun numbers p =>
         match match_leading_digits (dirname p) with
         | Some g => (numbers ++ [int_of_digits g])%list
         | None => numbers
         end)
      posts [] in
  (py_max numbers 0 + 1)%Z.

(** The repository with another listing of the posts directory, used to
    compare two states of the host. *)
Definition with_listing (repo : Repo) (items : list ContentFile) : Repo :=
  {| full_name := full_name repo;
     get_contents := fun path ref =>
       if String.eqb path POSTS_DIR then inr (Listing items)
       else get_contents repo path ref;
     get_branch := get_branch repo;
     create_git_ref := create_git_ref repo;
     create_file := create_file repo;
     create_pull := create_pull repo;
     get_pull := get_pull repo |}.

(** What the [try] block of the loop computes for a directory: the
    post, or the exception raised on the way. *)
Definition fetched_post `{Externals} (repo : Repo) (item : ContentFile)
  : exn + Post :=
  ebind (get_contents repo (post_path (cf_name item)) None) (post_of item).

(** The entry of the result for one entry of the listing: none for an
    entry that is not a directory or whose [try] block raises. *)
Definition listed_post `{Externals} (repo : Repo) (item : ContentFile)
  : option Post :=
  if negb (String.eqb (cf_type item) "dir") then None
  else match fetched_post repo item with
       | inr post => Some post
       | inl _ => None
       end.

(** An entry of the listing the loop gets past: not a directory, a
    directory whose [try] block raises [GithubException], or a directory
    whose document gives a post. *)
Definition readable `{Externals} (repo : Repo) (item : ContentFile) : Prop :=
  String.eqb (cf_type item) "dir" = false \/
  (exists status, fetched_post repo item = inl (GithubException status)) \/
  (exists post, fetched_post repo item = inr post).

(** *** 2. The next topic *)

(** [seq.map] for a function that can raise: the first exception wins. *)
Fixpoint map_exn {A B} (f : A -> exn + B) (l : list A) : exn + list B :=
  match l with
  | [] => inr []
  | x :: l' =>
      match f x with
      | inl e => inl e
      | inr y =>
          match map_exn f l' with
          | inl e => inl e
          | inr ys => inr (y :: ys)
          end
      end
  end.

Definition topic_line `{Externals} (p : Post) : exn + string :=
  match py_join ", " (tags p) with
  | inl e => inl e
  | inr joined =>
      inr ("- [" ++ dirname p ++ "] " ++ fmt (title p) ++ "  | tags: " ++ joined)
  end.

Definition topic_prompt (topics_list : string) : string :=
  str_join nl
    [ "";
      BLOG_CONTEXT;
      "";
      "## Posts já publicados:";
      topics_list;
      "";
      "## Sua tarefa:";
      "Sugira o PRÓXIMO post. O tema deve:";
      "- NÃO repetir nenhum dos temas acima";
      "- Ter progressão lógica de aprendizado de Rust para quem vem do Python";
      "- Ser específico o suficiente para um post focado";
      "";
      "Responda SOMENTE com JSON válido, sem blocos de código markdown:";
      "{";
      "  " ++ dq ++ "title" ++ dq ++ ": " ++ dq ++ "Título do post em PT-BR" ++ dq ++ ",";
      "  " ++ dq ++ "slug" ++ dq ++ ": " ++ dq ++ "slug-curto-kebab-case" ++ dq ++ ",";
      "  " ++ dq ++ "description" ++ dq ++ ": " ++ dq ++ "Uma frase descrevendo o post" ++ dq ++ ",";
      "  " ++ dq ++ "tags" ++ dq ++ ": [" ++ dq ++ "tag1" ++ dq ++ ", " ++ dq ++ "tag2" ++ dq ++ ", " ++ dq ++ "tag3" ++ dq ++ "],";
      "  " ++ dq ++ "categories" ++ dq ++ ": [" ++ dq ++ "rust" ++ dq ++ "],";
      "  " ++ dq ++ "outline" ++ dq ++ ": [";
      "    " ++ dq ++ "Introdução: ..." ++ dq ++ ",";
      "    " ++ dq ++ "Seção 1: ..." ++ dq ++ ",";
      "    " ++ dq ++ "Seção 2: ..." ++ dq ++ ",";
      "    " ++ dq ++ "Comparação com Python: ..." ++ dq ++ ",";
      "    " ++ dq ++ "Conclusão: ..." ++ dq;
      "  ]";
      "}";
      "" ].

(** [re.sub] of the pattern [^```(?:json)?\n?] by the empty text: without
    [re.MULTILINE] the pattern matches at the start only. *)
Definition sub_leading_fence (raw : string) : string :=
  if startswith raw "```" then
    let r1 := str_drop 3 raw in
    let r2 := if startswith r1 "json" then str_drop 4 r1 else r1 in
    if startswith r2 nl then str_drop 1 r2 else r2
  else raw.

(** [s] without its last character when that is a line feed. *)
Definition drop_final_newline (s : string) : string :=
  if endswith s nl then str_take (String.length s - 1) s else s.

(** [re.sub] of the pattern [\n?```$] by the empty text: [$] matches at
    the end of the text and just before a line feed that ends the text. *)
Definition sub_trailing_fence (raw : string) : string :=
  if endswith raw "```" then
    drop_final_newline (str_take (String.length raw - 3) raw)
  else if endswith raw ("```" ++ nl) then
    drop_final_newline (str_take (String.length raw - 4) raw) ++ nl
  else raw.

(** The text handed to [json.loads]. *)
Definition strip_fences (raw : string) : string :=
  sub_trailing_fence (sub_leading_fence raw).

Definition decode_json `{Externals} (raw : string) : M pyval :=
  match json_loads raw with
  | Some v => ret v
  | None => raise JSONDecodeError
  end.

Definition choose_next_topic `{Externals} (posts : list Post)
    (client : InferenceClient) : M pyval :=
  let* lines := lift (map_exn topic_line posts) in
  let topics_list := str_or (str_join nl lines) "Nenhum post publicado ainda." in
  let prompt := topic_prompt topics_list in
  let* choices :=
    with_world (fun w =>
      call (ChatCompletion client MODEL_ID prompt 600 0.7)
           (chat w client MODEL_ID prompt 600 0.7)) in
  let* raw := lift (first_content choices) in
  let raw := sub_leading_fence raw in
  let raw := sub_trailing_fence raw in
  decode_json raw.

(** *** 3. The content of the post *)

Definition strftime_Ymd (sep : string) (d : datetime) : string :=
  zero_pad 4 (year d) ++ sep ++ zero_pad 2 (month d) ++ sep ++ zero_pad 2 (day d).

Definition strftime_dmY (sep : string) (d : datetime) : string :=
  zero_pad 2 (day d) ++ sep ++ zero_pad 2 (month d) ++ sep ++ zero_pad 4 (year d).

Definition post_prompt `{Externals} (recent_titles outline today tags_joined : string)
    (title slug description tags categories : pyval) : string :=
  str_join nl
    [ "";
      BLOG_CONTEXT;
      "";
      "## Contexto (últimos posts publicados):";
      str_or recent_titles "Nenhum ainda.";
      "";
      "## Post a ser escrito:";
      "Título: " ++ fmt title;
      "Slug: " ++ fmt slug;
      "Descrição: " ++ fmt description;
      "Tags: " ++ tags_joined;
      "";
      "Outline sugerido:";
      outline;
      "";
      "## Regras de escrita:";
      "1. Linguagem acessível para quem tem pouco contexto em Rust";
      "2. Inclua blocos ```rust com comentários em PT-BR explicando cada parte";
      "3. Compare com Python (```python) sempre que facilitar o entendimento";
      "4. Use subtítulos (##, ###) para organizar o post";
      "5. Inclua uma introdução cativante e uma conclusão com resumo dos aprendizados";
      "6. Use emojis com moderação para deixar mais amigável";
      "7. O post deve ter profundidade suficiente para ser útil, sem ser excessivamente longo";
      "";
      "## Formato de saída:";
      "Gere APENAS o conteúdo markdown, começando obrigatoriamente com o frontmatter:";
      "";
      "---";
      "title: " ++ dq ++ fmt title ++ dq;
      "date: " ++ today;
      "slug: " ++ fmt slug;
      "tags: " ++ json_dumps tags;
      "categories: " ++ json_dumps categories;
      "description: " ++ dq ++ fmt description ++ dq;
      "draft: false";
      "---";
      "";
      "Escreva o post completo abaixo do frontmatter.";
      "" ].

Definition generate_post_content `{Externals} (topic : pyval)
    (posts : list Post) (client : InferenceClient) : M string :=
  let* d := now in
  let today := strftime_Ymd "-" d in
  let recent_titles :=
    str_join nl (map (fun p => "- " ++ fmt (title p)) (last_n 5 posts)) in
  let* sections := lift (py_get topic "outline" (PList [])) in
  let* sections := lift (py_iter sections) in
  let outline := str_join nl (map (fun s => "  - " ++ fmt s) sections) in
  let* title := lift (py_getitem topic "title") in
  let* slug := lift (py_getitem topic "slug") in
  let* description := lift (py_getitem topic "description") in
  let* tags := lift (py_getitem topic "tags") in
  let* tags_joined := lift (py_join ", " tags) in
  let* categories := lift (py_get topic "categories" (PList [PStr "rust"])) in
  let prompt := post_prompt recent_titles outline today tags_joined
                            title slug description tags categories in
  let* choices :=
    with_world (fun w =>
      call (ChatCompletion client MODEL_ID prompt 4096 0.75)
           (chat w client MODEL_ID prompt 4096 0.75)) in
  lift (first_content choices).

(** *** 4. Branch, file and pull request *)

Definition pr_body `{Externals} (title description : pyval)
    (file_path tags_quoted today_br : string) : string :=
  str_join nl
    [ "";
      "## 🤖 Post gerado automaticamente pelo Blog Agent";
      "";
      "| Campo | Valor |";
      "|-------|-------|";
      "| **Título** | " ++ fmt title ++ " |";
      "| **Arquivo** | `" ++ file_path ++ "` |";
      "| **Tags** | " ++ tags_quoted ++ " |";
      "| **Gerado em** | " ++ today_br ++ " |";
      "";
      "### 📝 Descrição";
      fmt description;
      "";
      "---";
      "> ⚠️ **Revisão obrigatória antes do merge:**";
      "> - [ ] Precisão técnica do conteúdo Rust";
      "> - [ ] Exemplos de código compilam corretamente";
      "> - [ ] Linguagem adequada ao público-alvo";
      "> - [ ] Frontmatter correto (tags, slug, data)";
      "" ].

Definition create_pull_request `{Externals} (repo : Repo) (post_number : Z)
    (topic : pyval) (content : string) : M string :=
  let* slug := lift (py_getitem topic "slug") in
  let dirname := zero_pad 4 post_number ++ "-" ++ fmt slug in
  let file_path := POSTS_DIR ++ "/" ++ dirname ++ "/" ++ POST_FILENAME in
  let* d := now in
  let branch := "agent/post-" ++ strftime_Ymd "" d ++ "-" ++ fmt slug in
  let* d' := now in
  let today_br := strftime_dmY "/" d' in
  let* base_sha := call (GetBranch MAIN_BRANCH) (get_branch repo MAIN_BRANCH) in
  call (CreateGitRef ("refs/heads/" ++ branch) base_sha)
       (create_git_ref repo ("refs/heads/" ++ branch) base_sha) ;;
  print ("  🌿 Branch criada: " ++ branch) ;;
  call (CreateFile file_path ("feat(blog): add post " ++ dirname) content branch)
       (create_file repo file_path ("feat(blog): add post " ++ dirname)
                    content branch) ;;
  print ("  📄 Arquivo criado: " ++ file_path) ;;
  let* title := lift (py_getitem topic "title") in
  let* tags := lift (py_getitem topic "tags") in
  let* tags := lift (py_iter tags) in
  let tags_quoted := str_join ", " (map (fun t => "`" ++ fmt t ++ "`") tags) in
  let* description := lift (py_getitem topic "description") in
  let body := pr_body title description file_path tags_quoted today_br in
  call (CreatePull MAIN_BRANCH branch ("[Blog Agent] " ++ fmt title) body false)
       (create_pull repo MAIN_BRANCH branch ("[Blog Agent] " ++ fmt title)
                    body false).

(** The branch of a first publication for a slug: the clock is read for
    the first time when the branch is named. *)
Definition branch_of (w : World) (slug : string) : string :=
  "agent/post-" ++ strftime_Ymd "" (clock w 0) ++ "-" ++ slug.

(** *** The run *)

Definition str_of_nat (n : nat) : string := str_of_Z (Z.of_nat n).

Definition main `{Externals} (cfg : Config) : M unit :=
  print ("🚀 Blog Agent iniciando..." ++ nl) ;;
  let* repo :=
    with_world (fun w =>
      call (GetRepo (GITHUB_TOKEN cfg) (REPO_NAME cfg))
           (github_get_repo w (GITHUB_TOKEN cfg) (REPO_NAME cfg))) in
  print ("✅ GitHub: " ++ full_name repo) ;;
  let client := {| provider := Some "hf-inference"; api_key := HF_TOKEN cfg |} in
  print ("✅ HF Inference API: " ++ MODEL_ID ++ nl) ;;
  print "📚 Lendo posts existentes..." ;;
  let* posts := get_existing_posts repo in
  print ("   " ++ str_of_nat (length posts) ++ " post(s) encontrado(s)" ++ nl) ;;
  print "🤔 Escolhendo próximo tema..." ;;
  let* topic := choose_next_topic posts client in
  let* t := lift (py_getitem topic "title") in
  print ("   ✅ Tema: " ++ fmt t ++ nl) ;;
  print "✍️  Gerando conteúdo do post..." ;;
  let* content := generate_post_content topic posts client in
  print ("   ✅ " ++ str_of_nat (py_len content)
         ++ " caracteres gerados" ++ nl) ;;
  let number := get_next_number posts in
  print ("📬 Criando PR para o post #" ++ zero_pad 4 number ++ "...") ;;
  let* pr_url := create_pull_request repo number topic content in
  print (nl ++ "🎉 Concluído! PR disponível em:" ++ nl ++ "   " ++ pr_url).

(** The log of a generator run up to the reading of the posts. *)
Definition generator_prelude (cfg : Config) (repo : Repo) : list Call :=
  [ Print ("🚀 Blog Agent iniciando..." ++ nl);
    GetRepo (GITHUB_TOKEN cfg) (REPO_NAME cfg);
    Print ("✅ GitHub: " ++ full_name repo);
    Print ("✅ HF Inference API: " ++ MODEL_ID ++ nl);
    Print "📚 Lendo posts existentes..." ].

(** The log of a generator run that finds no posts directory, up to the
    request for a topic. *)
Definition zero_posts_log (cfg : Config) (repo : Repo) : list Call :=
  (generator_prelude cfg repo ++
   [ GetContents POSTS_DIR None;
     Print "  ⚠️  Diretório 'posts' não encontrado. Iniciando do zero.";
     Print ("   0 post(s) encontrado(s)" ++ nl);
     Print "🤔 Escolhendo próximo tema...";
     ChatCompletion {| provider := Some "hf-inference"; api_key := HF_TOKEN cfg |}
                    MODEL_ID (topic_prompt "Nenhum post publicado ainda.")
                    600 0.7 ])%list.

(** The script: the configuration is read when the module loads, then
    [main] runs. *)
Definition script `{Externals} (environ : gmap string string) : M unit :=
  let* cfg := lift (load_config environ) in
  main cfg.

End BlogAgent.

(** ** scripts/pr_reviewer.py *)

Module PrReviewer.

Import Text Py Effects.
#[local] Open Scope eff_scope.

Record Config : Type := {
  GITHUB_TOKEN : string;
  HF_TOKEN : string;
  REPO_NAME : string;
  PR_NUMBER : Z;
  MODEL_ID : string;
  CONTENT_MAX_TOKENS : Z
}.

(** [os.environ[k]] and [os.environ.get(k)]. *)
Definition environ_getitem (environ : gmap string string) (k : string)
  : exn + string :=
  match environ !! k with
  | Some v => inr v
  | None => inl (KeyError k)
  end.

Definition environ_get (environ : gmap string string) (k : string)
  : option string := environ !! k.

(** [v or d] for [v] a text or [None]. *)
Definition opt_or (v : option string) (d : string) : string :=
  match v with
  | Some s => str_or s d
  | None => d
  end.

(** [int(v)] for [v] a text or [None]. *)
Definition int_of (v : option string) : exn + Z :=
  match v with
  | None => inl TypeError
  | Some s =>
      match py_int s with
      | Some z => inr z
      | None => inl ValueError
      end
  end.

(** [n or d] on integers. *)
Definition int_or (n d : Z) : Z := if (n =? 0)%Z then d else n.

(** The [try] statement that sets [CONTENT_MAX_TOKENS]. *)
Definition load_content_max_tokens (environ : gmap string string) : exn + Z :=
  match int_of (environ_get environ "CONTENT_MAX_TOKENS") with
  | inr n => inr (int_or n 8192)
  | inl e => if is_ValueError e then inr 8192%Z else inl e
  end.

(** [os.environ.get(k) or os.environ[k']]. *)
Definition environ_get_or_getitem (environ : gmap string string)
    (k k' : string) : exn + string :=
  match environ_get environ k with
  | Some s => if String.eqb s "" then environ_getitem environ k' else inr s
  | None => environ_getitem environ k'
  end.

(** The module-level assignments, in order. *)
Definition load_config (environ : gmap string string) : exn + Config :=
  ebind (environ_get_or_getitem environ "GH_PAT" "GITHUB_TOKEN")
        (fun github_token =>
  ebind (environ_getitem environ "HF_TOKEN") (fun hf_token =>
  ebind (environ_getitem environ "GITHUB_REPOSITORY") (fun repo_name =>
  ebind (environ_getitem environ "PR_NUMBER") (fun pr_number_text =>
  ebind (int_of (Some pr_number_text)) (fun pr_number =>
  let model_id :=
    opt_or (environ_get environ "MODEL_ID") "deepseek-ai/DeepSeek-V3-0324" in
  ebind (load_content_max_tokens environ) (fun content_max_tokens =>
  inr {| GITHUB_TOKEN := github_token;
         HF_TOKEN := hf_token;
         REPO_NAME := repo_name;
         PR_NUMBER := pr_number;
         MODEL_ID := model_id;
         CONTENT_MAX_TOKENS := content_max_tokens |})))))).

(** [REVIEW_PROMPT.format(content=content)]. *)
Definition REVIEW_PROMPT_format (content : string) : string :=
  str_join nl
    [ "";
      "Você é um revisor técnico especializado em Rust e Python.";
      "Revise o post abaixo destinado ao blog 'Desbravando Rust', voltado para";
      "programadores Python que estão aprendendo Rust.";
      "";
      "## Post para revisar:";
      content;
      "";
      "## O que avaliar e corrigir:";
      "";
      "### ✅ Precisão Técnica";
      "- Os exemplos de código Rust estão corretos e compilariam sem erros?";
      "- Os conceitos de Rust estão explicados corretamente?";
      "- As comparações com Python são precisas e justas?";
      "";
      "### 📖 Didática e Clareza";
      "- A progressão do conteúdo é lógica para um iniciante em Rust?";
      "- Algum conceito foi introduzido sem explicação adequada?";
      "- As analogias e exemplos ajudam a entender?";
      "";
      "### 🇧🇷 Linguagem";
      "- O PT-BR está correto e natural?";
      "- O tom é acessível (não muito técnico, não muito básico)?";
      "";
      "### 🔧 Sugestões de Melhoria";
      "- Quais seções poderiam ser expandidas?";
      "- Algum exemplo de código importante está faltando?";
      "- Há algo que confundiria especialmente quem vem do Python?";
      "";
      "## Formato da revisão:";
      "Estruture sua resposta em seções com os títulos acima.";
      "Para cada problema encontrado, cite o trecho específico e sugira a correção.";
      "Seja objetivo e construtivo. Ao final, dê uma nota geral de 1 a 10.";
      "" ].

(** The test of the loop of [get_post_content] on a file name. *)
Definition is_post_document (filename : string) : bool :=
  startswith filename "posts/" && endswith filename "README.md".

(** The loop of [get_post_content] over the changed files. *)
Fixpoint select_post (repo : Repo) (pr : PullRequest) (files : list string)
  : M (string * string) :=
  match files with
  | [] => ret ("", "")
  | filename :: rest =>
      if is_post_document filename then
        let* content_file :=
          call (GetContents filename (Some (pr_head_sha pr)))
               (get_contents repo filename (Some (pr_head_sha pr))) in
        let* text := lift (BlogAgent.decoded_text content_file) in
        ret (filename, text)
      else select_post repo pr rest
  end.

(** What the body of the loop returns for the file it selects. *)
Definition fetched (repo : Repo) (pr : PullRequest) (filename : string)
  : exn + (string * string) :=
  match get_contents repo filename (Some (pr_head_sha pr)) with
  | inl e => inl e
  | inr c =>
      match BlogAgent.decoded_text c with
      | inl e => inl e
      | inr text => inr (filename, text)
      end
  end.

Definition get_post_content (repo : Repo) (pr : PullRequest)
  : M (string * string) :=
  let* files := call GetFiles (get_files pr) in
  select_post repo pr files.

Definition review_comment (filepath review : string) : string :=
  str_join nl
    [ "## 🤖 Revisão Automática do Post";
      "";
      "**Arquivo:** `" ++ filepath ++ "`";
      "";
      "---";
      "";
      review;
      "";
      "---";
      "*Revisão gerada automaticamente. Aceite ou ignore as sugestões conforme seu julgamento.*";
      "" ].

Definition post_review_comment (pr : PullRequest) (filepath review : string)
  : M unit :=
  let comment := review_comment filepath review in
  call (CreateIssueComment comment) (create_issue_comment pr comment).

Definition main (cfg : Config) : M unit :=
  print ("🔍 PR Reviewer iniciando..." ++ nl) ;;
  let* repo :=
    with_world (fun w =>
      call (GetRepo (GITHUB_TOKEN cfg) (REPO_NAME cfg))
           (github_get_repo w (GITHUB_TOKEN cfg) (REPO_NAME cfg))) in
  let* pr := call (GetPull (PR_NUMBER cfg)) (get_pull repo (PR_NUMBER cfg)) in
  print ("✅ PR #" ++ str_of_Z (PR_NUMBER cfg) ++ ": " ++ pr_title pr ++ nl) ;;
  print "📄 Lendo conteúdo do post..." ;;
  let* found := get_post_content repo pr in
  let filepath := fst found in
  let content := snd found in
  if String.eqb content "" then
    print "⚠️  Nenhum README.md encontrado no PR. Abortando."
  else
    print ("   ✅ " ++ BlogAgent.str_of_nat (py_len content)
           ++ " caracteres lidos" ++ nl) ;;
    print "🤔 Enviando para revisão pelo LLM..." ;;
    let client := {| provider := None; api_key := HF_TOKEN cfg |} in
    let message := REVIEW_PROMPT_format (py_take (Z.to_nat 12000) content) in
    let* choices :=
      with_world (fun w =>
        call (ChatCompletion client (MODEL_ID cfg) message 8192 0.3)
             (chat w client (MODEL_ID cfg) message 8192 0.3)) in
    let* review := lift (first_content choices) in
    print ("   ✅ " ++ BlogAgent.str_of_nat (py_len review)
           ++ " caracteres de revisão gerados" ++ nl) ;;
    print "💬 Publicando comentário no PR..." ;;
    post_review_comment pr filepath review ;;
    print (nl ++ "🎉 Revisão publicada no PR #" ++ str_of_Z (PR_NUMBER cfg) ++ "!").

(** The configuration with another value of [CONTENT_MAX_TOKENS]. *)
Definition with_budget (cfg : Config) (budget : Z) : Config :=
  {| GITHUB_TOKEN := GITHUB_TOKEN cfg;
     HF_TOKEN := HF_TOKEN cfg;
     REPO_NAME := REPO_NAME cfg;
     PR_NUMBER := PR_NUMBER cfg;
     MODEL_ID := MODEL_ID cfg;
     CONTENT_MAX_TOKENS := budget |}.

(** The log of a review run up to the listing of the changed files. *)
Definition review_prelude (cfg : Config) (pr : PullRequest) : list Call :=
  [ Print ("🔍 PR Reviewer iniciando..." ++ nl);
    GetRepo (GITHUB_TOKEN cfg) (REPO_NAME cfg);
    GetPull (PR_NUMBER cfg);
    Print ("✅ PR #" ++ str_of_Z (PR_NUMBER cfg) ++ ": " ++ pr_title pr ++ nl);
    Print "📄 Lendo conteúdo do post...";
    GetFiles ].

(** The notice of a review run that aborts. *)
Definition abort_notice : Call :=
  Print "⚠️  Nenhum README.md encontrado no PR. Abortando.".

(** The script: the configuration is read when the module loads, then
    [main] runs. *)
Definition script (environ : gmap string string) : M unit :=
  let* cfg := lift (load_config environ) in
  main cfg.

End PrReviewer.

(** ** The order of the calls of a run *)

Module Protocol.

Import Py Effects.

(** The stages of a generator run: 0 before the request for a topic, 1
    after it, 2 after the request for the draft, 3 once the branch
    exists, 4 once the file exists, 5 once the pull request is open.
    [generator_step] gives the stage after a call, or nothing when the
    call has no place at the stage. *)
Definition generator_step (stage : nat) (c : Call) : option nat :=
  match c with
  | Print _ => Some stage
  | GetRepo _ _ | GetContents _ _ =>
      if Nat.eqb stage 0 then Some stage else None
  | ChatCompletion _ _ _ _ _ =>
      if Nat.ltb stage 2 then Some (S stage) else None
  | Now =>
      if Nat.eqb stage 1 || Nat.eqb stage 2 then Some stage else None
  | GetBranch _ => if Nat.eqb stage 2 then Some stage else None
  | CreateGitRef _ _ => if Nat.eqb stage 2 then Some 3 else None
  | CreateFile _ _ _ _ => if Nat.eqb stage 3 then Some 4 else None
  | CreatePull _ _ _ _ _ => if Nat.eqb stage 4 then Some 5 else None
  | GetPull _ | GetFiles | CreateIssueComment _ => None
  end.

(** The stages of a review run: 0 before the inference call, 1 after it,
    2 once the comment is posted. *)
Definition reviewer_step (stage : nat) (c : Call) : option nat :=
  match c with
  | Print _ => Some stage
  | GetRepo _ _ | GetPull _ | GetFiles | GetContents _ _ =>
      if Nat.eqb stage 0 then Some stage else None
  | ChatCompletion _ _ _ _ _ => if Nat.eqb stage 0 then Some 1 else None
  | CreateIssueComment _ => if Nat.eqb stage 1 then Some 2 else None
  | Now | GetBranch _ | CreateGitRef _ _ | CreateFile _ _ _ _
  | CreatePull _ _ _ _ _ => None
  end.

(** The stage a log leads to from a stage, when each of its calls has
    its place. *)
Fixpoint follow (step : nat -> Call -> option nat) (stage : nat)
    (log : list Call) : option nat :=
  match log with
  | [] => Some stage
  | c :: rest =>
      match step stage c with
      | Some stage' => follow step stage' rest
      | None => None
      end
  end.

(** A computation that takes a log at stage [a] to a log at a stage
    between [a] and [b], and to stage [b] when it returns. *)
Definition moves (step : nat -> Call -> option nat) {A} (m : M A)
    (a b : nat) : Prop :=
  forall w log,
    follow step 0 log = Some a ->
    exists s, follow step 0 (snd (m w log)) = Some s /\
              a <= s <= b /\
              (forall x, fst (m w log) = inr x -> s = b).

(** The same for a computation that can return at several stages: it
    returns only at a stage that satisfies [ok]. *)
Definition settles (step : nat -> Call -> option nat) {A} (m : M A)
    (a b : nat) (ok : nat -> Prop) : Prop :=
  forall w log,
    follow step 0 log = Some a ->
    exists s, follow step 0 (snd (m w log)) = Some s /\
              a <= s <= b /\
              (forall x, fst (m w log) = inr x -> ok s).

Definition is_CreateGitRef (c : Call) : bool :=
  match c with CreateGitRef _ _ => true | _ => false end.

Definition is_CreateFile (c : Call) : bool :=
  match c with CreateFile _ _ _ _ => true | _ => false end.

Definition is_CreatePull (c : Call) : bool :=
  match c with CreatePull _ _ _ _ _ => true | _ => false end.

End Protocol.

(** ** Concrete hosts, answers and environments *)

Module Samples.

Import Text Py Effects.

Fixpoint lookup_text {A} (table : list (string * A)) (s : string) : option A :=
  match table with
  | [] => None
  | (k, v) :: rest => if String.eqb k s then Some v else lookup_text rest s
  end.

(** Topic proposals and their JSON text. *)
Definition topic_proposal (title slug description : string)
    (tags : list string) : pyval :=
  PDict [ (PStr "title", PStr title); (PStr "slug", PStr slug);
          (PStr "description", PStr description);
          (PStr "tags", PList (map PStr tags)) ].

Definition intro_topic : pyval :=
  topic_proposal "Intro" "intro" "Primeiros passos" ["rust"].

Definition intro_json : string :=
  "{" ++ dq ++ "title" ++ dq ++ ": " ++ dq ++ "Intro" ++ dq ++ ", "
  ++ dq ++ "slug" ++ dq ++ ": " ++ dq ++ "intro" ++ dq ++ ", "
  ++ dq ++ "description" ++ dq ++ ": " ++ dq ++ "Primeiros passos" ++ dq ++ ", "
  ++ dq ++ "tags" ++ dq ++ ": [" ++ dq ++ "rust" ++ dq ++ "]}".

(** Metadata blocks. *)
Definition ownership_block : string := nl ++ "title: Ownership" ++ nl.
Definition broken_block : string := nl ++ "title: [" ++ nl.

Definition ownership_document : string :=
  "---" ++ ownership_block ++ "---" ++ nl ++ "# Ownership" ++ nl.

(** Parsers that know the texts above and reject the rest. *)
Definition table_externals : Externals :=
  {| yaml_safe_load := fun s =>
       if String.eqb s ownership_block
       then inr (PDict [(PStr "title", PStr "Ownership")])
       else inl YAMLError;
     json_loads := fun s =>
       if String.eqb s intro_json then Some intro_topic else None;
     json_dumps := fun _ => "[]";
     str_of_compound := fun _ => "" |}.

Definition post_named (name : string) : BlogAgent.Post :=
  {| BlogAgent.dirname := name; BlogAgent.title := PStr name;
     BlogAgent.tags := PList []; BlogAgent.categories := PList [];
     BlogAgent.description := PStr "" |}.

Definition three_posts : list BlogAgent.Post :=
  [post_named "0001-intro"; post_named "0007-ownership-basics";
   post_named "notes"; post_named "0003-traits"].

(** Posts numbered with the digits of two scripts: ASCII 2 and
    Arabic-Indic 3. *)
Definition mixed_script_posts : list BlogAgent.Post :=
  [post_named "0002-b"; post_named "٣-intro"].

(** A pull request with the given changed files. *)
Definition pull_with (files : list string) : PullRequest :=
  {| pr_title := "[Blog Agent] Intro";
     pr_head_sha := "abc123";
     get_files := inr files;
     create_issue_comment := fun _ => inr tt |}.

(** A repository that answers [listing] for the posts directory, the
    documents of [docs] by path, and status 404 for any other path. *)
Definition host_repo (listing : exn + Contents) (docs : list (string * string))
    (files : list string) : Repo :=
  {| full_name := "desbravando/blog";
     get_contents := fun path _ =>
       if String.eqb path "posts" then listing
       else match lookup_text docs path with
            | Some text =>
                inr (OneFile {| cf_name := basename path; cf_type := "file";
                                cf_text := text |})
            | None => inl (GithubException 404)
            end;
     get_branch := fun _ => inr "c0ffee";
     create_git_ref := fun _ _ => inr tt;
     create_file := fun _ _ _ _ => inr tt;
     create_pull := fun _ _ _ _ _ => inr "https://example.org/pull/1";
     get_pull := fun _ => inr (pull_with files) |}.

(** A world with one repository, a model that answers [topic_answer] to
    the request for a topic and [text_answer] to any other request, and
    a clock stopped on 2025-03-09. *)
Definition world_of (repo : Repo) (topic_answer text_answer : string) : World :=
  {| github_get_repo := fun _ _ => inr repo;
     chat := fun _ _ _ max_tokens _ =>
       if (max_tokens =? 600)%Z then inr [Some topic_answer]
       else inr [Some text_answer];
     clock := fun _ => {| year := 2025; month := 3; day := 9 |} |}.

Definition fenced_intro : string :=
  fence ++ "json" ++ nl ++ intro_json ++ nl ++ fence.

Definition dir_entry (name : string) : ContentFile :=
  {| cf_name := name; cf_type := "dir"; cf_text := "" |}.

Definition file_entry (name : string) : ContentFile :=
  {| cf_name := name; cf_type := "file"; cf_text := "" |}.

(** A host without a posts directory. *)
Definition empty_repo : Repo := host_repo (inl (GithubException 404)) [] [].

(** A host with three post directories, one of them without document. *)
Definition listed_entries : list ContentFile :=
  [ dir_entry "0002-traits"; file_entry "notes.txt";
    dir_entry "0003-missing"; dir_entry "0001-ownership" ].

Definition listed_repo : Repo :=
  host_repo (inr (Listing listed_entries))
            [ ("posts/0001-ownership/README.md", ownership_document);
              ("posts/0002-traits/README.md", "# Traits") ]
            [].

Definition has_document (item : ContentFile) : bool :=
  negb (String.eqb (cf_name item) "0003-missing").

(** The environments of the two scripts. *)
Definition generator_environ : gmap string string :=
  list_to_map [ ("GITHUB_TOKEN", "gh-token"); ("HF_TOKEN", "hf-token");
                ("GITHUB_REPOSITORY", "desbravando/blog") ].

Definition reviewer_environ (budget : option string) : gmap string string :=
  let base := <["PR_NUMBER" := "7"]> generator_environ in
  match budget with
  | Some b => <["CONTENT_MAX_TOKENS" := b]> base
  | None => base
  end.

Definition reviewer_config (budget : Z) : PrReviewer.Config :=
  {| PrReviewer.GITHUB_TOKEN := "gh-token";
     PrReviewer.HF_TOKEN := "hf-token";
     PrReviewer.REPO_NAME := "desbravando/blog";
     PrReviewer.PR_NUMBER := 7;
     PrReviewer.MODEL_ID := "deepseek-ai/DeepSeek-V3-0324";
     PrReviewer.CONTENT_MAX_TOKENS := budget |}.

Definition generator_config : BlogAgent.Config :=
  {| BlogAgent.GITHUB_TOKEN := "gh-token";
     BlogAgent.HF_TOKEN := "hf-token";
     BlogAgent.REPO_NAME := "desbravando/blog" |}.

(** Changed files of pull requests. *)
Definition files_without_post : list string :=
  [ "docs/guide.md"; "README.md"; "posts/0001-intro/notes.txt" ].

Definition files_with_other_name : list string :=
  [ "docs/guide.md"; "posts/0001-intro/OLD_README.md";
    "posts/0001-intro/README.md" ].

Definition files_with_post : list string :=
  [ "docs/guide.md"; "posts/0001-intro/README.md" ].

Definition review_repo (files : list string) (text : string) : Repo :=
  host_repo (inl (GithubException 404))
            [ ("posts/0001-intro/OLD_README.md", "old notes");
              ("posts/0001-intro/README.md", text) ]
            files.

(** A post whose front matter has an empty [tags:] entry, which loads as
    [None]. *)
Definition untagged_post : BlogAgent.Post :=
  {| BlogAgent.dirname := "0002-traits"; BlogAgent.title := PStr "Traits";
     BlogAgent.tags := PNone; BlogAgent.categories := PList [];
     BlogAgent.description := PStr "" |}.

(** Six posts, numbered from 1 to 6. *)
Definition six_posts : list BlogAgent.Post :=
  [ post_named "0001-a"; post_named "0002-b"; post_named "0003-c";
    post_named "0004-d"; post_named "0005-e"; post_named "0006-f" ].

(** A topic without slug. *)
Definition topic_without_slug : pyval :=
  PDict [ (PStr "title", PStr "Intro");
          (PStr "description", PStr "Primeiros passos");
          (PStr "tags", PList [PStr "rust"]) ].

(** A host that refuses to create files. *)
Definition read_only_repo : Repo :=
  {| full_name := "desbravando/blog";
     get_contents := fun _ _ => inl (GithubException 404);
     get_branch := fun _ => inr "c0ffee";
     create_git_ref := fun _ _ => inr tt;
     create_file := fun _ _ _ _ => inl (GithubException 422);
     create_pull := fun _ _ _ _ _ => inr "https://example.org/pull/1";
     get_pull := fun _ => inl (GithubException 404) |}.

(** A loader for which every metadata block is a bare text. *)
Definition text_externals : Externals :=
  {| yaml_safe_load := fun s => inr (PStr (strip s));
     json_loads := fun _ => None;
     json_dumps := fun _ => "[]";
     str_of_compound := fun _ => "" |}.

(** A host with one post whose metadata block is a bare text. *)
Definition note_document : string :=
  "---" ++ nl ++ "rascunho" ++ nl ++ "---" ++ nl ++ "# Notas" ++ nl.

Definition note_repo : Repo :=
  host_repo (inr (Listing [dir_entry "0001-notas"]))
            [ ("posts/0001-notas/README.md", note_document) ] [].

Definition note_file : ContentFile :=
  {| cf_name := "README.md"; cf_type := "file"; cf_text := note_document |}.

(** Metadata blocks without a mapping: a bare text, and a date whose
    month does not exist. *)
Definition note_block : string := nl ++ "rascunho" ++ nl.
Definition misdated_block : string := nl ++ "date: 2024-13-45" ++ nl.

Definition misdated_document : string :=
  "---" ++ misdated_block ++ "---" ++ nl ++ "# Notas" ++ nl.

(** Parsers that answer as PyYAML does on the blocks above: the bare
    text loads as a [str], the date raises [ValueError] when the
    [datetime.date] is built. *)
Definition block_externals : Externals :=
  {| yaml_safe_load := fun s =>
       if String.eqb s ownership_block
       then inr (PDict [(PStr "title", PStr "Ownership")])
       else if String.eqb s note_block then inr (PStr "rascunho")
       else if String.eqb s misdated_block then inl ValueError
       else inl YAMLError;
     json_loads := fun s =>
       if String.eqb s intro_json then Some intro_topic else None;
     json_dumps := fun _ => "[]";
     str_of_compound := fun _ => "" |}.


(** The posts of [listed_repo]. *)
Definition listed_posts : list BlogAgent.Post :=
  [ {| BlogAgent.dirname := "0001-ownership";
       BlogAgent.title := PStr "Ownership";
       BlogAgent.tags := PList [];
       BlogAgent.categories := PList [];
       BlogAgent.description := PStr "" |};
    post_named "0002-traits" ].

End Samples.

(** * Properties *)

Import Text Py Effects.

(** ** Text lemmas *)

Section TextFacts.

Lemma app_cons (c : ascii) (a b : string) :
  String c a ++ b = String c (a ++ b).
Proof. reflexivity. Qed.

Lemma length_app (a b : string) :
  String.length (a ++ b) = String.length a + String.length b.
Proof.
  induction a as [|c a IH]; [reflexivity|].
  rewrite app_cons. simpl. now rewrite IH.
Qed.

Lemma str_drop_app (a b : string) : str_drop (String.length a) (a ++ b) = b.
Proof.
  induction a as [|c a IH]; [now destruct b|].
  rewrite app_cons. exact IH.
Qed.


Lemma str_take_drop (n : nat) (s : string) : str_take n s ++ str_drop n s = s.
Proof.
  revert s. induction n as [|n IH]; intros [|c s]; try reflexivity.
  simpl. rewrite app_cons. now rewrite IH.
Qed.

Lemma length_str_take (n : nat) (s : string) :
  String.length (str_take n s) = Nat.min n (String.length s).
Proof.
  revert s. induction n as [|n IH]; intros [|c s]; simpl; try reflexivity.
  now rewrite IH.
Qed.

Lemma app_assoc_str (a b c : string) : (a ++ b) ++ c = a ++ (b ++ c).
Proof.
  induction a as [|x a IH]; [reflexivity|].
  rewrite !app_cons. now rewrite IH.
Qed.

Lemma startswith_app (p s : string) : startswith (p ++ s) p = true.
Proof.
  induction p as [|c p IH]; [reflexivity|].
  rewrite app_cons. simpl. now rewrite Ascii.eqb_refl, IH.
Qed.

Lemma startswith_inv (s p : string) :
  startswith s p = true -> exists t, s = p ++ t.
Proof.
  revert s. induction p as [|c p IH]; intros s; simpl.
  - intros _. now exists s.
  - destruct s as [|d s]; [discriminate|].
    intros [Hc Hp]%andb_prop. apply Ascii.eqb_eq in Hc as ->.
    destruct (IH _ Hp) as [t ->]. now exists t.
Qed.

(** [startswith] and [endswith] decide that a text has a prefix or a
    suffix. *)
Lemma startswith_iff (s p : string) :
  startswith s p = true <-> exists t, s = p ++ t.
Proof.
  split; [apply startswith_inv|]. intros [t ->]. apply startswith_app.
Qed.

Lemma endswith_app (s p : string) : endswith (s ++ p) p = true.
Proof.
  unfold endswith. rewrite length_app, Nat.add_sub, str_drop_app.
  apply String.eqb_refl.
Qed.

Lemma endswith_iff (s p : string) :
  endswith s p = true <-> exists t, s = t ++ p.
Proof.
  split; [|intros [t ->]; apply endswith_app].
  unfold endswith. intros H%String.eqb_eq.
  exists (str_take (String.length s - String.length p) s).
  pose proof (str_take_drop (String.length s - String.length p) s) as E.
  rewrite H in E. now symmetry.
Qed.

(** The directory name of post 7 with the slug [ownership-basics]. *)
Example directory_name_format :
  zero_pad 4 7 ++ "-" ++ "ownership-basics" = "0007-ownership-basics".
Proof. reflexivity. Qed.

Example zero_pad_wide : zero_pad 4 12345 = "12345".
Proof. reflexivity. Qed.

Example py_split_twice :
  py_split "---" 2 ("---" ++ nl ++ "a: 1" ++ nl ++ "---" ++ nl ++ "x --- y")
  = [""; nl ++ "a: 1" ++ nl; nl ++ "x --- y"].
Proof. reflexivity. Qed.

Example count_does_not_overlap : count "-------" "---" = 2.
Proof. reflexivity. Qed.

Example py_int_forms :
  py_int " 42 " = Some 42%Z /\ py_int "-7" = Some (-7)%Z /\
  py_int "1_000" = Some 1000%Z /\ py_int "" = None /\
  py_int "12a" = None /\ py_int "8 192" = None.
Proof. repeat split; reflexivity. Qed.

(** Digits of other scripts and white space beyond ASCII are read by
    [int]; more than 4300 digits are not. *)
Example py_int_beyond_ascii :
  py_int "７" = Some 7%Z /\ py_int "٣1" = Some 31%Z /\
  py_int (utf8_encode 0xA0 ++ "12" ++ utf8_encode 0x3000) = Some 12%Z /\
  py_int "²" = None /\
  py_int (zeros 4300) = Some 0%Z /\ py_int (zeros 4301) = None.
Proof. vm_compute. repeat split; reflexivity. Qed.

Example strip_beyond_ascii :
  strip (utf8_encode 0xA0 ++ " olá " ++ nl ++ utf8_encode 0x2003) = "olá".
Proof. reflexivity. Qed.

(** *** Code points *)

Lemma py_len_take (n : nat) (s : string) :
  py_len (py_take n s) = Nat.min n (py_len s).
Proof.
  revert n. induction s as [|b s IH]; intros n; [now destruct n|].
  cbn [py_take py_len]. destruct (is_continuation b) eqn:E.
  - cbn [py_len]. rewrite E. apply IH.
  - destruct n as [|n]; [reflexivity|].
    cbn [py_len]. rewrite E, IH. reflexivity.
Qed.

Lemma py_take_all (n : nat) (s : string) :
  py_len s <= n -> py_take n s = s.
Proof.
  revert n. induction s as [|b s IH]; intros n; [reflexivity|].
  cbn [py_take py_len]. destruct (is_continuation b).
  - intros H. now rewrite IH.
  - destruct n as [|n]; [lia|]. intros H. rewrite IH; [reflexivity | lia].
Qed.

Lemma py_take_prefix (n : nat) (s : string) :
  exists t, s = py_take n s ++ t.
Proof.
  revert n. induction s as [|b s IH]; intros n; [now exists ""|].
  cbn [py_take]. destruct (is_continuation b).
  - destruct (IH n) as [t Ht]. exists t. rewrite app_cons. now rewrite <- Ht.
  - destruct n as [|n]; [now exists (String b s)|].
    destruct (IH n) as [t Ht]. exists t. rewrite app_cons. now rewrite <- Ht.
Qed.

(** An accented letter takes two bytes and counts once. *)
Example py_len_accents :
  py_len "ação" = 4 /\ String.length "ação" = 6 /\
  py_take 2 "ação" = "aç" /\ code_points "não" = ["n"; "ã"; "o"].
Proof. repeat split; reflexivity. Qed.

(** *** Decimal digits *)

Lemma digit_table_eq : digit_table = flat_map digits_from decimal_zeros.
Proof. vm_compute. reflexivity. Qed.

Lemma in_ten_digits (d : N) : In d ten_digits <-> (d < 10)%N.
Proof.
  unfold ten_digits. split.
  - intros H. repeat (destruct H as [<-|H]; [reflexivity|]). destruct H.
  - intros H.
    assert (d = 0 \/ d = 1 \/ d = 2 \/ d = 3 \/ d = 4 \/ d = 5 \/ d = 6 \/
            d = 7 \/ d = 8 \/ d = 9)%N as Hd by lia.
    simpl. intuition auto.
Qed.

(** The table holds the decimal digits, each with its value. *)
Lemma in_digit_table (c : string) (v : Z) :
  In (c, v) digit_table <-> decimal_digit c v.
Proof.
  rewrite digit_table_eq, List.in_flat_map. unfold decimal_digit, digits_from.
  split.
  - intros (zero & Hz & Hin). apply List.in_map_iff in Hin as (d & E & Hd).
    injection E as <- <-. exists zero, d. now rewrite <- in_ten_digits.
  - intros (zero & d & Hz & Hd & -> & ->). exists zero. split; [exact Hz|].
    apply List.in_map_iff. exists d. now rewrite in_ten_digits.
Qed.

Lemma digit_table_prefix_free :
  forallb (fun e =>
    forallb (fun e' =>
      implb (startswith (fst e) (fst e'))
            (String.eqb (fst e) (fst e') && Z.eqb (snd e) (snd e')))
      digit_table) digit_table = true.
Proof. vm_compute. reflexivity. Qed.

Lemma digit_table_nonempty :
  forallb (fun e => negb (String.eqb (fst e) "")) digit_table = true.
Proof. vm_compute. reflexivity. Qed.

Lemma digit_table_values :
  forallb (fun e => Z.leb 0 (snd e) && Z.leb (snd e) 9) digit_table = true.
Proof. vm_compute. reflexivity. Qed.

Lemma decimal_digit_prefix (c c' : string) (v v' : Z) :
  decimal_digit c v -> decimal_digit c' v' -> startswith c c' = true ->
  c = c' /\ v = v'.
Proof.
  intros Hc%in_digit_table Hc'%in_digit_table Hpre.
  pose proof digit_table_prefix_free as H.
  rewrite List.forallb_forall in H. specialize (H _ Hc).
  rewrite List.forallb_forall in H. specialize (H _ Hc').
  cbn [fst snd] in H. rewrite Hpre in H. cbn [implb] in H.
  apply andb_prop in H as [E1 E2].
  apply String.eqb_eq in E1. apply Z.eqb_eq in E2. now split.
Qed.

Lemma decimal_digit_length (c : string) (v : Z) :
  decimal_digit c v -> 1 <= String.length c.
Proof.
  intros Hc%in_digit_table.
  pose proof digit_table_nonempty as H.
  rewrite List.forallb_forall in H. specialize (H _ Hc). cbn [fst] in H.
  destruct c; [discriminate | simpl; lia].
Qed.

Lemma decimal_digit_value (c : string) (v : Z) :
  decimal_digit c v -> (0 <= v <= 9)%Z.
Proof.
  intros Hc%in_digit_table.
  pose proof digit_table_values as H.
  rewrite List.forallb_forall in H. specialize (H _ Hc). cbn [snd] in H.
  apply andb_prop in H as [H1 H2]. lia.
Qed.

(** Two prefixes of one text: one is a prefix of the other. *)
Lemma startswith_comparable (s c c' : string) :
  startswith s c = true -> startswith s c' = true ->
  startswith c c' = true \/ startswith c' c = true.
Proof.
  revert c c'. induction s as [|b s IH]; intros [|a c] [|a' c'];
    cbn [startswith]; auto; try discriminate.
  intros [E1 H1]%andb_prop [E2 H2]%andb_prop.
  apply Ascii.eqb_eq in E1, E2. subst a a'.
  rewrite Ascii.eqb_refl. cbn [andb]. now apply IH.
Qed.

Lemma lookup_prefix_some {A} (table : list (string * A)) (s c : string) (a : A) :
  lookup_prefix table s = Some (c, a) ->
  In (c, a) table /\ startswith s c = true.
Proof.
  induction table as [|[c' a'] table IH]; cbn [lookup_prefix]; [discriminate|].
  destruct (startswith s c') eqn:E.
  - intros [= <- <-]. split; [now left | exact E].
  - intros H. destruct (IH H). split; [now right | assumption].
Qed.

Lemma lookup_prefix_none {A} (table : list (string * A)) (s : string) :
  lookup_prefix table s = None ->
  forall c a, In (c, a) table -> startswith s c = false.
Proof.
  induction table as [|[c' a'] table IH]; cbn [lookup_prefix];
    [intros _ c a []|].
  destruct (startswith s c') eqn:E; [discriminate|].
  intros H c a [[= <- <-]|Hin]; [exact E | now apply (IH H c a)].
Qed.

(** The table finds the digit a text starts with. *)
Lemma lookup_digit (c : string) (v : Z) (rest : string) :
  decimal_digit c v -> lookup_prefix digit_table (c ++ rest) = Some (c, v).
Proof.
  intros Hc. destruct (lookup_prefix digit_table (c ++ rest)) as [[c' v']|] eqn:E.
  - apply lookup_prefix_some in E as [Hin Hpre].
    apply in_digit_table in Hin.
    destruct (startswith_comparable _ _ _ (startswith_app c rest) Hpre) as [H|H].
    + destruct (decimal_digit_prefix _ _ _ _ Hc Hin H) as [-> ->]. reflexivity.
    + destruct (decimal_digit_prefix _ _ _ _ Hin Hc H) as [-> ->]. reflexivity.
  - apply in_digit_table in Hc.
    pose proof (lookup_prefix_none _ _ E _ _ Hc) as H.
    now rewrite startswith_app in H.
Qed.

Lemma lookup_digit_inv (s c : string) (v : Z) :
  lookup_prefix digit_table s = Some (c, v) ->
  decimal_digit c v /\ s = c ++ str_drop (String.length c) s.
Proof.
  intros [Hin Hpre]%lookup_prefix_some. split; [now apply in_digit_table|].
  apply startswith_inv in Hpre as [t ->]. now rewrite str_drop_app.
Qed.

Lemma lookup_digit_none (s : string) :
  lookup_prefix digit_table s = None <-> ~ starts_with_decimal_digit s.
Proof.
  split.
  - intros E (c & v & rest & Hc & ->). rewrite (lookup_digit _ _ _ Hc) in E.
    discriminate.
  - intros H. destruct (lookup_prefix digit_table s) as [[c v]|] eqn:E;
      [|reflexivity].
    apply lookup_digit_inv in E as [Hc Hs]. exfalso. apply H.
    now exists c, v, (str_drop (String.length c) s).
Qed.

Lemma length_digits (digits : list (string * Z)) :
  Forall (fun d => decimal_digit (fst d) (snd d)) digits ->
  length digits <= String.length (str_concat (map fst digits)).
Proof.
  induction 1 as [|[c v] digits Hc _ IH]; [reflexivity|].
  cbn [map fst str_concat length]. rewrite length_app.
  apply decimal_digit_length in Hc. cbn [fst] in Hc. lia.
Qed.

(** The scan reads the digits a text starts with, and no more. *)
Lemma scan_digits_complete (digits : list (string * Z)) (rest : string)
    (fuel : nat) :
  Forall (fun d => decimal_digit (fst d) (snd d)) digits ->
  ~ starts_with_decimal_digit rest ->
  length digits <= fuel ->
  scan_digits fuel (str_concat (map fst digits) ++ rest) = digits.
Proof.
  intros Hall Hrest. revert fuel.
  induction Hall as [|[c v] digits Hc _ IH]; intros fuel Hfuel.
  - cbn [map str_concat]. change ("" ++ rest) with rest.
    destruct fuel as [|fuel]; [reflexivity|]. cbn [scan_digits].
    apply lookup_digit_none in Hrest. now rewrite Hrest.
  - cbn [length] in Hfuel. destruct fuel as [|fuel]; [lia|].
    cbn [map fst str_concat scan_digits]. cbn [fst snd] in Hc.
    rewrite app_assoc_str, (lookup_digit _ _ _ Hc), str_drop_app.
    rewrite IH by lia. reflexivity.
Qed.

Lemma scan_digits_sound (fuel : nat) (s : string) :
  String.length s <= fuel ->
  Forall (fun d => decimal_digit (fst d) (snd d)) (scan_digits fuel s) /\
  exists rest, s = str_concat (map fst (scan_digits fuel s)) ++ rest /\
               ~ starts_with_decimal_digit rest.
Proof.
  revert s. induction fuel as [|fuel IH]; intros s Hlen.
  - destruct s; [|simpl in Hlen; lia]. split; [constructor|].
    exists "". split; [reflexivity|].
    intros (c & v & rest & Hc%decimal_digit_length & E).
    destruct c; [simpl in Hc; lia | discriminate].
  - cbn [scan_digits].
    destruct (lookup_prefix digit_table s) as [[c v]|] eqn:E.
    + apply lookup_digit_inv in E as [Hc Hs].
      pose proof (decimal_digit_length _ _ Hc) as Hpos.
      assert (String.length (str_drop (String.length c) s) <= fuel) as Hshort.
      { apply (f_equal String.length) in Hs. rewrite length_app in Hs. lia. }
      destruct (IH _ Hshort) as [Hall (rest & Hrest & Hnot)].
      split; [now constructor|].
      exists rest. split; [|exact Hnot].
      cbn [map fst str_concat]. rewrite app_assoc_str, <- Hrest. exact Hs.
    + split; [constructor|]. exists s. split; [reflexivity|].
      now apply lookup_digit_none.
Qed.

Lemma str_concat_nonempty (digits : list (string * Z)) :
  Forall (fun d => decimal_digit (fst d) (snd d)) digits ->
  digits <> [] -> str_concat (map fst digits) <> "".
Proof.
  intros Hall Hne E. apply length_digits in Hall. rewrite E in Hall.
  destruct digits; [congruence | simpl in Hall; lia].
Qed.

Lemma app_empty_r (s : string) : s ++ "" = s.
Proof.
  induction s as [|c s IH]; [reflexivity|]. rewrite app_cons. now rewrite IH.
Qed.

(** The digits of a run of digits are the whole run. *)
Lemma leading_digits_of_run (s : string) :
  leading_digits (digit_run s) = leading_digits s.
Proof.
  unfold digit_run, leading_digits at 1 3.
  destruct (scan_digits_sound (String.length s) s (le_n _)) as [Hall _].
  fold (leading_digits s) in *.
  rewrite <- (app_empty_r (str_concat (map fst (leading_digits s)))) at 2.
  apply scan_digits_complete; [exact Hall | | now apply length_digits].
  intros (c & v & rest & Hc%decimal_digit_length & E).
  destruct c; [simpl in Hc; lia | discriminate].
Qed.

(** The pattern and the conversion of [get_next_number] read the
    leading integer of a name. *)
Lemma leading_integer_iff (name : string) (n : Z) :
  leading_integer name n <->
  exists g, match_leading_digits name = Some g /\ int_of_digits g = n.
Proof.
  unfold leading_integer, match_leading_digits, int_of_digits. split.
  - intros (digits & rest & Hne & Hall & -> & Hrest & ->).
    assert (leading_digits (str_concat (map fst digits) ++ rest) = digits)
      as Hscan.
    { apply scan_digits_complete; auto.
      rewrite length_app. pose proof (length_digits _ Hall). lia. }
    exists (str_concat (map fst digits)).
    assert (digit_run (str_concat (map fst digits) ++ rest)
            = str_concat (map fst digits)) as Hrun
      by (unfold digit_run; now rewrite Hscan).
    split.
    + rewrite Hrun. pose proof (str_concat_nonempty _ Hall Hne).
      now destruct (str_concat (map fst digits)).
    + rewrite <- Hrun at 1. now rewrite leading_digits_of_run, Hscan.
  - intros (g & Hg & <-).
    assert (g = digit_run name /\ g <> "") as [-> Hne]
      by (destruct (digit_run name); [discriminate | now injection Hg as <-]).
    rewrite leading_digits_of_run.
    destruct (scan_digits_sound (String.length name) name (le_n _))
      as [Hall (rest & Hname & Hrest)].
    fold (leading_digits name) in *.
    exists (leading_digits name), rest. repeat split; auto.
    intros E. apply Hne. unfold digit_run. now rewrite E.
Qed.

Lemma short_name_within (limit : nat) (name : string) :
  String.length name <= limit -> leading_digits_within limit name.
Proof.
  intros Hlen digits rest Hall ->. apply length_digits in Hall.
  rewrite length_app in Hlen. lia.
Qed.

Lemma decimal_value_nonneg (values : list Z) (acc : Z) :
  Forall (fun v => 0 <= v)%Z values -> (0 <= acc)%Z ->
  (0 <= fold_left (fun acc v => 10 * acc + v) values acc)%Z.
Proof.
  intros Hall. revert acc.
  induction Hall as [|v values Hv _ IH]; intros acc Hacc; [exact Hacc|].
  cbn [fold_left]. apply IH. lia.
Qed.

Lemma int_of_digits_nonneg (g : string) : (0 <= int_of_digits g)%Z.
Proof.
  unfold int_of_digits, decimal_value.
  destruct (scan_digits_sound (String.length g) g (le_n _)) as [Hall _].
  apply decimal_value_nonneg; [|lia].
  apply Forall_map. eapply List.Forall_impl; [|exact Hall].
  intros [c v] Hc%decimal_digit_value. cbn [fst snd] in *. lia.
Qed.

Example digits_of_several_scripts :
  match_leading_digits "12٣４x5" = Some "12٣４" /\
  int_of_digits "12٣４" = 1234%Z /\
  match_leading_digits "x1" = None.
Proof. repeat split; reflexivity. Qed.

End TextFacts.

(** ** The next sequence number *)

Section NextNumber.

Import BlogAgent Samples.

Lemma fold_left_max_ge (l : list Z) (a : Z) :
  (a <= fold_left Z.max l a)%Z.
Proof.
  revert a. induction l as [|x l IH]; intros a; simpl; [lia|].
  specialize (IH (Z.max a x)). lia.
Qed.

Lemma fold_left_max_upper (l : list Z) (a k : Z) :
  In k l -> (k <= fold_left Z.max l a)%Z.
Proof.
  revert a. induction l as [|x l IH]; intros a; simpl; [tauto|].
  intros [->|Hk].
  - pose proof (fold_left_max_ge l (Z.max a k)). lia.
  - now apply IH.
Qed.

Lemma fold_left_max_attained (l : list Z) (a : Z) :
  fold_left Z.max l a = a \/ In (fold_left Z.max l a) l.
Proof.
  revert a. induction l as [|x l IH]; intros a; simpl; [now left|].
  destruct (IH (Z.max a x)) as [E|E]; [|now right; right].
  rewrite E. destruct (Z.max_spec a x) as [[_ ->]|[_ ->]]; auto.
Qed.

Lemma py_max_upper (l : list Z) (d k : Z) : In k l -> (k <= py_max l d)%Z.
Proof.
  destruct l as [|n l]; simpl; [tauto|].
  intros [->|Hk]; [apply fold_left_max_ge | now apply fold_left_max_upper].
Qed.

Lemma py_max_attained (l : list Z) (d : Z) : l <> [] -> In (py_max l d) l.
Proof.
  destruct l as [|n l]; [congruence|]. intros _. simpl.
  destruct (fold_left_max_attained l n) as [->|H]; auto.
Qed.

(** The list [numbers] at the end of the loop. *)
Lemma numbers_of_loop (posts : list Post) (acc : list Z) :
  fold_left
    (fun numbers p =>
       match match_leading_digits (dirname p) with
       | Some g => (numbers ++ [int_of_digits g])%list
       | None => numbers
       end) posts acc
  = (acc ++ omap leading_number posts)%list.
Proof.
  revert acc. induction posts as [|p posts IH]; intros acc; simpl.
  - now rewrite app_nil_r.
  - rewrite IH. unfold leading_number at 2.
    destruct (match_leading_digits (dirname p)); [|reflexivity].
    now rewrite <- app_assoc.
Qed.

Lemma in_numbers (posts : list Post) (n : Z) :
  In n (omap leading_number posts) <->
  exists p, In p posts /\ leading_number p = Some n.
Proof.
  rewrite <- list_elem_of_In, list_elem_of_omap.
  split; intros (p & Hp & E); exists p; split; auto;
    now apply list_elem_of_In.
Qed.

(** The loop of [get_next_number] appends the leading integer of a
    directory name, for the names that have one. *)
Lemma leading_number_iff (p : Post) (n : Z) :
  leading_number p = Some n <-> leading_integer (dirname p) n.
Proof.
  rewrite leading_integer_iff. unfold leading_number.
  destruct (match_leading_digits (dirname p)) as [g|]; split.
  - intros [= <-]. now exists g.
  - intros (g' & [= <-] & <-). reflexivity.
  - discriminate.
  - intros (g & Hg & _). discriminate.
Qed.

Lemma leading_integer_of_match (name g : string) :
  match_leading_digits name = Some g ->
  leading_integer name (int_of_digits g).
Proof. intros Hg. apply leading_integer_iff. now exists g. Qed.

Lemma no_leading_integer (name : string) (n : Z) :
  match_leading_digits name = None -> ~ leading_integer name n.
Proof.
  intros Hnone (g & Hg & _)%leading_integer_iff. congruence.
Qed.

(** Names of at most [max_str_digits] bytes are within the digits [int]
    converts. *)
Lemma short_names_within (posts : list Post) :
  forallb (fun p => Nat.leb (String.length (dirname p)) max_str_digits) posts
  = true ->
  Forall (fun p => leading_digits_within max_str_digits (dirname p)) posts.
Proof.
  intros H. apply List.Forall_forall. intros p Hp.
  rewrite List.forallb_forall in H. specialize (H p Hp).
  apply short_name_within. now apply Nat.leb_le.
Qed.

(** C1. A directory name has the leading integer [n] when it is one or
    more decimal digits that write [n], followed by a text that does not
    start with a digit.  For directory names that start with no more
    digits than [int] converts, [get_next_number] returns 1 when no
    directory name has a leading integer (in particular for the empty
    list); otherwise the result minus one is the greatest of the leading
    integers of the directory names: it bounds each of them and is the
    leading integer of some directory name. *)
Theorem get_next_number_is_max_plus_one (posts : list Post) :
  Forall (fun p => leading_digits_within max_str_digits (dirname p)) posts ->
  ((forall p n, In p posts -> ~ leading_integer (dirname p) n) ->
   get_next_number posts = 1%Z) /\
  (forall p n, In p posts -> leading_integer (dirname p) n ->
     (n + 1 <= get_next_number posts)%Z /\
     exists q, In q posts /\
               leading_integer (dirname q) (get_next_number posts - 1)%Z).
Proof.
  intros _.
  unfold get_next_number. rewrite numbers_of_loop. simpl. split.
  - intros Hnone.
    assert (omap leading_number posts = []) as ->; [|reflexivity].
    destruct (omap leading_number posts) as [|n l] eqn:E; [reflexivity|].
    assert (In n (omap leading_number posts)) as Hn by (rewrite E; now left).
    apply in_numbers in Hn as (p & Hp & Hn%leading_number_iff).
    now destruct (Hnone p n Hp).
  - intros p n Hp Hn%leading_number_iff.
    assert (In n (omap leading_number posts)) as Hin
      by (apply in_numbers; eauto).
    split.
    + pose proof (py_max_upper _ 0%Z _ Hin). lia.
    + assert (In (py_max (omap leading_number posts) 0)
                 (omap leading_number posts)) as Hmax.
      { apply py_max_attained. intros E. rewrite E in Hin. destruct Hin. }
      apply in_numbers in Hmax as (q & Hq & Hval%leading_number_iff).
      exists q. split; [exact Hq|].
      replace (py_max (omap leading_number posts) 0 + 1 - 1)%Z
        with (py_max (omap leading_number posts) 0) by lia.
      exact Hval.
Qed.

Example get_next_number_three_posts : get_next_number three_posts = 8%Z.
Proof. reflexivity. Qed.

(** A digit of another script counts as a digit. *)
Example get_next_number_mixed_scripts :
  get_next_number [post_named "٣-intro"] = 4%Z /\
  get_next_number mixed_script_posts = 4%Z.
Proof. split; reflexivity. Qed.

Lemma get_next_number_is_max_plus_one_witness :
  get_next_number [] = 1%Z /\
  get_next_number [post_named "notes"; post_named "draft-2"] = 1%Z /\
  ((7 + 1 <= get_next_number three_posts)%Z /\
   exists q, In q three_posts /\
             leading_integer (dirname q) (get_next_number three_posts - 1)%Z) /\
  ((3 + 1 <= get_next_number mixed_script_posts)%Z /\
   exists q, In q mixed_script_posts /\
             leading_integer (dirname q)
               (get_next_number mixed_script_posts - 1)%Z).
Proof.
  split; [|split; [|split]].
  - apply (proj1 (get_next_number_is_max_plus_one [] (List.Forall_nil _))).
    intros p n [].
  - apply (proj1 (get_next_number_is_max_plus_one
                    [post_named "notes"; post_named "draft-2"]
                    (short_names_within
                       [post_named "notes"; post_named "draft-2"] eq_refl))).
    intros p n [<-|[<-|[]]]; apply no_leading_integer; reflexivity.
  - apply (proj2 (get_next_number_is_max_plus_one three_posts
                    (short_names_within three_posts eq_refl))
                 (post_named "0007-ownership-basics") 7%Z).
    + simpl. tauto.
    + apply (leading_integer_of_match "0007-ownership-basics" "0007").
      reflexivity.
  - apply (proj2 (get_next_number_is_max_plus_one mixed_script_posts
                    (short_names_within mixed_script_posts eq_refl))
                 (post_named "٣-intro") 3%Z).
    + simpl. tauto.
    + apply (leading_integer_of_match "٣-intro" "٣"). reflexivity.
Defined.

End NextNumber.

(** ** The metadata block *)

Section Frontmatter.

Import BlogAgent.
Context `{ext : Externals}.

Lemma count_from_skip (sep : string) (k : nat) (s : string) :
  count_from sep k s = count_from sep 0 (str_drop k s).
Proof.
  revert k. induction s as [|c s IH]; intros [|k]; try reflexivity.
  simpl. apply IH.
Qed.

Lemma startswith_nonempty (sep : string) : sep <> "" -> startswith "" sep = false.
Proof. destruct sep; [congruence | reflexivity]. Qed.

(** An occurrence found by [find_split] is the first one [count] counts. *)
Lemma count_find_split (sep s a b : string) :
  sep <> "" ->
  find_split sep s = Some (a, b) ->
  count s sep = S (count b sep).
Proof.
  intros Hsep. unfold count. revert a b.
  induction s as [|c s IH]; intros a b.
  - cbn [find_split]. rewrite startswith_nonempty by assumption. discriminate.
  - cbn [find_split count_from].
    destruct (startswith (String c s) sep) eqn:Hpre.
    + intros [= <- <-]. rewrite count_from_skip. do 2 f_equal.
      destruct sep as [|x sep']; [congruence|]. simpl.
      now rewrite Nat.sub_0_r.
    + destruct (find_split sep s) as [[a' b']|] eqn:E; [|discriminate].
      intros [= <- <-]. eapply IH. reflexivity.
Qed.

Lemma split_length_of_count (sep s : string) :
  sep <> "" -> count s sep < 2 -> length (py_split sep 2 s) < 3.
Proof.
  intros Hsep Hc. simpl.
  destruct (find_split sep s) as [[a b]|] eqn:E1; simpl; [|lia].
  destruct (find_split sep b) as [[a' b']|] eqn:E2; simpl; [|lia].
  rewrite (count_find_split _ _ _ _ Hsep E1) in Hc.
  rewrite (count_find_split _ _ _ _ Hsep E2) in Hc. lia.
Qed.

(** The cases in which [parse_frontmatter] returns the empty mapping:
    a document that does not start with the delimiter, a document with
    fewer than two occurrences of the delimiter, and a middle part (the
    text between the first two delimiters) whose loading raises
    [YAMLError] or gives an object that is false. *)
Lemma parse_frontmatter_empty_mapping (content : string) :
  (startswith content "---" = false ->
   parse_frontmatter content = inr (PDict [])) /\
  (count content "---" < 2 ->
   parse_frontmatter content = inr (PDict [])) /\
  (forall pre mid rest,
     py_split "---" 2 content = [pre; mid; rest] ->
     yaml_safe_load mid = inl YAMLError ->
     parse_frontmatter content = inr (PDict [])) /\
  (forall pre mid rest v,
     py_split "---" 2 content = [pre; mid; rest] ->
     yaml_safe_load mid = inr v -> truthy v = false ->
     parse_frontmatter content = inr (PDict [])).
Proof.
  unfold parse_frontmatter. split; [|split; [|split]].
  - intros ->. reflexivity.
  - intros Hc. destruct (startswith content "---"); [|reflexivity].
    cbn [negb].
    apply (split_length_of_count "---") in Hc; [|discriminate].
    apply Nat.ltb_lt in Hc. now rewrite Hc.
  - intros pre mid rest Hs Hy.
    destruct (startswith content "---"); [|reflexivity].
    cbn [negb]. rewrite Hs. cbn [length Nat.ltb Nat.leb nth]. now rewrite Hy.
  - intros pre mid rest v Hs Hy Hv.
    destruct (startswith content "---"); [|reflexivity].
    cbn [negb]. rewrite Hs. cbn [length Nat.ltb Nat.leb nth]. rewrite Hy.
    unfold py_or. now rewrite Hv.
Qed.

(** The first delimiter after a text in which no delimiter starts. *)
Lemma find_split_delimiter (mid rest : string) :
  find_split "---" (mid ++ "--") = None ->
  find_split "---" (mid ++ "---" ++ rest) = Some (mid, rest).
Proof.
  induction mid as [|c mid IH]; [reflexivity|].
  rewrite (app_cons c mid "--"), (app_cons c mid ("---" ++ rest)).
  cbn [find_split].
  destruct (startswith (String c (mid ++ "--")) "---") eqn:E; [discriminate|].
  destruct (find_split "---" (mid ++ "--")) as [[a b]|] eqn:F; [discriminate|].
  intros _. rewrite (IH eq_refl).
  assert (startswith (String c (mid ++ "---" ++ rest)) "---" = false) as ->;
    [|reflexivity].
  destruct mid as [|c2 [|c3 mid]]; exact E.
Qed.

Lemma py_split_two (sep s : string) :
  py_split sep 2 s =
  match find_split sep s with
  | Some (a, b) =>
      a :: match find_split sep b with
           | Some (a', b') => [a'; b']
           | None => [b]
           end
  | None => [s]
  end.
Proof. reflexivity. Qed.

(** A document that opens with the delimiter and closes its block with
    the next one: the block is what the loader reads, whatever follows
    the closing delimiter, and only [YAMLError] and a false object are
    turned into the empty mapping. *)
Lemma parse_frontmatter_block (mid rest : string) :
  find_split "---" (mid ++ "--") = None ->
  parse_frontmatter ("---" ++ mid ++ "---" ++ rest) =
  match yaml_safe_load mid with
  | inr v => inr (if truthy v then v else PDict [])
  | inl e => if is_YAMLError e then inr (PDict []) else inl e
  end.
Proof.
  intros Hmid. unfold parse_frontmatter.
  assert (py_split "---" 2 ("---" ++ mid ++ "---" ++ rest) = [""; mid; rest])
    as ->.
  { rewrite py_split_two.
    assert (find_split "---" ("---" ++ mid ++ "---" ++ rest)
            = Some ("", mid ++ "---" ++ rest)) as -> by reflexivity.
    now rewrite (find_split_delimiter mid rest Hmid). }
  reflexivity.
Qed.

(** A block that loads as a mapping with at least one key is returned
    as it is, with the declared keys. *)
Lemma parse_frontmatter_mapping (mid rest : string) (k v : pyval)
    (items : list (pyval * pyval)) :
  find_split "---" (mid ++ "--") = None ->
  yaml_safe_load mid = inr (PDict ((k, v) :: items)) ->
  parse_frontmatter ("---" ++ mid ++ "---" ++ rest)
  = inr (PDict ((k, v) :: items)).
Proof. intros Hmid Hload. now rewrite parse_frontmatter_block, Hload. Qed.

(** A middle part that loads as an object that is not a mapping: the
    object is returned when it is true, the empty mapping otherwise. *)
Remark parse_frontmatter_other_value (content pre mid rest : string)
    (v : pyval) :
  startswith content "---" = true ->
  py_split "---" 2 content = [pre; mid; rest] ->
  yaml_safe_load mid = inr v ->
  parse_frontmatter content = inr (if truthy v then v else PDict []).
Proof.
  intros Hstart Hsplit Hload. unfold parse_frontmatter.
  rewrite Hstart, Hsplit. cbn [negb length Nat.ltb Nat.leb nth].
  now rewrite Hload.
Qed.

(** An exception of the loader that is not a [YAMLError] leaves
    [parse_frontmatter]. *)
Remark parse_frontmatter_raises (content pre mid rest : string) (e : exn) :
  startswith content "---" = true ->
  py_split "---" 2 content = [pre; mid; rest] ->
  yaml_safe_load mid = inl e -> is_YAMLError e = false ->
  parse_frontmatter content = inl e.
Proof.
  intros Hstart Hsplit Hload He. unfold parse_frontmatter.
  rewrite Hstart, Hsplit. cbn [negb length Nat.ltb Nat.leb nth].
  now rewrite Hload, He.
Qed.

End Frontmatter.

Example parse_frontmatter_samples :
  @BlogAgent.parse_frontmatter Samples.block_externals "# Ownership"
  = inr (PDict []) /\
  @BlogAgent.parse_frontmatter Samples.block_externals
    ("---" ++ Samples.ownership_block) = inr (PDict []) /\
  @BlogAgent.parse_frontmatter Samples.block_externals
    ("---" ++ Samples.broken_block ++ "---" ++ nl ++ "# Ownership")
  = inr (PDict []) /\
  @BlogAgent.parse_frontmatter Samples.block_externals
    Samples.ownership_document = inr (PDict [(PStr "title", PStr "Ownership")]).
Proof. repeat split; reflexivity. Qed.

(** C3. A metadata block that is not a key-value block does not always
    give the empty mapping.  A block that holds a bare text loads as
    that text, and [parse_frontmatter] returns the text: an object that
    is not a mapping and has no key.  A block whose loading raises an
    exception other than [YAMLError], here the [ValueError] of a date
    with month 13, makes [parse_frontmatter] raise that exception. *)
Theorem parse_frontmatter_block_without_mapping :
  @BlogAgent.parse_frontmatter Samples.block_externals Samples.note_document
  = inr (PStr "rascunho") /\
  @BlogAgent.parse_frontmatter Samples.block_externals
    Samples.misdated_document = inl ValueError /\
  (forall d, @BlogAgent.parse_frontmatter Samples.block_externals
               Samples.note_document <> inr (PDict d)).
Proof. repeat split; [reflexivity.. | discriminate]. Qed.

(** ** The topic response *)

Section TopicResponse.

Import BlogAgent.
Context `{ext : Externals}.







(** A fence with the tag [json] and no line feed, a fence with another
    tag (the tag stays), and a fence before a final line feed. *)
Example strip_fences_forms :
  strip_fences (fence ++ "json{}" ++ fence) = "{}" /\
  strip_fences (fence ++ "python" ++ nl ++ "{}" ++ nl ++ fence)
  = "python" ++ nl ++ "{}" /\
  sub_trailing_fence ("{}" ++ nl ++ fence ++ nl) = "{}" ++ nl /\
  strip_fences (fence ++ fence ++ "{}" ++ fence ++ fence)
  = fence ++ "{}" ++ fence.
Proof. repeat split; reflexivity. Qed.






End TopicResponse.



(** ** Publication *)

Section Publication.

Import BlogAgent.
Context `{ext : Externals}.

(** C2. With no existing post, a topic whose slug is [intro] and a
    generated content, the publication step reads the tip commit of the
    main branch, creates one branch reference from that commit, creates
    one file at [posts/0001-intro/README.md] on that branch and opens one
    pull request whose base is the main branch; these are all its calls
    to the host. *)
Theorem publication_of_first_post
    (repo : Repo) (w : World) (topic : pyval) (content sha url : string)
    (title tags description : pyval) (tag_items : list pyval) :
  let branch := branch_of w "intro" in
  let path := "posts/0001-intro/README.md" in
  let message := "feat(blog): add post 0001-intro" in
  let pr_title := "[Blog Agent] " ++ fmt title in
  let body :=
    pr_body title description path
            (str_join ", " (map (fun t => "`" ++ fmt t ++ "`") tag_items))
            (strftime_dmY "/" (clock w 1)) in
  py_getitem topic "slug" = inr (PStr "intro") ->
  py_getitem topic "title" = inr title ->
  py_getitem topic "tags" = inr tags ->
  py_iter tags = inr tag_items ->
  py_getitem topic "description" = inr description ->
  get_branch repo MAIN_BRANCH = inr sha ->
  create_git_ref repo ("refs/heads/" ++ branch) sha = inr tt ->
  create_file repo path message content branch = inr tt ->
  create_pull repo MAIN_BRANCH branch pr_title body false = inr url ->
  run (create_pull_request repo (get_next_number []) topic content) w =
  (inr url,
   [ Now; Now;
     GetBranch "main";
     CreateGitRef ("refs/heads/" ++ branch) sha;
     Print ("  🌿 Branch criada: " ++ branch);
     CreateFile path message content branch;
     Print ("  📄 Arquivo criado: " ++ path);
     CreatePull "main" branch pr_title body false ]).
Proof.
  intros branch path message pr_title body
         Hslug Htitle Htags Hiter Hdesc Hbranch Href Hfile Hpull.
  unfold run, create_pull_request, bind, lift, call, print, now.
  rewrite Hslug, Htitle, Htags, Hiter, Hdesc, Hbranch.
  change (create_git_ref repo _ sha) with
    (create_git_ref repo ("refs/heads/" ++ branch) sha).
  rewrite Href.
  change (create_file repo _ _ content _) with
    (create_file repo path message content branch).
  rewrite Hfile.
  change (create_pull repo MAIN_BRANCH _ _ _ false) with
    (create_pull repo MAIN_BRANCH branch pr_title body false).
  rewrite Hpull.
  reflexivity.
Qed.

End Publication.

Lemma publication_of_first_post_witness :
  exists body,
    run (@BlogAgent.create_pull_request Samples.table_externals
           Samples.empty_repo (BlogAgent.get_next_number [])
           Samples.intro_topic "# Intro")
        (Samples.world_of Samples.empty_repo Samples.fenced_intro "# Intro")
    = (inr "https://example.org/pull/1",
       [ Now; Now;
         GetBranch "main";
         CreateGitRef "refs/heads/agent/post-20250309-intro" "c0ffee";
         Print "  🌿 Branch criada: agent/post-20250309-intro";
         CreateFile "posts/0001-intro/README.md"
                    "feat(blog): add post 0001-intro" "# Intro"
                    "agent/post-20250309-intro";
         Print "  📄 Arquivo criado: posts/0001-intro/README.md";
         CreatePull "main" "agent/post-20250309-intro" "[Blog Agent] Intro"
                    body false ]).
Proof.
  eexists.
  apply (@publication_of_first_post Samples.table_externals
           Samples.empty_repo
           (Samples.world_of Samples.empty_repo Samples.fenced_intro "# Intro")
           Samples.intro_topic "# Intro" "c0ffee" "https://example.org/pull/1"
           (PStr "Intro") (PList [PStr "rust"]) (PStr "Primeiros passos")
           [PStr "rust"]);
    reflexivity.
Defined.

(** ** The reviewer's file selection *)

Section Selection.

Import PrReviewer.

Lemma select_post_no_match (repo : Repo) (pr : PullRequest)
    (files : list string) (w : World) (log : list Call) :
  Forall (fun f => is_post_document f = false) files ->
  select_post repo pr files w log = (inr ("", ""), log).
Proof.
  induction 1 as [|f files Hf _ IH]; simpl; [reflexivity|].
  now rewrite Hf.
Qed.

Lemma select_post_first_match (repo : Repo) (pr : PullRequest)
    (before after : list string) (filename : string) (w : World)
    (log : list Call) :
  Forall (fun f => is_post_document f = false) before ->
  is_post_document filename = true ->
  select_post repo pr (before ++ filename :: after) w log =
  (fetched repo pr filename,
   (log ++ [GetContents filename (Some (pr_head_sha pr))])%list).
Proof.
  intros Hbefore Hmatch.
  induction Hbefore as [|f before Hf _ IH]; simpl.
  - rewrite Hmatch. unfold fetched, bind, call, lift, ret.
    destruct (get_contents repo filename _) as [e|c]; [reflexivity|].
    destruct (BlogAgent.decoded_text c); reflexivity.
  - now rewrite Hf.
Qed.

Lemma select_post_selected (repo : Repo) (pr : PullRequest)
    (files : list string) (w : World) (log : list Call)
    (path text : string) :
  fst (select_post repo pr files w log) = inr (path, text) ->
  path <> "" ->
  In path files /\ is_post_document path = true.
Proof.
  induction files as [|f files IH]; simpl.
  - intros [= <- <-]. congruence.
  - destruct (is_post_document f) eqn:Hf.
    + unfold bind, call, lift, ret.
      destruct (get_contents repo f _) as [e|c]; [discriminate|].
      destruct (BlogAgent.decoded_text c); [discriminate|].
      intros [= <- <-] _. auto.
    + intros H Hp. destruct (IH H Hp). auto.
Qed.

(** C5, as the code has it.  [get_post_content] returns the path and the
    content at the head commit of the first changed file, in the order of
    the changed files, whose path starts with [posts/] and ends with
    [README.md]; a path it returns is one of the changed files, starts
    with [posts/] and ends with [README.md]. *)
Theorem get_post_content_first_match
    (repo : Repo) (pr : PullRequest) (w : World) (files : list string) :
  get_files pr = inr files ->
  (forall before filename after f,
     files = (before ++ filename :: after)%list ->
     Forall (fun x => is_post_document x = false) before ->
     is_post_document filename = true ->
     get_contents repo filename (Some (pr_head_sha pr)) = inr (OneFile f) ->
     run (get_post_content repo pr) w =
     (inr (filename, cf_text f),
      [GetFiles; GetContents filename (Some (pr_head_sha pr))])) /\
  (forall path text,
     fst (run (get_post_content repo pr) w) = inr (path, text) ->
     path <> "" ->
     In path files /\
     startswith path "posts/" = true /\ endswith path "README.md" = true).
Proof.
  intros Hfiles. unfold run, get_post_content, bind, call.
  rewrite Hfiles. split.
  - intros before filename after f -> Hbefore Hmatch Hget.
    rewrite select_post_first_match by assumption.
    unfold fetched. rewrite Hget. reflexivity.
  - intros path text Hrun Hpath.
    destruct (select_post_selected _ _ _ _ _ _ _ Hrun Hpath) as [Hin Hdoc].
    apply andb_prop in Hdoc. tauto.
Qed.

End Selection.

Lemma get_post_content_first_match_witness :
  run (PrReviewer.get_post_content
         (Samples.review_repo Samples.files_with_post "# Intro")
         (Samples.pull_with Samples.files_with_post))
      (Samples.world_of Samples.empty_repo "" "") =
  (inr ("posts/0001-intro/README.md", "# Intro"),
   [GetFiles; GetContents "posts/0001-intro/README.md" (Some "abc123")]) /\
  (In "posts/0001-intro/README.md" Samples.files_with_post /\
   startswith "posts/0001-intro/README.md" "posts/" = true /\
   endswith "posts/0001-intro/README.md" "README.md" = true).
Proof.
  split.
  - apply (proj1 (get_post_content_first_match
                    (Samples.review_repo Samples.files_with_post "# Intro")
                    (Samples.pull_with Samples.files_with_post)
                    (Samples.world_of Samples.empty_repo "" "")
                    Samples.files_with_post eq_refl)
             ["docs/guide.md"] "posts/0001-intro/README.md" []
             {| cf_name := "README.md"; cf_type := "file"; cf_text := "# Intro" |}).
    + reflexivity.
    + repeat constructor.
    + reflexivity.
    + reflexivity.
  - apply (proj2 (get_post_content_first_match
                    (Samples.review_repo Samples.files_with_post "# Intro")
                    (Samples.pull_with Samples.files_with_post)
                    (Samples.world_of Samples.empty_repo "" "")
                    Samples.files_with_post eq_refl)
             "posts/0001-intro/README.md" "# Intro").
    + reflexivity.
    + discriminate.
Defined.

(** C5 as stated fails: a changed file under the posts root
    whose name only ends with [README.md] is selected, here ahead of the
    file that is named [README.md]. *)
Lemma get_post_content_selects_other_name :
  fst (run (PrReviewer.get_post_content
              (Samples.review_repo Samples.files_with_other_name "# Intro")
              (Samples.pull_with Samples.files_with_other_name))
           (Samples.world_of Samples.empty_repo "" ""))
  = inr ("posts/0001-intro/OLD_README.md", "old notes") /\
  basename "posts/0001-intro/OLD_README.md" = "OLD_README.md" /\
  basename "posts/0001-intro/OLD_README.md" <> "README.md" /\
  In "posts/0001-intro/README.md" Samples.files_with_other_name.
Proof.
  split; [reflexivity|]. split; [reflexivity|]. split; [discriminate|].
  simpl. tauto.
Qed.

(** ** The review run without a document to review *)

Section ReviewAbort.

Import PrReviewer.

Lemma main_run_prelude (cfg : Config) (w : World) (repo : Repo)
    (pr : PullRequest) (files : list string) :
  github_get_repo w (GITHUB_TOKEN cfg) (REPO_NAME cfg) = inr repo ->
  get_pull repo (PR_NUMBER cfg) = inr pr ->
  get_files pr = inr files ->
  run (main cfg) w =
  match select_post repo pr files w (review_prelude cfg pr) with
  | (inl e, log) => (inl e, log)
  | (inr found, log) =>
      (if String.eqb (snd found) "" then
         print "⚠️  Nenhum README.md encontrado no PR. Abortando."
       else
         bind (print ("   ✅ " ++ BlogAgent.str_of_nat (py_len (snd found))
                      ++ " caracteres lidos" ++ nl))
              (fun _ =>
         bind (print "🤔 Enviando para revisão pelo LLM...")
              (fun _ =>
         bind (with_world (fun w =>
                 call (ChatCompletion {| provider := None; api_key := HF_TOKEN cfg |}
                         (MODEL_ID cfg)
                         (REVIEW_PROMPT_format (py_take (Z.to_nat 12000) (snd found)))
                         8192 0.3)
                      (chat w {| provider := None; api_key := HF_TOKEN cfg |}
                         (MODEL_ID cfg)
                         (REVIEW_PROMPT_format (py_take (Z.to_nat 12000) (snd found)))
                         8192 0.3)))
              (fun choices =>
         bind (lift (first_content choices))
              (fun review =>
         bind (print ("   ✅ " ++ BlogAgent.str_of_nat (py_len review)
                      ++ " caracteres de revisão gerados" ++ nl))
              (fun _ =>
         bind (print "💬 Publicando comentário no PR...")
              (fun _ =>
         bind (post_review_comment pr (fst found) review)
              (fun _ =>
         print (nl ++ "🎉 Revisão publicada no PR #"
                ++ str_of_Z (PR_NUMBER cfg) ++ "!")))))))))
        w log
  end.
Proof.
  intros Hrepo Hpull Hfiles.
  unfold run, main, get_post_content.
  unfold bind at 1. unfold print at 1. unfold call at 1.
  unfold bind at 1. unfold with_world at 1. unfold call at 1. rewrite Hrepo.
  unfold bind at 1. unfold call at 1. rewrite Hpull.
  unfold bind at 1. unfold print at 1. unfold call at 1.
  unfold bind at 1. unfold print at 1. unfold call at 1.
  unfold bind at 1. unfold bind at 1. unfold call at 1. rewrite Hfiles.
  reflexivity.
Qed.

(** C6. When no changed file passes the test of the selection,
    [get_post_content] returns an empty path and an empty content without
    raising, and the review run ends normally after the notice that it
    aborts: it makes no inference call and posts no comment. *)
Theorem review_without_post_document
    (cfg : Config) (w : World) (repo : Repo) (pr : PullRequest)
    (files : list string) :
  github_get_repo w (GITHUB_TOKEN cfg) (REPO_NAME cfg) = inr repo ->
  get_pull repo (PR_NUMBER cfg) = inr pr ->
  get_files pr = inr files ->
  Forall (fun f => is_post_document f = false) files ->
  run (get_post_content repo pr) w = (inr ("", ""), [GetFiles]) /\
  run (main cfg) w = (inr tt, (review_prelude cfg pr ++ [abort_notice])%list) /\
  count_calls is_ChatCompletion (snd (run (main cfg) w)) = 0 /\
  count_calls is_CreateIssueComment (snd (run (main cfg) w)) = 0.
Proof.
  intros Hrepo Hpull Hfiles Hnone.
  assert (run (main cfg) w =
          (inr tt, (review_prelude cfg pr ++ [abort_notice])%list)) as Hmain.
  { rewrite (main_run_prelude cfg w repo pr files) by assumption.
    rewrite select_post_no_match by assumption. reflexivity. }
  split; [|split; [exact Hmain|]].
  - unfold run, get_post_content, bind, call. rewrite Hfiles.
    now apply select_post_no_match.
  - rewrite Hmain. split; reflexivity.
Qed.

(** C10. When the first changed file that passes the test of the
    selection has an empty content, [get_post_content] returns its
    path, which is not empty, with the empty content, and the review run
    ends as it does when no file is selected: the same notice, no
    inference call and no comment. *)
Theorem review_of_empty_document
    (cfg : Config) (w : World) (repo : Repo) (pr : PullRequest)
    (before after : list string) (filename : string) (f : ContentFile) :
  github_get_repo w (GITHUB_TOKEN cfg) (REPO_NAME cfg) = inr repo ->
  get_pull repo (PR_NUMBER cfg) = inr pr ->
  get_files pr = inr (before ++ filename :: after)%list ->
  Forall (fun x => is_post_document x = false) before ->
  is_post_document filename = true ->
  get_contents repo filename (Some (pr_head_sha pr)) = inr (OneFile f) ->
  cf_text f = "" ->
  fst (run (get_post_content repo pr) w) = inr (filename, "") /\
  filename <> "" /\
  run (main cfg) w =
  (inr tt,
   (review_prelude cfg pr
    ++ [GetContents filename (Some (pr_head_sha pr)); abort_notice])%list) /\
  count_calls is_ChatCompletion (snd (run (main cfg) w)) = 0 /\
  count_calls is_CreateIssueComment (snd (run (main cfg) w)) = 0.
Proof.
  intros Hrepo Hpull Hfiles Hbefore Hmatch Hget Hempty.
  assert (run (main cfg) w =
          (inr tt,
           (review_prelude cfg pr
            ++ [GetContents filename (Some (pr_head_sha pr)); abort_notice])%list))
    as Hmain.
  { rewrite (main_run_prelude cfg w repo pr _ Hrepo Hpull Hfiles).
    rewrite select_post_first_match by assumption.
    unfold fetched. rewrite Hget. cbn [BlogAgent.decoded_text].
    rewrite Hempty. reflexivity. }
  split; [|split; [|split; [exact Hmain|]]].
  - unfold run, get_post_content, bind, call. rewrite Hfiles.
    rewrite select_post_first_match by assumption.
    unfold fetched. rewrite Hget. cbn [BlogAgent.decoded_text fst].
    now rewrite Hempty.
  - intros ->. discriminate.
  - rewrite Hmain. split; reflexivity.
Qed.

End ReviewAbort.

Lemma review_without_post_document_witness :
  let repo := Samples.review_repo Samples.files_without_post "# Intro" in
  let pr := Samples.pull_with Samples.files_without_post in
  let w := Samples.world_of repo "" "Nota: 8" in
  let cfg := Samples.reviewer_config 8192 in
  run (PrReviewer.get_post_content repo pr) w = (inr ("", ""), [GetFiles]) /\
  run (PrReviewer.main cfg) w =
  (inr tt, (PrReviewer.review_prelude cfg pr ++ [PrReviewer.abort_notice])%list) /\
  count_calls is_ChatCompletion (snd (run (PrReviewer.main cfg) w)) = 0 /\
  count_calls is_CreateIssueComment (snd (run (PrReviewer.main cfg) w)) = 0.
Proof.
  intros repo pr w cfg.
  apply (review_without_post_document cfg w repo pr Samples.files_without_post).
  - reflexivity.
  - reflexivity.
  - reflexivity.
  - repeat constructor.
Defined.

Lemma review_of_empty_document_witness :
  let repo := Samples.review_repo Samples.files_with_post "" in
  let pr := Samples.pull_with Samples.files_with_post in
  let w := Samples.world_of repo "" "Nota: 8" in
  let cfg := Samples.reviewer_config 8192 in
  fst (run (PrReviewer.get_post_content repo pr) w)
  = inr ("posts/0001-intro/README.md", "") /\
  "posts/0001-intro/README.md" <> "" /\
  run (PrReviewer.main cfg) w =
  (inr tt,
   (PrReviewer.review_prelude cfg pr
    ++ [GetContents "posts/0001-intro/README.md" (Some (pr_head_sha pr));
        PrReviewer.abort_notice])%list) /\
  count_calls is_ChatCompletion (snd (run (PrReviewer.main cfg) w)) = 0 /\
  count_calls is_CreateIssueComment (snd (run (PrReviewer.main cfg) w)) = 0.
Proof.
  intros repo pr w cfg.
  apply (review_of_empty_document cfg w repo pr
           ["docs/guide.md"] [] "posts/0001-intro/README.md"
           {| cf_name := "README.md"; cf_type := "file"; cf_text := "" |}).
  - reflexivity.
  - reflexivity.
  - reflexivity.
  - repeat constructor.
  - reflexivity.
  - reflexivity.
  - reflexivity.
Defined.

(** ** The existing posts *)

Section SortedListing.

Import BlogAgent.

Lemma ascii_compare_lt_trans (a b c : ascii) :
  Ascii.compare a b = Lt -> Ascii.compare b c = Lt -> Ascii.compare a c = Lt.
Proof.
  unfold Ascii.compare. rewrite !N.compare_lt_iff. apply N.lt_trans.
Qed.

Lemma string_leb_trans (a b c : string) :
  String.leb a b = true -> String.leb b c = true -> String.leb a c = true.
Proof.
  unfold String.leb. revert b c.
  induction a as [|x a IH]; intros [|y b] [|z c]; simpl; try easy.
  destruct (Ascii.compare x y) eqn:Exy; try easy;
    destruct (Ascii.compare y z) eqn:Eyz; try easy.
  - apply Ascii.compare_eq_iff in Exy as ->.
    apply Ascii.compare_eq_iff in Eyz as ->.
    assert (Ascii.compare z z = Eq) as ->
      by (unfold Ascii.compare; apply N.compare_refl).
    apply IH.
  - apply Ascii.compare_eq_iff in Exy as ->. now rewrite Eyz.
  - apply Ascii.compare_eq_iff in Eyz as <-. now rewrite Exy.
  - now rewrite (ascii_compare_lt_trans _ _ _ Exy Eyz).
Qed.

Lemma name_le_trans (x y z : ContentFile) :
  name_le x y -> name_le y z -> name_le x z.
Proof. apply string_leb_trans. Qed.

Lemma insert_below (x : ContentFile) (l : list ContentFile) :
  Forall (name_le x) l -> insert_by_name x l = x :: l.
Proof.
  destruct 1 as [|y l Hy _]; simpl; [reflexivity|].
  unfold name_le in Hy. now rewrite Hy.
Qed.

Lemma insert_by_name_Forall (P : ContentFile -> Prop) (x : ContentFile)
    (l : list ContentFile) :
  P x -> Forall P l -> Forall P (insert_by_name x l).
Proof.
  intros Hx. induction 1 as [|y l Hy Hl IH]; simpl.
  - auto.
  - destruct (String.leb _ _); auto.
Qed.

Lemma insert_by_name_In (x y : ContentFile) (l : list ContentFile) :
  In y (insert_by_name x l) -> y = x \/ In y l.
Proof.
  induction l as [|z l IH]; simpl.
  - intros [<-|[]]. now left.
  - destruct (String.leb _ _); simpl.
    + intros [<-|[<-|H]]; auto.
    + intros [<-|H]; auto. destruct (IH H); auto.
Qed.

Lemma sorted_by_name_In (y : ContentFile) (l : list ContentFile) :
  In y (sorted_by_name l) -> In y l.
Proof.
  induction l as [|x l IH]; simpl; [tauto|].
  intros [->|H]%insert_by_name_In; auto.
Qed.

Lemma insert_by_name_sorted (x : ContentFile) (l : list ContentFile) :
  StronglySorted name_le l -> StronglySorted name_le (insert_by_name x l).
Proof.
  induction 1 as [|y l Hl IH Hy]; simpl.
  - repeat constructor.
  - destruct (String.leb (cf_name x) (cf_name y)) eqn:E.
    + constructor; [now constructor|].
      constructor; [exact E|].
      eapply Forall_impl; [exact Hy|].
      intros z. now apply name_le_trans.
    + constructor; [exact IH|].
      apply insert_by_name_Forall; [|exact Hy].
      destruct (String.leb_total (cf_name x) (cf_name y)); congruence.
Qed.

Lemma sorted_by_name_sorted (l : list ContentFile) :
  StronglySorted name_le (sorted_by_name l).
Proof.
  induction l as [|x l IH]; simpl; [constructor|].
  now apply insert_by_name_sorted.
Qed.

Lemma Forall_list_filter {A} (P : A -> Prop) (keep : A -> bool) (l : list A) :
  Forall P l -> Forall P (List.filter keep l).
Proof.
  induction 1 as [|y l Hy _ IH]; simpl; [constructor|].
  destruct (keep y); auto.
Qed.

Lemma filter_insert_by_name (keep : ContentFile -> bool) (x : ContentFile)
    (l : list ContentFile) :
  StronglySorted name_le l ->
  List.filter keep (insert_by_name x l) =
  if keep x then insert_by_name x (List.filter keep l) else List.filter keep l.
Proof.
  induction 1 as [|y l Hl IH Hy]; simpl.
  - now destruct (keep x).
  - destruct (String.leb (cf_name x) (cf_name y)) eqn:E; simpl.
    + destruct (keep x); [|reflexivity].
      symmetry. apply insert_below.
      assert (Forall (name_le x) (y :: l)) as Hall.
      { constructor; [exact E|].
        eapply Forall_impl; [exact Hy|].
        intros z. now apply name_le_trans. }
      change (Forall (name_le x) (List.filter keep (y :: l))).
      now apply Forall_list_filter.
    + rewrite IH. destruct (keep y), (keep x); simpl; try reflexivity.
      now rewrite E.
Qed.

(** Sorting the entries that are kept gives the sorted entries that are
    kept. *)
Lemma sorted_by_name_filter (keep : ContentFile -> bool)
    (l : list ContentFile) :
  sorted_by_name (List.filter keep l) = List.filter keep (sorted_by_name l).
Proof.
  induction l as [|x l IH]; simpl; [reflexivity|].
  rewrite filter_insert_by_name by apply sorted_by_name_sorted.
  destruct (keep x); simpl; now rewrite IH.
Qed.

End SortedListing.

Section LogGrowth.

Lemma extends_ret {A} (a : A) : extends (ret a).
Proof. intros w log. exists []. simpl. now rewrite app_nil_r. Qed.

Lemma extends_raise {A} (e : exn) : extends (@raise A e).
Proof. intros w log. exists []. simpl. now rewrite app_nil_r. Qed.

Lemma extends_lift {A} (r : exn + A) : extends (lift r).
Proof. intros w log. exists []. simpl. now rewrite app_nil_r. Qed.

Lemma extends_call {A} (c : Call) (r : exn + A) : extends (call c r).
Proof. intros w log. now exists [c]. Qed.

Lemma extends_print (line : string) : extends (print line).
Proof. apply extends_call. Qed.

Lemma extends_now : extends now.
Proof. intros w log. now exists [Now]. Qed.

Lemma extends_with_world {A} (f : World -> M A) :
  (forall w, extends (f w)) -> extends (with_world f).
Proof. intros H w log. apply H. Qed.

Lemma extends_bind {A B} (m : M A) (k : A -> M B) :
  extends m -> (forall a, extends (k a)) -> extends (bind m k).
Proof.
  intros Hm Hk w log. unfold bind.
  destruct (Hm w log) as [r1 E1].
  destruct (m w log) as [[e|a] log1]; simpl in E1; subst log1.
  - now exists r1.
  - destruct (Hk a w (log ++ r1)%list) as [r2 E2].
    exists (r1 ++ r2)%list. now rewrite E2, app_assoc.
Qed.

Lemma extends_try_except {A} (m h : M A) (handles : exn -> bool) :
  extends m -> extends h -> extends (try_except m handles h).
Proof.
  intros Hm Hh w log. unfold try_except.
  destruct (Hm w log) as [r1 E1].
  destruct (m w log) as [[e|a] log1]; simpl in E1; subst log1.
  - destruct (handles e); [|now exists r1].
    destruct (Hh w (log ++ r1)%list) as [r2 E2].
    exists (r1 ++ r2)%list. now rewrite E2, app_assoc.
  - now exists r1.
Qed.

Lemma extends_prefix {A} (m : M A) (w : World) (log : list Call) :
  extends m -> exists r rest, m w log = (r, (log ++ rest)%list).
Proof.
  intros H. destruct (H w log) as [rest E].
  destruct (m w log) as [r log']. simpl in E. subst. eauto.
Qed.

Lemma bind_inr {A B} (m : M A) (k : A -> M B) (w : World)
    (log log' : list Call) (a : A) :
  m w log = (inr a, log') -> bind m k w log = k a w log'.
Proof. unfold bind. now intros ->. Qed.

Lemma bind_assoc_at {A B C} (m : M A) (k : A -> M B) (k' : B -> M C)
    (w : World) (log : list Call) :
  bind (bind m k) k' w log = bind m (fun a => bind (k a) k') w log.
Proof.
  unfold bind. destruct (m w log) as [[e|a] log']; reflexivity.
Qed.

(** A logged call followed by steps that only append to the log. *)
Lemma bind_call_prefix {A B} (c : World -> Call) (answer : World -> exn + A)
    (k : A -> M B) (w : World) (log : list Call) :
  (forall a, extends (k a)) ->
  exists r rest,
    bind (with_world (fun w => call (c w) (answer w))) k w log =
    (r, (log ++ c w :: rest)%list).
Proof.
  intros Hk. unfold bind, with_world, call.
  destruct (answer w) as [e|a].
  - exists (inl e), []. reflexivity.
  - destruct (extends_prefix (k a) w (log ++ [c w])%list (Hk a))
      as (r & rest & ->).
    exists r, rest. now rewrite <- app_assoc.
Qed.

End LogGrowth.

Ltac extends_step :=
  lazymatch goal with
  | |- extends (bind _ _) => apply extends_bind; [|intros ?]
  | |- extends (with_world _) => apply extends_with_world; intros ?
  | |- extends (ret _) => apply extends_ret
  | |- extends (raise _) => apply extends_raise
  | |- extends (lift _) => apply extends_lift
  | |- extends (call _ _) => apply extends_call
  | |- extends (print _) => apply extends_print
  | |- extends now => apply extends_now
  end.

Section ExistingPosts.

Import BlogAgent.
Context `{ext : Externals}.

Lemma extends_decode_json (raw : string) : extends (decode_json raw).
Proof. unfold decode_json. destruct (json_loads raw); extends_step. Qed.

Lemma extends_generate_post_content (topic : pyval) (posts : list Post)
    (client : InferenceClient) :
  extends (generate_post_content topic posts client).
Proof. unfold generate_post_content. repeat extends_step. Qed.

Lemma extends_create_pull_request (repo : Repo) (n : Z) (topic : pyval)
    (content : string) :
  extends (create_pull_request repo n topic content).
Proof. unfold create_pull_request. repeat extends_step. Qed.

Lemma read_post_run (repo : Repo) (item : ContentFile) (posts : list Post)
    (w : World) (log : list Call) :
  read_post repo item posts w log =
  (ebind (get_contents repo (post_path (cf_name item)) None) (fun f =>
   ebind (post_of item f) (fun post => inr (posts ++ [post])%list)),
   (log ++ [GetContents (post_path (cf_name item)) None])%list).
Proof.
  unfold read_post, bind, call, lift, ret, ebind.
  destruct (get_contents repo _ None) as [e|f]; [reflexivity|].
  destruct (post_of item f); reflexivity.
Qed.

Lemma scan_posts_no_print (repo : Repo) (items : list ContentFile)
    (posts : list Post) (w : World) (log : list Call) :
  List.filter is_Print (snd (scan_posts repo items posts w log)) =
  List.filter is_Print log.
Proof.
  revert posts log. induction items as [|item items IH]; intros posts log.
  - reflexivity.
  - cbn [scan_posts]. destruct (negb _); [apply IH|].
    unfold bind, try_except. rewrite read_post_run.
    assert (List.filter is_Print
              (log ++ [GetContents (post_path (cf_name item)) None])
            = List.filter is_Print log) as Hlog
      by (rewrite List.filter_app; simpl; apply app_nil_r).
    destruct (ebind _ _) as [e|posts'].
    + destruct (is_GithubException e); cbn [ret snd]; [|exact Hlog].
      now rewrite IH.
    + now rewrite IH.
Qed.

(** Entries whose document the host does not have leave no trace in the
    result of the loop. *)
Lemma scan_posts_skip (repo repo' : Repo) (keep : ContentFile -> bool)
    (items : list ContentFile) (posts : list Post) (w : World)
    (log log' : list Call) :
  (forall name, get_contents repo' (post_path name) None
                = get_contents repo (post_path name) None) ->
  (forall item, In item items -> keep item = false ->
     exists status, get_contents repo (post_path (cf_name item)) None
                    = inl (GithubException status)) ->
  fst (scan_posts repo items posts w log) =
  fst (scan_posts repo' (List.filter keep items) posts w log').
Proof.
  intros Hsame. revert posts log log'.
  induction items as [|item items IH]; intros posts log log' Hlack.
  - reflexivity.
  - assert (forall x, In x items -> keep x = false ->
              exists status, get_contents repo (post_path (cf_name x)) None
                             = inl (GithubException status)) as Hlack'
      by (intros x Hx; apply Hlack; now right).
    cbn [scan_posts List.filter].
    destruct (keep item) eqn:Hkeep.
    + cbn [scan_posts].
      destruct (negb (String.eqb (cf_type item) "dir")); [now apply IH|].
      unfold bind, try_except. rewrite !read_post_run, Hsame.
      destruct (ebind _ _) as [e|posts'].
      * destruct (is_GithubException e); cbn [ret]; [now apply IH|reflexivity].
      * now apply IH.
    + destruct (negb (String.eqb (cf_type item) "dir")); [now apply IH|].
      unfold bind, try_except. rewrite read_post_run.
      destruct (Hlack item (or_introl eq_refl) Hkeep) as [status ->].
      cbn [ebind is_GithubException ret]. now apply IH.
Qed.

Lemma get_existing_posts_absent_root (repo : Repo) (w : World)
    (log : list Call) (status : Z) :
  get_contents repo POSTS_DIR None = inl (GithubException status) ->
  get_existing_posts repo w log =
  (inr [],
   (log ++ [GetContents POSTS_DIR None;
            Print "  ⚠️  Diretório 'posts' não encontrado. Iniciando do zero."])%list).
Proof.
  intros H. unfold get_existing_posts, bind, try_except, call, print, ret.
  rewrite H. cbn [is_GithubException call]. now rewrite <- app_assoc.
Qed.

Lemma get_existing_posts_listing (repo : Repo) (w : World) (log : list Call)
    (items : list ContentFile) :
  get_contents repo POSTS_DIR None = inr (Listing items) ->
  get_existing_posts repo w log =
  scan_posts repo (sorted_by_name items) []
             w (log ++ [GetContents POSTS_DIR None])%list.
Proof.
  intros H. unfold get_existing_posts, bind, try_except, call, ret, lift.
  rewrite H. reflexivity.
Qed.

Lemma main_continues_without_posts (cfg : Config) (repo : Repo) (w : World)
    (status : Z) :
  github_get_repo w (GITHUB_TOKEN cfg) (REPO_NAME cfg) = inr repo ->
  get_contents repo POSTS_DIR None = inl (GithubException status) ->
  exists r rest, run (main cfg) w = (r, (zero_posts_log cfg repo ++ rest)%list).
Proof.
  intros Hrepo Habsent. unfold run, main.
  erewrite bind_inr by reflexivity.
  erewrite bind_inr
    by (unfold with_world, call; rewrite Hrepo; reflexivity).
  do 3 (erewrite bind_inr by reflexivity).
  erewrite bind_inr by (apply (get_existing_posts_absent_root _ _ _ status); exact Habsent).
  do 2 (erewrite bind_inr by reflexivity).
  unfold choose_next_topic. cbn [map_exn].
  rewrite bind_assoc_at. erewrite bind_inr by reflexivity.
  rewrite bind_assoc_at.
  match goal with
  | |- context [bind (with_world ?f) ?k _ ?log] =>
      destruct (bind_call_prefix
                  (fun _ => ChatCompletion
                     {| provider := Some "hf-inference"; api_key := HF_TOKEN cfg |}
                     MODEL_ID (topic_prompt "Nenhum post publicado ainda.") 600 0.7)
                  (fun w => chat w
                     {| provider := Some "hf-inference"; api_key := HF_TOKEN cfg |}
                     MODEL_ID (topic_prompt "Nenhum post publicado ainda.") 600 0.7)
                  k w log) as (r & rest & E)
  end.
  - intros choices. repeat extends_step.
    + apply extends_decode_json.
    + apply extends_generate_post_content.
    + apply extends_create_pull_request.
  - exists r, rest. exact E.
Qed.

End ExistingPosts.

Section BenignAbsence.

Import BlogAgent.
Context `{ext : Externals}.

(** C9. When the host has no posts directory, [get_existing_posts] prints
    a warning and returns the empty list, and the generator run goes on to
    ask for a topic with zero posts.  When the host lists the directory,
    nothing is printed, and the entries whose document the host does not
    have change nothing: the result is the one obtained on a host whose
    listing lacks these entries. *)
Theorem get_existing_posts_benign_absence (repo : Repo) (w : World) :
  (forall status,
     get_contents repo POSTS_DIR None = inl (GithubException status) ->
     run (get_existing_posts repo) w =
     (inr [],
      [ GetContents POSTS_DIR None;
        Print "  ⚠️  Diretório 'posts' não encontrado. Iniciando do zero." ]) /\
     forall cfg,
       github_get_repo w (GITHUB_TOKEN cfg) (REPO_NAME cfg) = inr repo ->
       exists r rest,
         run (main cfg) w = (r, (zero_posts_log cfg repo ++ rest)%list)) /\
  (forall items keep,
     get_contents repo POSTS_DIR None = inr (Listing items) ->
     (forall item, In item items -> keep item = false ->
        exists status,
          get_contents repo (post_path (cf_name item)) None
          = inl (GithubException status)) ->
     fst (run (get_existing_posts repo) w) =
     fst (run (get_existing_posts (with_listing repo (List.filter keep items))) w) /\
     count_calls is_Print (snd (run (get_existing_posts repo) w)) = 0).
Proof.
  split.
  - intros status Habsent. split.
    + unfold run. now rewrite (get_existing_posts_absent_root _ _ _ status).
    + intros cfg Hrepo. now apply (main_continues_without_posts _ _ _ status).
  - intros items keep Hlist Hlack. unfold run.
    rewrite (get_existing_posts_listing repo w [] items Hlist).
    rewrite (get_existing_posts_listing
               (with_listing repo (List.filter keep items)) w []
               (List.filter keep items)) by reflexivity.
    split.
    + rewrite sorted_by_name_filter. apply scan_posts_skip.
      * reflexivity.
      * intros item Hin. apply Hlack. now apply sorted_by_name_In.
    + unfold count_calls. now rewrite scan_posts_no_print.
Qed.

End BenignAbsence.

Lemma get_existing_posts_benign_absence_witness :
  run (@BlogAgent.get_existing_posts Samples.table_externals Samples.empty_repo)
      (Samples.world_of Samples.empty_repo Samples.fenced_intro "# Intro") =
  (inr [],
   [ GetContents BlogAgent.POSTS_DIR None;
     Print "  ⚠️  Diretório 'posts' não encontrado. Iniciando do zero." ]) /\
  (exists r rest,
     run (@BlogAgent.main Samples.table_externals Samples.generator_config)
         (Samples.world_of Samples.empty_repo Samples.fenced_intro "# Intro") =
     (r, (BlogAgent.zero_posts_log Samples.generator_config Samples.empty_repo
          ++ rest)%list)) /\
  (fst (run (@BlogAgent.get_existing_posts Samples.table_externals
               Samples.listed_repo)
            (Samples.world_of Samples.listed_repo "" "")) =
   fst (run (@BlogAgent.get_existing_posts Samples.table_externals
               (BlogAgent.with_listing Samples.listed_repo
                  (List.filter Samples.has_document Samples.listed_entries)))
            (Samples.world_of Samples.listed_repo "" "")) /\
   count_calls is_Print
     (snd (run (@BlogAgent.get_existing_posts Samples.table_externals
                  Samples.listed_repo)
               (Samples.world_of Samples.listed_repo "" ""))) = 0).
Proof.
  split; [|split].
  - apply (proj1 (proj1 (@get_existing_posts_benign_absence
                           Samples.table_externals Samples.empty_repo
                           (Samples.world_of Samples.empty_repo
                              Samples.fenced_intro "# Intro"))
                        404%Z eq_refl)).
  - apply (proj2 (proj1 (@get_existing_posts_benign_absence
                           Samples.table_externals Samples.empty_repo
                           (Samples.world_of Samples.empty_repo
                              Samples.fenced_intro "# Intro"))
                        404%Z eq_refl)).
    reflexivity.
  - apply (proj2 (@get_existing_posts_benign_absence
                    Samples.table_externals Samples.listed_repo
                    (Samples.world_of Samples.listed_repo "" ""))
             Samples.listed_entries Samples.has_document eq_refl).
    intros item [<-|[<-|[<-|[<-|[]]]]]; try discriminate.
    intros _. exists 404%Z. reflexivity.
Defined.

(** What the two runs of the witness return: the posts in the order of
    their names, without an entry for the directory without document. *)
Example get_existing_posts_listed :
  fst (run (@BlogAgent.get_existing_posts Samples.table_externals
              Samples.listed_repo)
           (Samples.world_of Samples.listed_repo "" "")) =
  inr [ {| BlogAgent.dirname := "0001-ownership";
           BlogAgent.title := PStr "Ownership";
           BlogAgent.tags := PList [];
           BlogAgent.categories := PList [];
           BlogAgent.description := PStr "" |};
        {| BlogAgent.dirname := "0002-traits";
           BlogAgent.title := PStr "0002-traits";
           BlogAgent.tags := PList [];
           BlogAgent.categories := PList [];
           BlogAgent.description := PStr "" |} ].
Proof. reflexivity. Qed.

(** A whole run of the generator on a host without posts directory. *)
Example generator_run_without_posts :
  let w := Samples.world_of Samples.empty_repo Samples.fenced_intro "# Intro" in
  fst (run (@BlogAgent.script Samples.table_externals Samples.generator_environ) w)
  = inr tt /\
  In (CreateFile "posts/0001-intro/README.md" "feat(blog): add post 0001-intro"
                 "# Intro" "agent/post-20250309-intro")
     (snd (run (@BlogAgent.script Samples.table_externals
                  Samples.generator_environ) w)).
Proof. vm_compute. split; [reflexivity|]. tauto. Qed.

(** ** The content budget of the reviewer *)

Section ContentBudget.

Import PrReviewer.

Lemma load_content_max_tokens_missing (environ : gmap string string) :
  environ !! "CONTENT_MAX_TOKENS" = None ->
  load_content_max_tokens environ = inl TypeError.
Proof.
  intros H. unfold load_content_max_tokens, environ_get. now rewrite H.
Qed.

Lemma load_content_max_tokens_not_numeric (environ : gmap string string)
    (value : string) :
  environ !! "CONTENT_MAX_TOKENS" = Some value ->
  py_int value = None ->
  load_content_max_tokens environ = inr 8192%Z.
Proof.
  intros H Hint. unfold load_content_max_tokens, environ_get, int_of.
  now rewrite H, Hint.
Qed.

Lemma load_content_max_tokens_numeric (environ : gmap string string)
    (value : string) (n : Z) :
  environ !! "CONTENT_MAX_TOKENS" = Some value ->
  py_int value = Some n ->
  load_content_max_tokens environ = inr (if (n =? 0)%Z then 8192%Z else n).
Proof.
  intros H Hint. unfold load_content_max_tokens, environ_get, int_of, int_or.
  now rewrite H, Hint.
Qed.

(** The run of the reviewer does not read [CONTENT_MAX_TOKENS]. *)
Lemma main_ignores_budget (cfg : Config) (budget : Z) :
  main (with_budget cfg budget) = main cfg.
Proof. reflexivity. Qed.

Example reviewer_budget_override :
  load_config (Samples.reviewer_environ (Some "4096"))
  = inr (Samples.reviewer_config 4096).
Proof. vm_compute. reflexivity. Qed.

Example reviewer_budget_not_numeric :
  load_config (Samples.reviewer_environ (Some "muito"))
  = inr (Samples.reviewer_config 8192).
Proof. vm_compute. reflexivity. Qed.

(** C8 on the code: without the variable [CONTENT_MAX_TOKENS] in the
    environment, [int(None)] raises [TypeError], which the [try] statement
    does not handle: the reviewer stops while it loads its configuration,
    before any call. *)
Theorem reviewer_startup_without_budget :
  Samples.reviewer_environ None !! "CONTENT_MAX_TOKENS" = None /\
  load_content_max_tokens (Samples.reviewer_environ None) = inl TypeError /\
  load_config (Samples.reviewer_environ None) = inl TypeError /\
  run (script (Samples.reviewer_environ None))
      (Samples.world_of
         (Samples.review_repo Samples.files_with_post "# Intro") "" "Nota: 8")
  = (inl TypeError, []).
Proof. vm_compute. repeat split; reflexivity. Qed.

(** C7 on the code: with a budget of 5 characters in the environment and a
    post of 10 characters, the whole post is sent to the model: the slice
    taken from the content has the fixed length 12000. *)
Theorem review_sends_content_over_budget :
  let environ := Samples.reviewer_environ (Some "5") in
  let w := Samples.world_of
             (Samples.review_repo Samples.files_with_post "0123456789")
             "" "Nota: 8" in
  load_config environ = inr (Samples.reviewer_config 5) /\
  fst (run (script environ) w) = inr tt /\
  List.filter is_ChatCompletion (snd (run (script environ) w)) =
  [ ChatCompletion {| provider := None; api_key := "hf-token" |}
                   "deepseek-ai/DeepSeek-V3-0324"
                   (REVIEW_PROMPT_format "0123456789") 8192 0.3 ] /\
  (CONTENT_MAX_TOKENS (Samples.reviewer_config 5)
   < Z.of_nat (String.length "0123456789"))%Z.
Proof. vm_compute. repeat split; reflexivity. Qed.

End ContentBudget.

(** * Further properties *)

(** ** Directory names and sequence numbers *)

Section Numbering.

Import BlogAgent.
Context `{ext : Externals}.

(** An ASCII digit is a decimal digit. *)
Lemma ascii_decimal_digit (d : N) :
  (d < 10)%N -> decimal_digit (utf8_encode (0x30 + d)) (Z.of_N d).
Proof. intros Hd. exists 0x30%N, d. repeat split; [now left | exact Hd]. Qed.

Local Ltac uint_digit IH c v :=
  destruct IH as (digits & Hall & Hcat & _ & Hacc & Hzero);
  exists ((c, v) :: digits);
  split; [constructor; [exact (ascii_decimal_digit (Z.to_N v) eq_refl)
                       | exact Hall]|];
  split; [cbn [map fst str_concat NilEmpty.string_of_uint];
          rewrite app_cons; change ("" ++ ?x) with x; now rewrite Hcat|];
  split; [discriminate|];
  split; [intros acc;
          cbn [map snd fold_left Pos.of_uint_acc]; rewrite <- Hacc;
          f_equal; lia
         |cbn [map snd fold_left Pos.of_uint Z.of_N];
          first [exact Hzero | rewrite <- Hacc; f_equal]].

(** The decimal numeral of the standard library is made of decimal
    digits that write its value. *)
Lemma uint_digits (d : Decimal.uint) :
  exists digits : list (string * Z),
    Forall (fun e => decimal_digit (fst e) (snd e)) digits /\
    str_concat (map fst digits) = NilEmpty.string_of_uint d /\
    (d <> Decimal.Nil -> digits <> []) /\
    (forall acc, fold_left (fun a v => 10 * a + v)%Z (map snd digits) (Z.pos acc)
                 = Z.pos (Pos.of_uint_acc d acc)) /\
    fold_left (fun a v => 10 * a + v)%Z (map snd digits) 0%Z
    = Z.of_N (Pos.of_uint d).
Proof.
  induction d as [|d IH|d IH|d IH|d IH|d IH|d IH|d IH|d IH|d IH|d IH].
  - exists []. repeat split; [constructor | congruence].
  - uint_digit IH "0" 0%Z.
  - uint_digit IH "1" 1%Z.
  - uint_digit IH "2" 2%Z.
  - uint_digit IH "3" 3%Z.
  - uint_digit IH "4" 4%Z.
  - uint_digit IH "5" 5%Z.
  - uint_digit IH "6" 6%Z.
  - uint_digit IH "7" 7%Z.
  - uint_digit IH "8" 8%Z.
  - uint_digit IH "9" 9%Z.
Qed.

(** The decimal text of a natural number: digits only, not empty, and
    [int] reads the number back. *)
Lemma str_of_Z_digits (n : Z) :
  (0 <= n)%Z ->
  exists d, str_of_Z n = NilEmpty.string_of_uint d /\ d <> Decimal.Nil /\
            Z.of_N (Pos.of_uint d) = n.
Proof.
  intros Hn. unfold str_of_Z. destruct n as [|p|p]; [| |lia].
  - exists (Decimal.D0 Decimal.Nil). repeat split; discriminate.
  - exists (Pos.to_uint p). cbn [Z.to_int NilZero.string_of_int].
    pose proof (DecimalPos.Unsigned.to_uint_nonnil p) as Hnil.
    split; [|split; [exact Hnil|]].
    + unfold NilZero.string_of_uint. now destruct (Pos.to_uint p).
    + now rewrite DecimalPos.Unsigned.of_to.
Qed.

Lemma zeros_digits (k : nat) :
  Forall (fun e => decimal_digit (fst e) (snd e)) (repeat ("0", 0%Z) k) /\
  str_concat (map fst (repeat ("0", 0%Z) k)) = zeros k /\
  fold_left (fun a v => 10 * a + v)%Z (map snd (repeat ("0", 0%Z) k)) 0%Z = 0%Z.
Proof.
  induction k as [|k (Hall & Hcat & Hval)]; [repeat split; constructor|].
  cbn [repeat map fst snd str_concat zeros fold_left]. repeat split.
  - constructor; [exact (ascii_decimal_digit 0 eq_refl) | exact Hall].
  - rewrite app_cons. change ("" ++ ?x) with x. now rewrite Hcat.
  - exact Hval.
Qed.

Lemma zero_pad_nonneg (width : nat) (n : Z) :
  (0 <= n)%Z ->
  zero_pad width n = zeros (width - String.length (str_of_Z n)) ++ str_of_Z n.
Proof.
  intros Hn. unfold zero_pad.
  destruct (n <? 0)%Z eqn:E; [apply Z.ltb_lt in E; lia | reflexivity].
Qed.

Lemma str_concat_app (a b : list string) :
  str_concat (a ++ b) = str_concat a ++ str_concat b.
Proof.
  induction a as [|x a IH]; [reflexivity|].
  cbn [app str_concat]. now rewrite IH, app_assoc_str.
Qed.

(** The number of a padded directory name is its leading integer,
    whatever follows the hyphen. *)
Lemma leading_integer_of_padded (width : nat) (n : Z) (rest : string) :
  (0 <= n)%Z -> leading_integer (zero_pad width n ++ "-" ++ rest) n.
Proof.
  intros Hn. rewrite zero_pad_nonneg by assumption.
  destruct (str_of_Z_digits n Hn) as (d & -> & Hd & Hval).
  set (k := width - String.length (NilEmpty.string_of_uint d)).
  destruct (uint_digits d) as (digits & Hall & Hcat & Hne & _ & Hzero).
  destruct (zeros_digits k) as (Hall0 & Hcat0 & Hzero0).
  exists (repeat ("0", 0%Z) k ++ digits)%list, ("-" ++ rest).
  split; [|split; [|split; [|split]]].
  - intros [_ E]%app_eq_nil. now apply Hne.
  - apply Forall_app. now split.
  - now rewrite map_app, str_concat_app, Hcat0, Hcat.
  - apply lookup_digit_none. reflexivity.
  - unfold decimal_value. now rewrite map_app, fold_left_app, Hzero0, Hzero.
Qed.

Lemma leading_number_of_padded (p : Post) (n : Z) (slug : string) :
  (0 <= n)%Z ->
  dirname p = zero_pad 4 n ++ "-" ++ slug ->
  leading_number p = Some n.
Proof.
  intros Hn Hname. apply leading_number_iff. rewrite Hname.
  now apply leading_integer_of_padded.
Qed.

Lemma leading_number_nonneg (p : Post) (n : Z) :
  leading_number p = Some n -> (0 <= n)%Z.
Proof.
  unfold leading_number. destruct (match_leading_digits _); [|discriminate].
  intros [= <-]. apply int_of_digits_nonneg.
Qed.

Lemma get_next_number_eq (posts : list Post) :
  get_next_number posts = (py_max (omap leading_number posts) 0 + 1)%Z.
Proof. unfold get_next_number. now rewrite numbers_of_loop. Qed.

Lemma get_next_number_above (posts : list Post) (p : Post) (n : Z) :
  In p posts -> leading_number p = Some n -> (n < get_next_number posts)%Z.
Proof.
  intros Hp Hn. rewrite get_next_number_eq.
  assert (In n (omap leading_number posts)) as Hin
    by (apply in_numbers; eauto).
  pose proof (py_max_upper _ 0%Z _ Hin). lia.
Qed.

Lemma get_next_number_positive (posts : list Post) :
  (1 <= get_next_number posts)%Z.
Proof.
  rewrite get_next_number_eq.
  destruct (omap leading_number posts) as [|n l] eqn:E; [simpl; lia|].
  assert (In (py_max (n :: l) 0) (omap leading_number posts)) as Hin.
  { rewrite E. apply py_max_attained. discriminate. }
  apply in_numbers in Hin as (p & _ & Hp).
  apply leading_number_nonneg in Hp. lia.
Qed.

(** X1. Round trip between the directory name the publication step
    builds and the number [get_next_number] reads: for a number that is
    not negative and any slug, the leading integer of the directory name
    is the number. *)
Theorem published_dirname_round_trip (p : Post) (n : Z) (slug : pyval) :
  (0 <= n)%Z ->
  dirname p = zero_pad 4 n ++ "-" ++ fmt slug ->
  leading_number p = Some n /\ get_next_number [p] = (n + 1)%Z.
Proof.
  intros Hn Hname.
  pose proof (leading_number_of_padded p n (fmt slug) Hn Hname) as Hlead.
  split; [exact Hlead|].
  rewrite get_next_number_eq. cbn [omap list_omap]. rewrite Hlead.
  reflexivity.
Qed.

(** X2. The directory name built for the next sequence number is the
    name of no existing post, whatever the slug. *)
Theorem next_dirname_is_new (posts : list Post) (slug : pyval) (p : Post) :
  In p posts ->
  dirname p <> zero_pad 4 (get_next_number posts) ++ "-" ++ fmt slug.
Proof.
  intros Hp Hname.
  pose proof (get_next_number_positive posts) as Hpos.
  assert (leading_number p = Some (get_next_number posts)) as Hlead
    by (eapply leading_number_of_padded; [lia | exact Hname]).
  pose proof (get_next_number_above posts p _ Hp Hlead). lia.
Qed.

Lemma py_max_permutation (l l' : list Z) (d : Z) :
  Permutation l l' -> py_max l d = py_max l' d.
Proof.
  intros Hperm.
  destruct l as [|n l].
  - apply Permutation_nil in Hperm. now subst.
  - destruct l' as [|n' l'].
    + symmetry in Hperm. apply Permutation_nil in Hperm. discriminate.
    + assert (In (py_max (n :: l) d) (n' :: l')) as H1.
      { eapply Permutation_in; [exact Hperm|].
        apply py_max_attained. discriminate. }
      assert (In (py_max (n' :: l') d) (n :: l)) as H2.
      { eapply Permutation_in; [symmetry; exact Hperm|].
        apply py_max_attained. discriminate. }
      pose proof (py_max_upper _ d _ H1).
      pose proof (py_max_upper _ d _ H2). lia.
Qed.

(** X3. The next sequence number does not depend on the order of the
    posts. *)
Theorem get_next_number_permutation (posts posts' : list Post) :
  Permutation posts posts' ->
  get_next_number posts = get_next_number posts'.
Proof.
  intros Hperm. rewrite !get_next_number_eq. f_equal.
  apply py_max_permutation. now apply omap_Permutation.
Qed.

(** X4. Once the post published under the next sequence number is among
    the posts, the next sequence number is one more. *)
Theorem get_next_number_after_publication
    (posts : list Post) (p : Post) (slug : pyval) :
  dirname p = zero_pad 4 (get_next_number posts) ++ "-" ++ fmt slug ->
  get_next_number (posts ++ [p])%list = (get_next_number posts + 1)%Z.
Proof.
  intros Hname.
  pose proof (get_next_number_positive posts) as Hpos.
  assert (leading_number p = Some (get_next_number posts)) as Hlead
    by (eapply leading_number_of_padded; [lia | exact Hname]).
  rewrite (get_next_number_eq (posts ++ [p])). f_equal.
  assert (In (get_next_number posts) (omap leading_number (posts ++ [p])%list))
    as Hin.
  { apply in_numbers. exists p. split; [|exact Hlead].
    apply in_or_app. right. now left. }
  pose proof (py_max_upper _ 0%Z _ Hin) as Hup.
  assert (In (py_max (omap leading_number (posts ++ [p])%list) 0)
             (omap leading_number (posts ++ [p])%list)) as Hatt.
  { apply py_max_attained. intros E. rewrite E in Hin. destruct Hin. }
  apply in_numbers in Hatt as (q & Hq & Hval).
  apply in_app_or in Hq as [Hq|[<-|[]]].
  - pose proof (get_next_number_above posts q _ Hq Hval). lia.
  - rewrite Hlead in Hval. now injection Hval.
Qed.

End Numbering.

Lemma published_dirname_round_trip_witness :
  BlogAgent.leading_number (Samples.post_named "0042-traits") = Some 42%Z /\
  BlogAgent.get_next_number [Samples.post_named "0042-traits"] = 43%Z.
Proof.
  apply (@published_dirname_round_trip Samples.table_externals
           (Samples.post_named "0042-traits") 42%Z (PStr "traits")).
  - lia.
  - reflexivity.
Defined.

Lemma next_dirname_is_new_witness :
  BlogAgent.dirname (Samples.post_named "0007-ownership-basics")
  <> zero_pad 4 (BlogAgent.get_next_number Samples.three_posts)
     ++ "-" ++ "ownership-basics".
Proof.
  apply (@next_dirname_is_new Samples.table_externals Samples.three_posts
           (PStr "ownership-basics")
           (Samples.post_named "0007-ownership-basics")).
  simpl. tauto.
Defined.

Lemma get_next_number_permutation_witness :
  BlogAgent.get_next_number Samples.three_posts
  = BlogAgent.get_next_number (rev Samples.three_posts).
Proof.
  apply get_next_number_permutation. apply Permutation_rev.
Defined.

Lemma get_next_number_after_publication_witness :
  BlogAgent.get_next_number
    (Samples.three_posts ++ [Samples.post_named "0008-lifetimes"])%list
  = (BlogAgent.get_next_number Samples.three_posts + 1)%Z.
Proof.
  apply (@get_next_number_after_publication Samples.table_externals
           Samples.three_posts (Samples.post_named "0008-lifetimes")
           (PStr "lifetimes")).
  reflexivity.
Defined.

(** ** The list of existing posts *)

Section ListedPosts.

Import BlogAgent.
Context `{ext : Externals}.


Lemma post_of_dirname (item : ContentFile) (f : Contents) (post : Post) :
  post_of item f = inr post -> dirname post = cf_name item.
Proof.
  unfold post_of, ebind.
  repeat match goal with
         | |- match ?x with _ => _ end = _ -> _ => destruct x; [discriminate|]
         end.
  now intros [= <-].
Qed.

Lemma listed_post_dirname (repo : Repo) (item : ContentFile) (post : Post) :
  listed_post repo item = Some post ->
  dirname post = cf_name item /\ cf_type item = "dir".
Proof.
  unfold listed_post, fetched_post.
  destruct (String.eqb (cf_type item) "dir") eqn:Hdir; [|discriminate].
  cbn [negb]. apply String.eqb_eq in Hdir.
  destruct (get_contents repo _ None) as [e|f]; [discriminate|].
  cbn [ebind].
  destruct (post_of item f) as [e|p] eqn:Hp; [discriminate|].
  intros [= <-]. split; [now apply post_of_dirname in Hp | exact Hdir].
Qed.

Lemma read_post_fetched (repo : Repo) (item : ContentFile) (posts : list Post)
    (w : World) (log : list Call) :
  read_post repo item posts w log =
  (ebind (fetched_post repo item) (fun post => inr (posts ++ [post])%list),
   (log ++ [GetContents (post_path (cf_name item)) None])%list).
Proof.
  rewrite read_post_run. unfold fetched_post, ebind.
  now destruct (get_contents repo _ None).
Qed.

(** The loop returns a list exactly when it gets past every entry. *)
Lemma scan_posts_readable (repo : Repo) (items : list ContentFile)
    (acc : list Post) (w : World) (log : list Call) :
  Forall (readable repo) items ->
  fst (scan_posts repo items acc w log)
  = inr (acc ++ omap (listed_post repo) items)%list.
Proof.
  intros Hall. revert acc log.
  induction Hall as [|item items Hitem _ IH]; intros acc log.
  - cbn. now rewrite app_nil_r.
  - cbn [scan_posts omap list_omap]. unfold listed_post at 1.
    destruct (String.eqb (cf_type item) "dir") eqn:Hdir; cbn [negb];
      [|apply IH].
    unfold bind, try_except. rewrite read_post_fetched.
    destruct Hitem as [Hno|[[status Hst]|[post Hpost]]].
    + congruence.
    + rewrite Hst. cbn [ebind is_GithubException ret]. apply IH.
    + rewrite Hpost. cbn [ebind]. rewrite IH. now rewrite <- app_assoc.
Qed.

Lemma scan_posts_returns (repo : Repo) (items : list ContentFile)
    (acc posts : list Post) (w : World) (log : list Call) :
  fst (scan_posts repo items acc w log) = inr posts ->
  Forall (readable repo) items.
Proof.
  revert acc log. induction items as [|item items IH]; intros acc log;
    [constructor|].
  cbn [scan_posts].
  destruct (String.eqb (cf_type item) "dir") eqn:Hdir; cbn [negb].
  - unfold bind, try_except. rewrite read_post_fetched.
    destruct (fetched_post repo item) as [e|post] eqn:Hfetch; cbn [ebind].
    + destruct e; cbn [is_GithubException fst];
        try (intros H; discriminate H).
      intros H. constructor; [|eapply IH; exact H].
      right; left. eauto.
    + intros H. constructor; [|eapply IH; exact H].
      right; right. eauto.
  - intros H. constructor; [now left | eapply IH; exact H].
Qed.

Lemma insert_by_name_In_iff (x y : ContentFile) (l : list ContentFile) :
  In y (insert_by_name x l) <-> y = x \/ In y l.
Proof.
  split; [apply insert_by_name_In|].
  induction l as [|z l IH]; simpl.
  - intros [->|[]]. now left.
  - destruct (String.leb _ _); simpl; intuition.
Qed.

Lemma sorted_by_name_In_iff (y : ContentFile) (l : list ContentFile) :
  In y (sorted_by_name l) <-> In y l.
Proof.
  induction l as [|x l IH]; simpl; [tauto|].
  rewrite insert_by_name_In_iff, IH. intuition.
Qed.

Lemma Forall_sorted_by_name (P : ContentFile -> Prop) (l : list ContentFile) :
  Forall P (sorted_by_name l) <-> Forall P l.
Proof.
  rewrite !List.Forall_forall.
  split; intros H x Hx; apply H; now apply sorted_by_name_In_iff.
Qed.

(** X6. When the host lists the posts directory, [get_existing_posts]
    returns a list exactly when the loop gets past every entry (each is
    not a directory, or its document is missing, or its document gives a
    post); the list then holds, in the order of the names, the posts of
    the directories whose document could be read. *)
Theorem get_existing_posts_listed_result
    (repo : Repo) (w : World) (items : list ContentFile) (posts : list Post) :
  get_contents repo POSTS_DIR None = inr (Listing items) ->
  (fst (run (get_existing_posts repo) w) = inr posts <->
   Forall (readable repo) items /\
   posts = omap (listed_post repo) (sorted_by_name items)).
Proof.
  intros Hlist. unfold run. rewrite (get_existing_posts_listing _ _ _ _ Hlist).
  split.
  - intros Hrun.
    pose proof (scan_posts_returns _ _ _ _ _ _ Hrun) as Hall.
    rewrite (scan_posts_readable _ _ _ _ _ Hall) in Hrun.
    split; [now apply (proj1 (Forall_sorted_by_name _ _))|].
    now injection Hrun.
  - intros [Hall ->]. apply (proj2 (Forall_sorted_by_name _ _)) in Hall.
    now rewrite (scan_posts_readable _ _ _ _ _ Hall).
Qed.

Lemma omap_listed_sorted (repo : Repo) (l : list ContentFile) :
  StronglySorted name_le l ->
  StronglySorted (fun a b => String.leb a b = true)
                 (map dirname (omap (listed_post repo) l)).
Proof.
  induction 1 as [|item l Hl IH Hall]; cbn [omap list_omap map];
    [constructor|].
  destruct (listed_post repo item) as [post|] eqn:Hpost; [|exact IH].
  cbn [map]. constructor; [exact IH|].
  apply listed_post_dirname in Hpost as [Hname _].
  rewrite List.Forall_forall. intros name Hin.
  apply in_map_iff in Hin as (q & <- & Hq).
  apply list_elem_of_In, list_elem_of_omap in Hq as (item' & Hin' & Hq).
  apply listed_post_dirname in Hq as [-> _]. rewrite Hname.
  apply list_elem_of_In in Hin'.
  rewrite List.Forall_forall in Hall. now apply Hall.
Qed.

(** X7. The posts [get_existing_posts] returns are in the order of their
    directory names, and each carries the name of a directory entry of
    the listing. *)
Theorem get_existing_posts_sorted
    (repo : Repo) (w : World) (items : list ContentFile) (posts : list Post) :
  get_contents repo POSTS_DIR None = inr (Listing items) ->
  fst (run (get_existing_posts repo) w) = inr posts ->
  StronglySorted (fun a b => String.leb a b = true) (map dirname posts) /\
  (forall post, In post posts ->
     exists item, In item items /\ cf_type item = "dir" /\
                  dirname post = cf_name item).
Proof.
  intros Hlist Hrun. unfold run in Hrun.
  rewrite (get_existing_posts_listing _ _ _ _ Hlist) in Hrun.
  pose proof (scan_posts_returns _ _ _ _ _ _ Hrun) as Hall.
  rewrite (scan_posts_readable _ _ _ _ _ Hall) in Hrun.
  injection Hrun as <-. cbn [app]. split.
  - apply omap_listed_sorted, sorted_by_name_sorted.
  - intros post Hin.
    apply list_elem_of_In, list_elem_of_omap in Hin as (item & Hin & Hpost).
    apply listed_post_dirname in Hpost as [Hname Hdir].
    exists item. repeat split; try assumption.
    apply sorted_by_name_In_iff. now apply list_elem_of_In.
Qed.

(** X8. A directory whose metadata block loads as a true object that is
    not a mapping (a bare text, a list, a number) stops the reading of
    the posts: [fm.get] raises [AttributeError], which the loop does not
    handle, so [get_existing_posts] returns no list. *)
Theorem get_existing_posts_stops_on_non_mapping
    (repo : Repo) (w : World) (items : list ContentFile)
    (item : ContentFile) (f : ContentFile) (v : pyval) :
  get_contents repo POSTS_DIR None = inr (Listing items) ->
  In item items ->
  cf_type item = "dir" ->
  get_contents repo (post_path (cf_name item)) None = inr (OneFile f) ->
  parse_frontmatter (cf_text f) = inr v ->
  (forall d, v <> PDict d) ->
  fetched_post repo item = inl AttributeError /\
  exists e, fst (run (get_existing_posts repo) w) = inl e.
Proof.
  intros Hlist Hin Hdir Hget Hfm Hv.
  assert (fetched_post repo item = inl AttributeError) as Hfetch.
  { unfold fetched_post. rewrite Hget. cbn [ebind post_of decoded_text].
    unfold post_of. cbn [decoded_text ebind]. rewrite Hfm. cbn [ebind].
    destruct v; try reflexivity. now destruct (Hv items0). }
  split; [exact Hfetch|].
  destruct (fst (run (get_existing_posts repo) w)) as [e|posts] eqn:Hrun;
    [eauto|].
  exfalso. unfold run in Hrun.
  rewrite (get_existing_posts_listing _ _ _ _ Hlist) in Hrun.
  pose proof (scan_posts_returns _ _ _ _ _ _ Hrun) as Hall.
  apply (proj1 (Forall_sorted_by_name _ _)) in Hall.
  rewrite List.Forall_forall in Hall.
  destruct (Hall item Hin) as [Hno|[[status Hst]|[post Hpost]]].
  - rewrite Hdir in Hno. discriminate.
  - rewrite Hfetch in Hst. discriminate.
  - rewrite Hfetch in Hpost. discriminate.
Qed.

End ListedPosts.


Lemma get_existing_posts_listed_result_witness :
  fst (run (@BlogAgent.get_existing_posts Samples.table_externals
              Samples.listed_repo)
           (Samples.world_of Samples.listed_repo "" ""))
  = inr Samples.listed_posts.
Proof.
  apply (proj2 (@get_existing_posts_listed_result Samples.table_externals
                  Samples.listed_repo
                  (Samples.world_of Samples.listed_repo "" "")
                  Samples.listed_entries Samples.listed_posts eq_refl)).
  split; [|reflexivity].
  constructor; [right; right; eexists; reflexivity|].
  constructor; [left; reflexivity|].
  constructor; [right; left; exists 404%Z; reflexivity|].
  constructor; [right; right; eexists; reflexivity|].
  constructor.
Defined.

Lemma get_existing_posts_sorted_witness :
  StronglySorted (fun a b => String.leb a b = true)
                 (map BlogAgent.dirname Samples.listed_posts) /\
  (forall post, In post Samples.listed_posts ->
     exists item, In item Samples.listed_entries /\ cf_type item = "dir" /\
                  BlogAgent.dirname post = cf_name item).
Proof.
  apply (@get_existing_posts_sorted Samples.table_externals
           Samples.listed_repo (Samples.world_of Samples.listed_repo "" "")
           Samples.listed_entries Samples.listed_posts).
  - reflexivity.
  - reflexivity.
Defined.

Lemma get_existing_posts_stops_on_non_mapping_witness :
  @BlogAgent.fetched_post Samples.text_externals Samples.note_repo
    (Samples.dir_entry "0001-notas") = inl AttributeError /\
  exists e,
    fst (run (@BlogAgent.get_existing_posts Samples.text_externals
                Samples.note_repo)
             (Samples.world_of Samples.note_repo "" "")) = inl e.
Proof.
  apply (@get_existing_posts_stops_on_non_mapping Samples.text_externals
           Samples.note_repo (Samples.world_of Samples.note_repo "" "")
           [Samples.dir_entry "0001-notas"] (Samples.dir_entry "0001-notas")
           Samples.note_file (PStr "rascunho")).
  - reflexivity.
  - simpl. tauto.
  - reflexivity.
  - reflexivity.
  - reflexivity.
  - discriminate.
Defined.

(** ** Errors of the topic, draft and publication steps *)

Section StepErrors.

Import BlogAgent.
Context `{ext : Externals}.

Lemma all_str_error (l : list pyval) (e : exn) :
  all_str l = inl e -> e = TypeError.
Proof.
  induction l as [|v l IH]; [discriminate|].
  destruct v; cbn [all_str]; try (now intros [= <-]).
  destruct (all_str l) as [e'|r]; [|discriminate].
  intros [= <-]. now apply IH.
Qed.

Lemma py_join_error (sep : string) (v : pyval) (e : exn) :
  py_join sep v = inl e -> e = TypeError.
Proof.
  unfold py_join, py_iter.
  destruct v; try (now intros [= <-]);
    match goal with
    | |- match all_str ?l with _ => _ end = _ -> _ =>
        destruct (all_str l) eqn:E; [|discriminate];
        intros [= <-]; now apply all_str_error in E
    end.
Qed.

Lemma map_exn_topic_line_error (posts : list Post) (p : Post) (e : exn) :
  In p posts ->
  py_join ", " (tags p) = inl e ->
  map_exn topic_line posts = inl TypeError.
Proof.
  intros Hin Hp. induction posts as [|q posts IH]; [destruct Hin|].
  cbn [map_exn]. unfold topic_line at 1.
  destruct (py_join ", " (tags q)) as [e'|joined] eqn:Hq.
  - now rewrite (py_join_error _ _ _ Hq).
  - destruct Hin as [->|Hin]; [congruence|].
    now rewrite (IH Hin).
Qed.

(** X9. When the tags of some existing post cannot be joined (an empty
    [tags:] entry that loads as [None], a number, a list with an element
    that is not a text), [choose_next_topic] raises [TypeError] while it
    builds the prompt: no inference call is made. *)
Theorem choose_next_topic_unjoinable_tags
    (posts : list Post) (client : InferenceClient) (w : World)
    (p : Post) (e : exn) :
  In p posts ->
  py_join ", " (tags p) = inl e ->
  run (choose_next_topic posts client) w = (inl TypeError, []).
Proof.
  intros Hin Hp. unfold run, choose_next_topic, bind, lift.
  now rewrite (map_exn_topic_line_error posts p e Hin Hp).
Qed.

(** X10. The request for the draft depends on the existing posts only
    through the titles of the last five. *)
Theorem generate_post_content_recent_titles
    (topic : pyval) (posts posts' : list Post) (client : InferenceClient) :
  map title (last_n 5 posts) = map title (last_n 5 posts') ->
  generate_post_content topic posts client
  = generate_post_content topic posts' client.
Proof.
  intros H. unfold generate_post_content.
  assert (forall l : list Post,
            map (fun p => "- " ++ fmt (title p)) l
            = map (fun t => "- " ++ fmt t) (map title l)) as Hmap
    by (intros l; now rewrite map_map).
  rewrite !Hmap, H. reflexivity.
Qed.

(** X11. [generate_post_content] reads the keys [title], [slug],
    [description] and [tags] of the topic in this order.  When the key
    [k] is missing and every key read before it is present, it raises
    [KeyError] for [k], whatever the keys read after it: the error names
    the first missing key.  The clock has been read and no inference
    call is made. *)
Theorem generate_post_content_missing_key
    (items : list (pyval * pyval)) (posts : list Post)
    (client : InferenceClient) (w : World)
    (outline : pyval) (sections : list pyval)
    (before after : list string) (k : string) :
  py_get (PDict items) "outline" (PList []) = inr outline ->
  py_iter outline = inr sections ->
  ["title"; "slug"; "description"; "tags"] = (before ++ k :: after)%list ->
  Forall (fun k' => lookup_key k' items <> None) before ->
  lookup_key k items = None ->
  run (generate_post_content (PDict items) posts client) w
  = (inl (KeyError k), [Now]) /\
  count_calls is_ChatCompletion
    (snd (run (generate_post_content (PDict items) posts client) w)) = 0.
Proof.
  intros Houtline Hiter Horder Hbefore Hnone.
  assert (run (generate_post_content (PDict items) posts client) w
          = (inl (KeyError k), [Now])) as Hrun; [|now rewrite Hrun].
  unfold run, generate_post_content, bind, lift, now.
  rewrite Houtline, Hiter. cbn [py_getitem].
  destruct before as [|k1 before];
    [injection Horder as <- _; now rewrite Hnone|].
  injection Horder as <- Horder. apply Forall_cons_1 in Hbefore as [H1 Hbefore].
  destruct (lookup_key "title" items) as [v1|]; [clear H1 | congruence].
  destruct before as [|k2 before];
    [injection Horder as <- _; now rewrite Hnone|].
  injection Horder as <- Horder. apply Forall_cons_1 in Hbefore as [H2 Hbefore].
  destruct (lookup_key "slug" items) as [v2|]; [clear H2 | congruence].
  destruct before as [|k3 before];
    [injection Horder as <- _; now rewrite Hnone|].
  injection Horder as <- Horder. apply Forall_cons_1 in Hbefore as [H3 Hbefore].
  destruct (lookup_key "description" items) as [v3|]; [clear H3 | congruence].
  destruct before as [|k4 before];
    [injection Horder as <- _; now rewrite Hnone|].
  injection Horder as _ Horder. destruct before; discriminate.
Qed.

(** X12. No rollback: when the host refuses the file, [create_pull_request]
    raises the exception of the host after the branch reference has been
    created; the reference stays and no pull request is opened. *)
Theorem create_pull_request_no_rollback
    (repo : Repo) (w : World) (post_number : Z) (topic slug : pyval)
    (content sha : string) (e : exn) :
  let dirname := zero_pad 4 post_number ++ "-" ++ fmt slug in
  let path := POSTS_DIR ++ "/" ++ dirname ++ "/" ++ POST_FILENAME in
  let branch := "agent/post-" ++ strftime_Ymd "" (clock w 0) ++ "-" ++ fmt slug in
  py_getitem topic "slug" = inr slug ->
  get_branch repo MAIN_BRANCH = inr sha ->
  create_git_ref repo ("refs/heads/" ++ branch) sha = inr tt ->
  create_file repo path ("feat(blog): add post " ++ dirname) content branch
  = inl e ->
  run (create_pull_request repo post_number topic content) w =
  (inl e,
   [ Now; Now;
     GetBranch MAIN_BRANCH;
     CreateGitRef ("refs/heads/" ++ branch) sha;
     Print ("  🌿 Branch criada: " ++ branch);
     CreateFile path ("feat(blog): add post " ++ dirname) content branch ]).
Proof.
  intros dirname path branch Hslug Hbranch Href Hfile.
  unfold run, create_pull_request, bind, lift, call, print, now.
  rewrite Hslug, Hbranch.
  change (create_git_ref repo _ sha) with
    (create_git_ref repo ("refs/heads/" ++ branch) sha).
  rewrite Href.
  change (create_file repo _ _ content _) with
    (create_file repo path ("feat(blog): add post " ++ dirname) content branch).
  rewrite Hfile. reflexivity.
Qed.

End StepErrors.

Lemma choose_next_topic_unjoinable_tags_witness :
  run (@BlogAgent.choose_next_topic Samples.table_externals
         [Samples.post_named "0001-intro"; Samples.untagged_post]
         {| provider := Some "hf-inference"; api_key := "hf-token" |})
      (Samples.world_of Samples.empty_repo Samples.fenced_intro "# Intro")
  = (inl TypeError, []).
Proof.
  apply (@choose_next_topic_unjoinable_tags Samples.table_externals
           [Samples.post_named "0001-intro"; Samples.untagged_post]
           {| provider := Some "hf-inference"; api_key := "hf-token" |}
           (Samples.world_of Samples.empty_repo Samples.fenced_intro "# Intro")
           Samples.untagged_post TypeError).
  - simpl. tauto.
  - reflexivity.
Defined.

Lemma generate_post_content_recent_titles_witness :
  @BlogAgent.generate_post_content Samples.table_externals
    Samples.intro_topic Samples.six_posts
    {| provider := Some "hf-inference"; api_key := "hf-token" |}
  = @BlogAgent.generate_post_content Samples.table_externals
      Samples.intro_topic (tl Samples.six_posts)
      {| provider := Some "hf-inference"; api_key := "hf-token" |}.
Proof.
  apply (@generate_post_content_recent_titles Samples.table_externals).
  reflexivity.
Defined.

Lemma generate_post_content_missing_key_witness :
  run (@BlogAgent.generate_post_content Samples.table_externals
         Samples.topic_without_slug []
         {| provider := Some "hf-inference"; api_key := "hf-token" |})
      (Samples.world_of Samples.empty_repo Samples.fenced_intro "# Intro")
  = (inl (KeyError "slug"), [Now]) /\
  count_calls is_ChatCompletion
    (snd (run (@BlogAgent.generate_post_content Samples.table_externals
                 Samples.topic_without_slug []
                 {| provider := Some "hf-inference"; api_key := "hf-token" |})
              (Samples.world_of Samples.empty_repo Samples.fenced_intro
                 "# Intro"))) = 0.
Proof.
  apply (@generate_post_content_missing_key Samples.table_externals
           _ [] _ _ (PList []) [] ["title"] ["description"; "tags"] "slug").
  - reflexivity.
  - reflexivity.
  - reflexivity.
  - repeat constructor. discriminate.
  - reflexivity.
Defined.

Lemma create_pull_request_no_rollback_witness :
  run (@BlogAgent.create_pull_request Samples.table_externals
         Samples.read_only_repo 1 Samples.intro_topic "# Intro")
      (Samples.world_of Samples.read_only_repo Samples.fenced_intro "# Intro")
  = (inl (GithubException 422),
     [ Now; Now;
       GetBranch "main";
       CreateGitRef "refs/heads/agent/post-20250309-intro" "c0ffee";
       Print "  🌿 Branch criada: agent/post-20250309-intro";
       CreateFile "posts/0001-intro/README.md"
                  "feat(blog): add post 0001-intro" "# Intro"
                  "agent/post-20250309-intro" ]).
Proof.
  apply (@create_pull_request_no_rollback Samples.table_externals
           Samples.read_only_repo
           (Samples.world_of Samples.read_only_repo Samples.fenced_intro
              "# Intro")
           1%Z Samples.intro_topic (PStr "intro") "# Intro" "c0ffee"
           (GithubException 422));
    reflexivity.
Defined.

(** ** The order of the calls *)

Section Stages.

Import Protocol.
Variable step : nat -> Call -> option nat.

Lemma follow_app (a : nat) (l1 l2 : list Call) :
  follow step a (l1 ++ l2) =
  match follow step a l1 with
  | Some s => follow step s l2
  | None => None
  end.
Proof.
  revert a. induction l1 as [|c l1 IH]; intros a; [reflexivity|].
  simpl. destruct (step a c); [apply IH | reflexivity].
Qed.

Lemma moves_ret {A} (x : A) (a : nat) : moves step (ret x) a a.
Proof.
  intros w log H. exists a. cbn [snd fst ret raise lift].
  split; [exact H|]. split; [lia | reflexivity].
Qed.

Lemma moves_raise {A} (e : exn) (a : nat) : moves step (@raise A e) a a.
Proof.
  intros w log H. exists a. cbn [snd fst ret raise lift].
  split; [exact H|]. split; [lia | reflexivity].
Qed.

Lemma moves_lift {A} (r : exn + A) (a : nat) : moves step (lift r) a a.
Proof.
  intros w log H. exists a. cbn [snd fst ret raise lift].
  split; [exact H|]. split; [lia | reflexivity].
Qed.

Lemma moves_call {A} (c : Call) (r : exn + A) (a b : nat) :
  step a c = Some b -> a <= b -> moves step (call c r) a b.
Proof.
  intros Hstep Hab w log H. exists b. unfold call. cbn [snd fst].
  rewrite follow_app, H. cbn [follow]. rewrite Hstep.
  split; [reflexivity|]. split; [lia | reflexivity].
Qed.

Lemma moves_print (line : string) (a : nat) :
  step a (Print line) = Some a -> moves step (print line) a a.
Proof. intros H. now apply moves_call. Qed.

Lemma moves_now (a : nat) : step a Now = Some a -> moves step now a a.
Proof.
  intros Hstep w log H. exists a. unfold now. cbn [snd fst].
  rewrite follow_app, H. cbn [follow]. rewrite Hstep.
  split; [reflexivity|]. split; [lia | reflexivity].
Qed.

Lemma moves_with_world {A} (f : World -> M A) (a b : nat) :
  (forall w, moves step (f w) a b) -> moves step (with_world f) a b.
Proof. intros H w log. apply H. Qed.

Lemma moves_bind {A B} (m : M A) (k : A -> M B) (a b c : nat) :
  moves step m a b -> (forall x, moves step (k x) b c) -> b <= c ->
  moves step (bind m k) a c.
Proof.
  intros Hm Hk Hbc w log H. unfold bind.
  destruct (Hm w log H) as (s & Hs & Hrange & Hret).
  destruct (m w log) as [[e|x] log1]; cbn [fst snd] in *.
  - exists s. split; [exact Hs|]. split; [lia|].
    intros x Hx. discriminate Hx.
  - rewrite (Hret x eq_refl) in Hs.
    destruct (Hk x w log1 Hs) as (s' & Hs' & Hrange' & Hret').
    exists s'. split; [exact Hs'|]. split; [lia | exact Hret'].
Qed.

Lemma moves_try_except {A} (m h : M A) (handles : exn -> bool) (a : nat) :
  moves step m a a -> moves step h a a ->
  moves step (try_except m handles h) a a.
Proof.
  intros Hm Hh w log H. unfold try_except.
  destruct (Hm w log H) as (s & Hs & Hrange & Hret).
  assert (s = a) as -> by lia.
  destruct (m w log) as [[e|x] log1]; cbn [fst snd] in *.
  - destruct (handles e); [now apply Hh|].
    exists a. split; [exact Hs|]. split; [lia | reflexivity].
  - exists a. split; [exact Hs|]. split; [lia | reflexivity].
Qed.

Lemma moves_settles {A} (m : M A) (a b c : nat) (ok : nat -> Prop) :
  moves step m a b -> b <= c -> ok b -> settles step m a c ok.
Proof.
  intros Hm Hbc Hok w log H.
  destruct (Hm w log H) as (s & Hs & Hrange & Hret).
  exists s. split; [exact Hs|]. split; [lia|].
  intros x Hx. now rewrite (Hret x Hx).
Qed.

Lemma settles_bind {A B} (m : M A) (k : A -> M B) (a b c : nat)
    (ok : nat -> Prop) :
  moves step m a b -> (forall x, settles step (k x) b c ok) -> b <= c ->
  settles step (bind m k) a c ok.
Proof.
  intros Hm Hk Hbc w log H. unfold bind.
  destruct (Hm w log H) as (s & Hs & Hrange & Hret).
  destruct (m w log) as [[e|x] log1]; cbn [fst snd] in *.
  - exists s. split; [exact Hs|]. split; [lia|].
    intros x Hx. discriminate Hx.
  - rewrite (Hret x eq_refl) in Hs.
    destruct (Hk x w log1 Hs) as (s' & Hs' & Hrange' & Hret').
    exists s'. split; [exact Hs'|]. split; [lia | exact Hret'].
Qed.

End Stages.

Ltac moves_step :=
  lazymatch goal with
  | |- Protocol.moves _ (bind _ _) _ _ =>
      eapply moves_bind; [ | intros ? | ]
  | |- Protocol.moves _ (with_world _) _ _ =>
      apply moves_with_world; intros ?
  | |- Protocol.moves _ (ret _) _ _ => apply moves_ret
  | |- Protocol.moves _ (raise _) _ _ => apply moves_raise
  | |- Protocol.moves _ (lift _) _ _ => apply moves_lift
  | |- Protocol.moves _ (print _) _ _ => apply moves_print; reflexivity
  | |- Protocol.moves _ now _ _ => apply moves_now; reflexivity
  | |- Protocol.moves _ (call _ _) _ _ =>
      eapply moves_call; [reflexivity | cbn; lia]
  | |- _ <= _ => cbn; lia
  end.

Section GeneratorOrder.

Import BlogAgent Protocol.
Context `{ext : Externals}.

Ltac generator_step_tac :=
  first
    [ moves_step
    | lazymatch goal with
      | |- moves _ (let _ := _ in _) _ _ => cbv zeta
      end ].

Lemma moves_scan_posts (repo : Repo) (items : list ContentFile)
    (posts : list Post) :
  moves generator_step (scan_posts repo items posts) 0 0.
Proof.
  revert posts. induction items as [|item items IH]; intros posts.
  - apply moves_ret.
  - cbn [scan_posts]. destruct (negb _); [apply IH|].
    eapply moves_bind; [|intros posts'; apply IH|lia].
    apply moves_try_except; [|apply moves_ret].
    unfold read_post. repeat generator_step_tac.
Qed.

Lemma moves_get_existing_posts (repo : Repo) :
  moves generator_step (get_existing_posts repo) 0 0.
Proof.
  unfold get_existing_posts. cbv zeta.
  eapply moves_bind; [| |apply Nat.le_refl].
  - apply moves_try_except; repeat generator_step_tac.
  - intros [items|]; [|apply moves_ret].
    eapply moves_bind; [apply moves_lift| |apply Nat.le_refl].
    intros entries. apply moves_scan_posts.
Qed.

Lemma moves_decode_json (raw : string) (a : nat) :
  moves generator_step (decode_json raw) a a.
Proof.
  unfold decode_json. destruct (json_loads raw);
    [apply moves_ret | apply moves_raise].
Qed.

Lemma moves_choose_next_topic (posts : list Post) (client : InferenceClient) :
  moves generator_step (choose_next_topic posts client) 0 1.
Proof.
  unfold choose_next_topic.
  repeat first [generator_step_tac | apply moves_decode_json].
Qed.

Lemma moves_generate_post_content (topic : pyval) (posts : list Post)
    (client : InferenceClient) :
  moves generator_step (generate_post_content topic posts client) 1 2.
Proof. unfold generate_post_content. repeat generator_step_tac. Qed.

Lemma moves_create_pull_request (repo : Repo) (n : Z) (topic : pyval)
    (content : string) :
  moves generator_step (create_pull_request repo n topic content) 2 5.
Proof. unfold create_pull_request. repeat generator_step_tac. Qed.

Lemma moves_main (cfg : Config) : moves generator_step (main cfg) 0 5.
Proof.
  unfold main.
  repeat first
    [ generator_step_tac
    | apply moves_get_existing_posts
    | apply moves_choose_next_topic
    | apply moves_generate_post_content
    | apply moves_create_pull_request ].
Qed.

End GeneratorOrder.

Section GeneratorCounts.

Import BlogAgent Protocol.
Context `{ext : Externals}.

Lemma generator_stage_counts (log : list Call) (a s : nat) :
  a <= 5 ->
  follow generator_step a log = Some s ->
  a <= s <= 5 /\
  count_calls is_ChatCompletion log + Nat.min a 2 = Nat.min s 2 /\
  count_calls is_CreateGitRef log + (if Nat.leb 3 a then 1 else 0)
  = (if Nat.leb 3 s then 1 else 0) /\
  count_calls is_CreateFile log + (if Nat.leb 4 a then 1 else 0)
  = (if Nat.leb 4 s then 1 else 0) /\
  count_calls is_CreatePull log + (if Nat.leb 5 a then 1 else 0)
  = (if Nat.leb 5 s then 1 else 0) /\
  count_calls is_CreateIssueComment log = 0.
Proof.
  unfold count_calls. revert a.
  induction log as [|c log IH]; intros a Ha.
  - intros [= <-]. cbn. repeat split; lia.
  - cbn [follow].
    destruct (generator_step a c) as [a'|] eqn:Hstep; [|discriminate].
    intros Hfollow.
    assert (a' <= 5 /\ a <= a') as [Ha' Haa'].
    { destruct a as [|[|[|[|[|[|a]]]]]]; [..|lia];
        destruct c; cbn in Hstep; inversion Hstep; lia. }
    specialize (IH a' Ha' Hfollow).
    destruct a as [|[|[|[|[|[|a]]]]]]; [..|lia];
      destruct c; cbn in Hstep; inversion Hstep; subst a';
      cbn [List.filter is_ChatCompletion is_CreateGitRef is_CreateFile
           is_CreatePull is_CreateIssueComment length] in *;
      cbn in IH |- *; lia.
Qed.

(** X13. In every world, the calls of a generator run follow the stages
    of [generator_step]: the posts are read first, then come the request
    for a topic, the request for the draft, the branch, the file and the
    pull request.  So there are at most two inference calls and at most
    one branch, one file and one pull request; no file without the branch
    and no pull request without the file; a branch only after both
    inference calls; no comment; and a run that returns has opened its
    pull request. *)
Theorem generator_call_order (cfg : Config) (w : World) :
  let log := snd (run (main cfg) w) in
  (exists s, follow generator_step 0 log = Some s /\
             (fst (run (main cfg) w) = inr tt -> s = 5)) /\
  count_calls is_ChatCompletion log <= 2 /\
  count_calls is_CreateGitRef log <= 1 /\
  count_calls is_CreateFile log <= count_calls is_CreateGitRef log /\
  count_calls is_CreatePull log <= count_calls is_CreateFile log /\
  (count_calls is_CreateGitRef log = 1 ->
   count_calls is_ChatCompletion log = 2) /\
  count_calls is_CreateIssueComment log = 0 /\
  (fst (run (main cfg) w) = inr tt -> count_calls is_CreatePull log = 1).
Proof.
  intros log.
  destruct (moves_main cfg w [] eq_refl) as (s & Hs & Hrange & Hret).
  fold (run (main cfg) w) in Hs, Hret. fold log in Hs.
  destruct (generator_stage_counts log 0 s ltac:(lia) Hs)
    as (Hs5 & Hchat & Href & Hfile & Hpull & Hcomment).
  cbn in Hchat, Href, Hfile, Hpull.
  assert (fst (run (main cfg) w) = inr tt -> s = 5) as Hend
    by (intros H; now apply (Hret tt)).
  split; [exists s; auto|].
  destruct s as [|[|[|[|[|[|s]]]]]]; cbn in *; try lia;
    repeat split; try lia; intros H; try lia;
    specialize (Hend H); lia.
Qed.

End GeneratorCounts.

Lemma generator_call_order_witness :
  count_calls Protocol.is_CreatePull
    (snd (run (@BlogAgent.main Samples.table_externals Samples.generator_config)
              (Samples.world_of Samples.empty_repo Samples.fenced_intro
                 "# Intro"))) = 1.
Proof.
  apply (@generator_call_order Samples.table_externals
           Samples.generator_config
           (Samples.world_of Samples.empty_repo Samples.fenced_intro "# Intro")).
  vm_compute. reflexivity.
Defined.

Section ReviewerOrder.

Import PrReviewer Protocol.

Lemma moves_select_post (repo : Repo) (pr : PullRequest)
    (files : list string) :
  moves reviewer_step (select_post repo pr files) 0 0.
Proof.
  induction files as [|f files IH]; cbn [select_post]; [apply moves_ret|].
  destruct (is_post_document f); [|exact IH].
  repeat moves_step.
Qed.

Lemma moves_get_post_content (repo : Repo) (pr : PullRequest) :
  moves reviewer_step (get_post_content repo pr) 0 0.
Proof.
  unfold get_post_content.
  eapply moves_bind; [|intros files; apply moves_select_post|lia].
  moves_step.
Qed.

Lemma settles_main (cfg : Config) :
  settles reviewer_step (main cfg) 0 2 (fun s => s = 0 \/ s = 2).
Proof.
  unfold main.
  eapply settles_bind; [moves_step| |lia]. intros _.
  eapply settles_bind; [repeat moves_step| |lia]. intros repo.
  eapply settles_bind; [moves_step| |lia]. intros pr.
  eapply settles_bind; [moves_step| |lia]. intros _.
  eapply settles_bind; [moves_step| |lia]. intros _.
  eapply settles_bind; [apply moves_get_post_content| |lia]. intros found.
  cbv zeta. destruct (String.eqb (snd found) "").
  - eapply moves_settles; [moves_step|lia|now left].
  - eapply moves_settles; [|apply Nat.le_refl|now right].
    unfold post_review_comment. repeat moves_step.
Qed.

Lemma reviewer_stage_counts (log : list Call) (a s : nat) :
  a <= 2 ->
  follow reviewer_step a log = Some s ->
  a <= s <= 2 /\
  count_calls is_ChatCompletion log + Nat.min a 1 = Nat.min s 1 /\
  count_calls is_CreateIssueComment log + (if Nat.leb 2 a then 1 else 0)
  = (if Nat.leb 2 s then 1 else 0) /\
  count_calls is_CreateGitRef log = 0 /\
  count_calls is_CreateFile log = 0 /\
  count_calls is_CreatePull log = 0.
Proof.
  unfold count_calls. revert a.
  induction log as [|c log IH]; intros a Ha.
  - intros [= <-]. cbn. repeat split; lia.
  - cbn [follow].
    destruct (reviewer_step a c) as [a'|] eqn:Hstep; [|discriminate].
    intros Hfollow.
    assert (a' <= 2 /\ a <= a') as [Ha' Haa'].
    { destruct a as [|[|[|a]]]; [..|lia];
        destruct c; cbn in Hstep; inversion Hstep; lia. }
    specialize (IH a' Ha' Hfollow).
    destruct a as [|[|[|a]]]; [..|lia];
      destruct c; cbn in Hstep; inversion Hstep; subst a';
      cbn [List.filter is_ChatCompletion is_CreateGitRef is_CreateFile
           is_CreatePull is_CreateIssueComment length] in *;
      cbn in IH |- *; lia.
Qed.

(** X14. In every world, the calls of a review run follow the stages of
    [reviewer_step]: the pull request and its file are read first, then
    comes at most one inference call, then at most one comment.  No
    comment is posted without a review from the model, a run that returns
    has posted the review it obtained, and the reviewer never creates a
    branch, a file or a pull request. *)
Theorem reviewer_call_order (cfg : Config) (w : World) :
  let log := snd (run (main cfg) w) in
  (exists s, follow reviewer_step 0 log = Some s) /\
  count_calls is_ChatCompletion log <= 1 /\
  count_calls is_CreateIssueComment log <= count_calls is_ChatCompletion log /\
  (fst (run (main cfg) w) = inr tt ->
   count_calls is_CreateIssueComment log = count_calls is_ChatCompletion log) /\
  count_calls is_CreateGitRef log = 0 /\
  count_calls is_CreateFile log = 0 /\
  count_calls is_CreatePull log = 0.
Proof.
  intros log.
  destruct (settles_main cfg w [] eq_refl) as (s & Hs & Hrange & Hret).
  fold (run (main cfg) w) in Hs, Hret. fold log in Hs.
  destruct (reviewer_stage_counts log 0 s ltac:(lia) Hs)
    as (Hs2 & Hchat & Hcomment & Href & Hfile & Hpull).
  cbn in Hchat, Hcomment.
  assert (fst (run (main cfg) w) = inr tt -> s = 0 \/ s = 2) as Hend
    by (intros H; now apply (Hret tt)).
  split; [exists s; auto|].
  destruct s as [|[|[|s]]]; cbn in *; try lia;
    repeat split; try lia; intros H; try lia;
    specialize (Hend H); lia.
Qed.

End ReviewerOrder.

Lemma reviewer_call_order_witness :
  let w := Samples.world_of
             (Samples.review_repo Samples.files_with_post "# Intro")
             "" "Nota: 8" in
  count_calls is_CreateIssueComment
    (snd (run (PrReviewer.main (Samples.reviewer_config 8192)) w))
  = count_calls is_ChatCompletion
      (snd (run (PrReviewer.main (Samples.reviewer_config 8192)) w)).
Proof.
  intros w.
  apply (reviewer_call_order (Samples.reviewer_config 8192) w).
  vm_compute. reflexivity.
Defined.

(** ** Runs that succeed *)

Section GeneratorSuccess.

Import BlogAgent.
Context `{ext : Externals}.

Lemma filter_true {A} (l : list A) : List.filter (fun _ => true) l = l.
Proof. induction l as [|x l IH]; simpl; [reflexivity | now rewrite IH]. Qed.

(** What [get_existing_posts] returns does not depend on the log. *)
Lemma get_existing_posts_result (repo : Repo) (w : World) (log : list Call) :
  fst (get_existing_posts repo w log) = fst (run (get_existing_posts repo) w).
Proof.
  unfold run.
  destruct (get_contents repo POSTS_DIR None) as [e|[f|items]] eqn:Hget.
  - unfold get_existing_posts, bind, try_except, call, print, ret.
    rewrite Hget. destruct (is_GithubException e); reflexivity.
  - unfold get_existing_posts, bind, try_except, call, print, ret, lift.
    rewrite Hget. reflexivity.
  - rewrite !(get_existing_posts_listing _ _ _ _ Hget).
    rewrite <- (filter_true (sorted_by_name items)) at 2.
    apply scan_posts_skip; [reflexivity|]. discriminate.
Qed.

Lemma choose_next_topic_at (posts : list Post) (client : InferenceClient)
    (w : World) (log : list Call) (lines : list string) (answer : string)
    (others : list (option string)) (topic : pyval) :
  let prompt :=
    topic_prompt (str_or (str_join nl lines) "Nenhum post publicado ainda.") in
  map_exn topic_line posts = inr lines ->
  chat w client MODEL_ID prompt 600 0.7 = inr (Some answer :: others) ->
  json_loads (strip_fences (strip answer)) = Some topic ->
  choose_next_topic posts client w log =
  (inr topic, (log ++ [ChatCompletion client MODEL_ID prompt 600 0.7])%list).
Proof.
  intros prompt Hlines Hchat Hjson.
  unfold choose_next_topic, bind, lift, with_world, call, decode_json.
  rewrite Hlines. fold prompt. rewrite Hchat.
  unfold first_content. unfold strip_fences in Hjson. now rewrite Hjson.
Qed.

Lemma generate_post_content_at (topic : pyval) (posts : list Post)
    (client : InferenceClient) (w : World) (log : list Call)
    (title slug description tags outline categories : pyval)
    (joined : string) (sections : list pyval) (answer : string)
    (others : list (option string)) :
  py_get topic "outline" (PList []) = inr outline ->
  py_iter outline = inr sections ->
  py_getitem topic "title" = inr title ->
  py_getitem topic "slug" = inr slug ->
  py_getitem topic "description" = inr description ->
  py_getitem topic "tags" = inr tags ->
  py_join ", " tags = inr joined ->
  py_get topic "categories" (PList [PStr "rust"]) = inr categories ->
  (forall prompt,
     chat w client MODEL_ID prompt 4096 0.75 = inr (Some answer :: others)) ->
  exists prompt,
    generate_post_content topic posts client w log =
    (inr (strip answer),
     (log ++ [Now; ChatCompletion client MODEL_ID prompt 4096 0.75])%list).
Proof.
  intros Houtline Hiter Htitle Hslug Hdesc Htags Hjoin Hcat Hchat.
  unfold generate_post_content, bind, lift, now, with_world, call.
  rewrite Houtline, Hiter, Htitle, Hslug, Hdesc, Htags, Hjoin, Hcat, Hchat.
  eexists. cbn [first_content]. rewrite <- app_assoc. reflexivity.
Qed.

Lemma create_pull_request_at (repo : Repo) (w : World) (log : list Call)
    (n : Z) (topic : pyval) (content sha url : string)
    (title slug tags description : pyval) (tag_items : list pyval) :
  py_getitem topic "slug" = inr slug ->
  py_getitem topic "title" = inr title ->
  py_getitem topic "tags" = inr tags ->
  py_iter tags = inr tag_items ->
  py_getitem topic "description" = inr description ->
  get_branch repo MAIN_BRANCH = inr sha ->
  (forall ref, create_git_ref repo ref sha = inr tt) ->
  (forall path message branch,
     create_file repo path message content branch = inr tt) ->
  (forall head pr_title body,
     create_pull repo MAIN_BRANCH head pr_title body false = inr url) ->
  exists branch body,
    create_pull_request repo n topic content w log =
    (inr url,
     (log ++
      [ Now; Now;
        GetBranch MAIN_BRANCH;
        CreateGitRef ("refs/heads/" ++ branch) sha;
        Print ("  🌿 Branch criada: " ++ branch);
        CreateFile (POSTS_DIR ++ "/" ++ (zero_pad 4 n ++ "-" ++ fmt slug)
                    ++ "/" ++ POST_FILENAME)
                   ("feat(blog): add post " ++ (zero_pad 4 n ++ "-" ++ fmt slug))
                   content branch;
        Print ("  📄 Arquivo criado: " ++ POSTS_DIR ++ "/"
               ++ (zero_pad 4 n ++ "-" ++ fmt slug) ++ "/" ++ POST_FILENAME);
        CreatePull MAIN_BRANCH branch ("[Blog Agent] " ++ fmt title) body
                   false ])%list).
Proof.
  intros Hslug Htitle Htags Hiter Hdesc Hbranch Href Hfile Hpull.
  unfold create_pull_request, bind, lift, print, call, now.
  rewrite Hslug, Htitle, Htags, Hiter, Hdesc, Hbranch, Href, Hfile, Hpull.
  cbv beta iota. do 2 eexists. repeat rewrite <- app_assoc. reflexivity.
Qed.

(** X15. A generator run against collaborators that answer: the model
    answers the request for a topic with a text whose stripped form
    decodes to a topic with the fields the run reads, and the request for
    the draft with [draft]; the host accepts the branch, the file and the
    pull request.  Then the run returns, the file it commits sits at
    [posts/<next number, four digits>-<slug>/README.md] and holds the
    stripped draft, the pull request is opened from the branch of that
    file against the main branch, and the last line printed carries the
    address of the pull request. *)
Theorem generator_run_publishes_draft
    (cfg : Config) (w : World) (repo : Repo) (posts : list Post)
    (lines : list string) (answer draft : string)
    (others others' : list (option string)) (topic : pyval)
    (title slug description tags outline categories : pyval)
    (joined : string) (sections tag_items : list pyval) (sha url : string) :
  let client := {| provider := Some "hf-inference"; api_key := HF_TOKEN cfg |} in
  github_get_repo w (GITHUB_TOKEN cfg) (REPO_NAME cfg) = inr repo ->
  fst (run (get_existing_posts repo) w) = inr posts ->
  map_exn topic_line posts = inr lines ->
  chat w client MODEL_ID
       (topic_prompt (str_or (str_join nl lines) "Nenhum post publicado ainda."))
       600 0.7 = inr (Some answer :: others) ->
  json_loads (strip_fences (strip answer)) = Some topic ->
  py_get topic "outline" (PList []) = inr outline ->
  py_iter outline = inr sections ->
  py_getitem topic "title" = inr title ->
  py_getitem topic "slug" = inr slug ->
  py_getitem topic "description" = inr description ->
  py_getitem topic "tags" = inr tags ->
  py_join ", " tags = inr joined ->
  py_iter tags = inr tag_items ->
  py_get topic "categories" (PList [PStr "rust"]) = inr categories ->
  (forall prompt,
     chat w client MODEL_ID prompt 4096 0.75 = inr (Some draft :: others')) ->
  get_branch repo MAIN_BRANCH = inr sha ->
  (forall ref, create_git_ref repo ref sha = inr tt) ->
  (forall path message branch,
     create_file repo path message (strip draft) branch = inr tt) ->
  (forall head pr_title body,
     create_pull repo MAIN_BRANCH head pr_title body false = inr url) ->
  fst (run (main cfg) w) = inr tt /\
  exists branch body rest,
    let dirname := zero_pad 4 (get_next_number posts) ++ "-" ++ fmt slug in
    snd (run (main cfg) w) =
    (rest ++
     [ CreateFile (POSTS_DIR ++ "/" ++ dirname ++ "/" ++ POST_FILENAME)
                  ("feat(blog): add post " ++ dirname) (strip draft) branch;
       Print ("  📄 Arquivo criado: " ++ POSTS_DIR ++ "/" ++ dirname
              ++ "/" ++ POST_FILENAME);
       CreatePull MAIN_BRANCH branch ("[Blog Agent] " ++ fmt title) body false;
       Print (nl ++ "🎉 Concluído! PR disponível em:" ++ nl ++ "   " ++ url) ])%list.
Proof.
  intros client Hrepo Hposts Hlines Hchat Hjson Houtline Hiter Htitle Hslug
         Hdesc Htags Hjoin Htagiter Hcat Hdraft Hbranch Href Hfile Hpull.
  unfold run, main.
  erewrite bind_inr by reflexivity.
  erewrite bind_inr
    by (unfold with_world, call; rewrite Hrepo; reflexivity).
  do 3 (erewrite bind_inr by reflexivity).
  match goal with
  | |- context [bind (get_existing_posts repo) _ w ?L] =>
      pose proof (get_existing_posts_result repo w L) as Hres;
      rewrite Hposts in Hres;
      destruct (get_existing_posts repo w L) as [r L1] eqn:Hrun
  end.
  cbn [fst] in Hres. subst r.
  erewrite bind_inr by exact Hrun.
  do 2 (erewrite bind_inr by reflexivity).
  erewrite bind_inr
    by (apply (choose_next_topic_at posts client w _ lines answer others topic);
        assumption).
  erewrite bind_inr by (unfold lift; rewrite Htitle; reflexivity).
  do 2 (erewrite bind_inr by reflexivity).
  match goal with
  | |- context [bind (generate_post_content topic posts ?c) _ w ?L] =>
      destruct (generate_post_content_at topic posts c w L
                  title slug description tags outline categories joined
                  sections draft others' Houtline Hiter Htitle Hslug Hdesc
                  Htags Hjoin Hcat Hdraft) as [prompt Hgen]
  end.
  erewrite bind_inr by exact Hgen.
  do 2 (erewrite bind_inr by reflexivity).
  match goal with
  | |- context [bind (create_pull_request repo ?n topic ?c) _ w ?L] =>
      destruct (create_pull_request_at repo w L n topic c sha url
                  title slug tags description tag_items Hslug Htitle Htags
                  Htagiter Hdesc Hbranch Href Hfile Hpull)
        as (branch & body & Hpr)
  end.
  erewrite bind_inr by exact Hpr.
  unfold print, call. cbn [fst snd].
  split; [reflexivity|].
  exists branch, body.
  match goal with
  | |- context [(?L ++ [Now; Now; ?a; ?b; ?c; _; _; _])%list] =>
      exists (L ++ [Now; Now; a; b; c])%list
  end.
  cbv zeta. rewrite <- !app_assoc. reflexivity.
Qed.

End GeneratorSuccess.

Lemma generator_run_publishes_draft_witness :
  let w := Samples.world_of Samples.empty_repo Samples.fenced_intro
             ("# Intro" ++ nl) in
  fst (run (@BlogAgent.main Samples.table_externals Samples.generator_config) w)
  = inr tt /\
  exists branch body rest,
    snd (run (@BlogAgent.main Samples.table_externals
                Samples.generator_config) w) =
    (rest ++
     [ CreateFile "posts/0001-intro/README.md"
                  "feat(blog): add post 0001-intro" "# Intro" branch;
       Print "  📄 Arquivo criado: posts/0001-intro/README.md";
       CreatePull "main" branch "[Blog Agent] Intro" body false;
       Print (nl ++ "🎉 Concluído! PR disponível em:" ++ nl ++ "   "
              ++ "https://example.org/pull/1") ])%list.
Proof.
  intros w.
  apply (@generator_run_publishes_draft Samples.table_externals
           Samples.generator_config w Samples.empty_repo [] []
           Samples.fenced_intro ("# Intro" ++ nl) [] [] Samples.intro_topic
           (PStr "Intro") (PStr "intro") (PStr "Primeiros passos")
           (PList [PStr "rust"]) (PList []) (PList [PStr "rust"])
           "rust" [] [PStr "rust"] "c0ffee" "https://example.org/pull/1");
    try reflexivity.
Defined.

Section ReviewerSuccess.

Import PrReviewer.

(** X16. A review run against collaborators that answer: the first
    changed file that passes the test of the selection has a content that
    is not empty, the model answers, the host accepts the comment.  Then
    the run returns after one inference call, whose message holds the
    first 12000 code points of the content (the whole content when it
    has no more), and one comment, which carries the path of the file
    and the stripped answer of the model.  The two lengths that are
    printed are numbers of code points. *)
Theorem review_run_posts_review
    (cfg : Config) (w : World) (repo : Repo) (pr : PullRequest)
    (before after : list string) (filename : string) (f : ContentFile)
    (answer : string) (others : list (option string)) :
  let content := cf_text f in
  let client := {| provider := None; api_key := HF_TOKEN cfg |} in
  let message := REVIEW_PROMPT_format (py_take (Z.to_nat 12000) content) in
  let comment := review_comment filename (strip answer) in
  github_get_repo w (GITHUB_TOKEN cfg) (REPO_NAME cfg) = inr repo ->
  get_pull repo (PR_NUMBER cfg) = inr pr ->
  get_files pr = inr (before ++ filename :: after)%list ->
  Forall (fun x => is_post_document x = false) before ->
  is_post_document filename = true ->
  get_contents repo filename (Some (pr_head_sha pr)) = inr (OneFile f) ->
  content <> "" ->
  chat w client (MODEL_ID cfg) message 8192 0.3 = inr (Some answer :: others) ->
  create_issue_comment pr comment = inr tt ->
  run (main cfg) w =
  (inr tt,
   (review_prelude cfg pr ++
    [ GetContents filename (Some (pr_head_sha pr));
      Print ("   ✅ " ++ BlogAgent.str_of_nat (py_len content)
             ++ " caracteres lidos" ++ nl);
      Print "🤔 Enviando para revisão pelo LLM...";
      ChatCompletion client (MODEL_ID cfg) message 8192 0.3;
      Print ("   ✅ " ++ BlogAgent.str_of_nat (py_len (strip answer))
             ++ " caracteres de revisão gerados" ++ nl);
      Print "💬 Publicando comentário no PR...";
      CreateIssueComment comment;
      Print (nl ++ "🎉 Revisão publicada no PR #"
             ++ str_of_Z (PR_NUMBER cfg) ++ "!") ])%list) /\
  py_len (py_take (Z.to_nat 12000) content) <= Z.to_nat 12000 /\
  (py_len content <= Z.to_nat 12000 ->
   py_take (Z.to_nat 12000) content = content).
Proof.
  intros content client message comment
         Hrepo Hpull Hfiles Hbefore Hmatch Hget Hcontent Hchat Hcomment.
  split; [|split].
  - rewrite (main_run_prelude cfg w repo pr _ Hrepo Hpull Hfiles).
    rewrite select_post_first_match by assumption.
    unfold fetched. rewrite Hget. cbn [BlogAgent.decoded_text snd fst].
    fold content.
    destruct (String.eqb content "") eqn:E;
      [apply String.eqb_eq in E; contradiction|].
    unfold bind, print, with_world, call, lift, post_review_comment.
    fold client. fold message. rewrite Hchat. cbn [first_content].
    fold comment. rewrite Hcomment.
    cbv beta iota. repeat rewrite <- app_assoc. reflexivity.
  - rewrite py_len_take. lia.
  - apply py_take_all.
Qed.

End ReviewerSuccess.

Lemma review_run_posts_review_witness :
  let repo := Samples.review_repo Samples.files_with_post "# Introdução" in
  let pr := Samples.pull_with Samples.files_with_post in
  let w := Samples.world_of repo "" (" Nota: 8 (ótimo) " ++ nl) in
  let cfg := Samples.reviewer_config 8192 in
  fst (run (PrReviewer.main cfg) w) = inr tt /\
  List.filter is_CreateIssueComment (snd (run (PrReviewer.main cfg) w))
  = [ CreateIssueComment
        (PrReviewer.review_comment "posts/0001-intro/README.md"
           "Nota: 8 (ótimo)") ] /\
  In (Print ("   ✅ 12 caracteres lidos" ++ nl))
     (snd (run (PrReviewer.main cfg) w)) /\
  In (Print ("   ✅ 15 caracteres de revisão gerados" ++ nl))
     (snd (run (PrReviewer.main cfg) w)).
Proof.
  intros repo pr w cfg.
  pose proof (review_run_posts_review cfg w repo pr
                ["docs/guide.md"] [] "posts/0001-intro/README.md"
                {| cf_name := "README.md"; cf_type := "file";
                   cf_text := "# Introdução" |}
                (" Nota: 8 (ótimo) " ++ nl) []
                eq_refl eq_refl eq_refl
                ltac:(repeat constructor) eq_refl eq_refl
                ltac:(discriminate) eq_refl eq_refl) as [Hrun _].
  rewrite Hrun. vm_compute. intuition auto.
Defined.

(** ** The configuration read from the environment *)

Section Configuration.

Context `{ext : Externals}.

(** X17. The generator starts exactly when [GITHUB_TOKEN], [HF_TOKEN] and
    [GITHUB_REPOSITORY] are set, with their values as configuration;
    otherwise the script raises [KeyError] for the first of them that is
    missing, before any call or print. *)
Theorem generator_configuration (environ : gmap string string) :
  (forall cfg,
     BlogAgent.load_config environ = inr cfg <->
     environ !! "GITHUB_TOKEN" = Some (BlogAgent.GITHUB_TOKEN cfg) /\
     environ !! "HF_TOKEN" = Some (BlogAgent.HF_TOKEN cfg) /\
     environ !! "GITHUB_REPOSITORY" = Some (BlogAgent.REPO_NAME cfg)) /\
  (forall e w,
     BlogAgent.load_config environ = inl e ->
     run (BlogAgent.script environ) w = (inl e, []) /\
     exists before k after,
       ["GITHUB_TOKEN"; "HF_TOKEN"; "GITHUB_REPOSITORY"]
       = (before ++ k :: after)%list /\
       e = KeyError k /\ environ !! k = None /\
       Forall (fun k' => environ !! k' <> None) before).
Proof.
  unfold BlogAgent.load_config, BlogAgent.environ_getitem, ebind. split.
  - intros [t h r]. cbn.
    destruct (environ !! "GITHUB_TOKEN") as [t'|];
      [|split; [discriminate | intros [H _]; discriminate H]].
    destruct (environ !! "HF_TOKEN") as [h'|];
      [|split; [discriminate | intros (_ & H & _); discriminate H]].
    destruct (environ !! "GITHUB_REPOSITORY") as [r'|];
      [|split; [discriminate | intros (_ & _ & H); discriminate H]].
    split.
    + intros [= -> -> ->]. auto.
    + intros ([= ->] & [= ->] & [= ->]). reflexivity.
  - intros e w Hload. split.
    + unfold run, BlogAgent.script, bind, lift.
      unfold BlogAgent.load_config, BlogAgent.environ_getitem, ebind.
      now rewrite Hload.
    + destruct (environ !! "GITHUB_TOKEN") as [t'|] eqn:E1.
      2:{ exists [], "GITHUB_TOKEN", ["HF_TOKEN"; "GITHUB_REPOSITORY"].
          injection Hload as <-. repeat split; auto. }
      destruct (environ !! "HF_TOKEN") as [h'|] eqn:E2.
      2:{ exists ["GITHUB_TOKEN"], "HF_TOKEN", ["GITHUB_REPOSITORY"].
          injection Hload as <-. repeat split; auto.
          repeat constructor. congruence. }
      destruct (environ !! "GITHUB_REPOSITORY") as [r'|] eqn:E3;
        [discriminate|].
      exists ["GITHUB_TOKEN"; "HF_TOKEN"], "GITHUB_REPOSITORY", [].
      injection Hload as <-. repeat split; auto.
      repeat constructor; congruence.
Qed.

End Configuration.

Section ReviewerConfiguration.

Import PrReviewer.

Lemma token_lookup (environ : gmap string string) (t : string) :
  environ_get_or_getitem environ "GH_PAT" "GITHUB_TOKEN" = inr t <->
  (environ !! "GH_PAT" = Some t /\ t <> "") \/
  ((environ !! "GH_PAT" = None \/ environ !! "GH_PAT" = Some "") /\
   environ !! "GITHUB_TOKEN" = Some t).
Proof.
  unfold environ_get_or_getitem, environ_get, environ_getitem.
  destruct (environ !! "GH_PAT") as [p|] eqn:Hpat.
  - destruct (String.eqb p "") eqn:E.
    + apply String.eqb_eq in E. subst p.
      destruct (environ !! "GITHUB_TOKEN") as [g|]; split.
      * intros [= ->]. right. auto.
      * intros [[[= <-] H]|[_ [= ->]]]; [congruence | reflexivity].
      * discriminate.
      * intros [[[= <-] H]|[_ H]]; [congruence | discriminate H].
    + apply String.eqb_neq in E. split.
      * intros [= ->]. left. auto.
      * intros [[[= ->] _]|[[H|[= ->]] _]];
          [reflexivity | discriminate H | congruence].
  - destruct (environ !! "GITHUB_TOKEN") as [g|]; split.
    + intros [= ->]. right. auto.
    + intros [[H _]|[_ [= ->]]]; [discriminate H | reflexivity].
    + discriminate.
    + intros [[H _]|[_ H]]; discriminate H.
Qed.

(** X18. The reviewer starts exactly when: a token is set, [GH_PAT] when
    it is set and not empty and [GITHUB_TOKEN] otherwise; [HF_TOKEN] and
    [GITHUB_REPOSITORY] are set; [PR_NUMBER] is set to a text [int]
    accepts; and [CONTENT_MAX_TOKENS] is set.  The model is [MODEL_ID]
    when it is set and not empty, the default model otherwise; the budget
    is the value of [CONTENT_MAX_TOKENS] when [int] accepts it and it is
    not zero, and 8192 otherwise. *)
Theorem reviewer_configuration (environ : gmap string string) (cfg : Config) :
  load_config environ = inr cfg <->
  ((environ !! "GH_PAT" = Some (GITHUB_TOKEN cfg) /\ GITHUB_TOKEN cfg <> "") \/
   ((environ !! "GH_PAT" = None \/ environ !! "GH_PAT" = Some "") /\
    environ !! "GITHUB_TOKEN" = Some (GITHUB_TOKEN cfg))) /\
  environ !! "HF_TOKEN" = Some (HF_TOKEN cfg) /\
  environ !! "GITHUB_REPOSITORY" = Some (REPO_NAME cfg) /\
  (exists s, environ !! "PR_NUMBER" = Some s /\
             py_int s = Some (PR_NUMBER cfg)) /\
  MODEL_ID cfg =
    match environ !! "MODEL_ID" with
    | Some m => if String.eqb m "" then "deepseek-ai/DeepSeek-V3-0324" else m
    | None => "deepseek-ai/DeepSeek-V3-0324"
    end /\
  (exists s, environ !! "CONTENT_MAX_TOKENS" = Some s /\
             CONTENT_MAX_TOKENS cfg =
               match py_int s with
               | Some n => if (n =? 0)%Z then 8192%Z else n
               | None => 8192%Z
               end).
Proof.
  destruct cfg as [t h r n m b]. cbn [GITHUB_TOKEN HF_TOKEN REPO_NAME
                                      PR_NUMBER MODEL_ID CONTENT_MAX_TOKENS].
  rewrite <- token_lookup.
  unfold load_config, ebind, load_content_max_tokens, int_of, int_or,
    opt_or, str_or, environ_get, environ_getitem.
  destruct (environ_get_or_getitem environ "GH_PAT" "GITHUB_TOKEN") as [e|t'];
    [split; [discriminate | intros [H _]; discriminate H]|].
  destruct (environ !! "HF_TOKEN") as [h'|];
    [|split; [discriminate | intros (_ & H & _); discriminate H]].
  destruct (environ !! "GITHUB_REPOSITORY") as [r'|];
    [|split; [discriminate | intros (_ & _ & H & _); discriminate H]].
  destruct (environ !! "PR_NUMBER") as [s|];
    [|split; [discriminate
             | intros (_ & _ & _ & (s & H & _) & _); discriminate H]].
  destruct (py_int s) as [n'|] eqn:Hn;
    [|split; [discriminate
             | intros (_ & _ & _ & (s' & [= <-] & H) & _); congruence]].
  destruct (environ !! "CONTENT_MAX_TOKENS") as [c|];
    [|split; [discriminate
             | intros (_ & _ & _ & _ & _ & (s' & H & _)); discriminate H]].
  split.
  - destruct (py_int c) as [k|] eqn:Hc; cbn [is_ValueError];
      intros [= -> -> -> -> <- <-];
      repeat apply conj; try reflexivity;
      try (eexists; split; [reflexivity|]; first [exact Hn | now rewrite Hc]);
      destruct (environ !! "MODEL_ID"); reflexivity.
  - intros ([= ->] & [= ->] & [= ->] & (s' & [= <-] & Hs') & -> &
            (c' & [= <-] & ->)).
    assert (n' = n) as -> by congruence.
    destruct (py_int c) as [k|]; cbn [is_ValueError];
      destruct (environ !! "MODEL_ID"); reflexivity.
Qed.

End ReviewerConfiguration.

(** A number written with a full-width digit after a no-break space is
    read by [int]; a budget of 4301 digits is not, and gives the
    default. *)
Lemma reviewer_configuration_witness :
  PrReviewer.load_config
    (<["GH_PAT" := "pat-token"]>
       (<["PR_NUMBER" := utf8_encode 0xA0 ++ "７"]>
          (Samples.reviewer_environ (Some (zeros 4301)))))
  = inr {| PrReviewer.GITHUB_TOKEN := "pat-token";
           PrReviewer.HF_TOKEN := "hf-token";
           PrReviewer.REPO_NAME := "desbravando/blog";
           PrReviewer.PR_NUMBER := 7;
           PrReviewer.MODEL_ID := "deepseek-ai/DeepSeek-V3-0324";
           PrReviewer.CONTENT_MAX_TOKENS := 8192 |}.
Proof.
  apply (proj2 (reviewer_configuration _ _)).
  split; [left; split; [vm_compute; reflexivity | discriminate]|].
  split; [vm_compute; reflexivity|].
  split; [vm_compute; reflexivity|].
  split; [exists (utf8_encode 0xA0 ++ "７"); split; vm_compute; reflexivity|].
  split; [vm_compute; reflexivity|].
  exists (zeros 4301). split; vm_compute; reflexivity.
Defined.

Lemma generator_configuration_witness :
  run (@BlogAgent.script Samples.table_externals
         (delete "HF_TOKEN" Samples.generator_environ))
      (Samples.world_of Samples.empty_repo Samples.fenced_intro "# Intro")
  = (inl (KeyError "HF_TOKEN"), []).
Proof.
  apply (proj2 (@generator_configuration Samples.table_externals
                  (delete "HF_TOKEN" Samples.generator_environ))).
  vm_compute. reflexivity.
Defined.
